(** * pythonsnipev2: token lifecycle pipeline

    A shallow embedding of the safety filter, the two predictive advisors,
    the execution engine, the paper-trading position monitor and the
    model trainer, followed by the properties established about them.

    Conventions of the embedding.
    - A Python number (int or float) is an exact rational [Q].
      Equalities between numbers are stated with [==] (Qeq).  Rounding of
      binary64 arithmetic is not part of this model; module [Binary64]
      and the section on rounding evaluate on doubles the arithmetic
      whose value a property names.
    - A dict with a fixed set of heterogeneous keys is a record whose
      fields are [option]s ([None]: key absent); a dict keyed by names
      holding values of one kind is a [gmap string _].
    - A [try]/[except] block is a total function: each operation that can
      raise returns a sum and the handler's value is returned in its place.
    - The wall clock, HTTP replies, random draws and installed libraries
      are explicit inputs. *)

From Stdlib Require Import QArith Qround Qminmax Lqa Lia ZArith Ascii String List Permutation Sorted.
From Stdlib Require Import Floats.
From stdpp Require Import gmap strings list pretty.

Open Scope Q_scope.

(* ===================================================================== *)
(** * Python values and operators *)
(* ===================================================================== *)

Module Py.

(** [a >= b], [a <= b], [a > b], [a < b] and [a == b] on numbers. *)
Definition ge (a b : Q) : bool := Qle_bool b a.
Definition le (a b : Q) : bool := Qle_bool a b.
Definition gt (a b : Q) : bool := negb (Qle_bool a b).
Definition lt (a b : Q) : bool := negb (Qle_bool b a).
Definition eq (a b : Q) : bool := Qeq_bool a b.

(** [max(a, b)] and [min(a, b)]: the first argument wins ties. *)
Definition max (a b : Q) : Q := if gt b a then b else a.
Definition min (a b : Q) : Q := if lt b a then b else a.

(** [int(x)]: truncation towards zero. *)
Definition int (x : Q) : Z := if Qle_bool 0 x then Qfloor x else Qceiling x.

(** [round(x)]: nearest integer, ties to the even one. *)
Definition round (x : Q) : Z :=
  let f := Qfloor x in
  let d := x - inject_Z f in
  if lt d 0.5 then f
  else if gt d 0.5 then (f + 1)%Z
  else if Z.even f then f else (f + 1)%Z.

(** [a / b] on floats: [None] stands for ZeroDivisionError. *)
Definition div (a b : Q) : option Q :=
  if eq b 0 then None else Some (a / b).

(** [l[i]] on a list: negative indices count from the end, [None]
  stands for IndexError. *)
Definition getitem {A} (l : list A) (i : Z) : option A :=
  let n := Z.of_nat (length l) in
  if (0 <=? i)%Z then l !! Z.to_nat i
  else if (- n <=? i)%Z then l !! Z.to_nat (n + i)
  else None.

(** [sep.join(parts)]. *)
Fixpoint join (sep : string) (parts : list string) : string :=
  match parts with
  | [] => ""
  | [p] => p
  | p :: rest => p ++ sep ++ join sep rest
  end.

(** [sum(l)] and [len(l)] as a number. *)
Definition sum (l : list Q) : Q := fold_left Qplus l 0.
Definition len {A} (l : list A) : Q := inject_Z (Z.of_nat (length l)).

(** The result of an operation that may raise. *)
Inductive call (A : Type) : Type :=
  | Returns (a : A)
  | Raises.
Arguments Returns {A} a.
Arguments Raises {A}.

End Py.

(** Format specifications used by the f-strings of the program:
  [{x}], [{x:.1f}] and [{x:,.0f}]. *)
Class PyFormat := {
  fmt : Q -> string;
  fmt_1f : Q -> string;
  fmt_comma_0f : Q -> string
}.

(* ===================================================================== *)
(** * Token snapshots *)
(* ===================================================================== *)

(** The value stored under ['timestamp'].  What the program does with it
    depends only on its Python type and on its distance to the clock. *)
Inductive Timestamp : Type :=
| TsDatetime (age_minutes : option Q)
    (** a [datetime]: [Some a] when it is naive and [utcnow() - ts] is
        [a] minutes, [None] when it is timezone-aware and the
        subtraction raises TypeError *)
| TsString (parsed : option Q)
    (** a [str]: [Some a] when [fromisoformat] yields a naive datetime
        [a] minutes old, [None] when parsing or the subtraction raises *)
| TsOther.
    (** any other value, [None] included *)

Record TokenData : Type := {
  address : option string;
  source : option string;
  liquidity_usd : option Q;
  liquidity : option Q;
  holders : option Q;
  top_holder_percent : option Q;
  timestamp : option Timestamp
}.

(** [d.get(key, dflt)] on an optional field. *)
Definition get {A} (field : option A) (dflt : A) : A :=
  match field with Some v => v | None => dflt end.

(* ===================================================================== *)
(** * modules/safety_filters.py *)
(* ===================================================================== *)

Module SafetyFilters.

Record Config : Type := {
  min_safety_score : Q;
  min_rugcheck : Q;
  min_liquidity : Q;
  min_holders : Q;
  max_top_holder_pct : Q;
  max_age_minutes : Q;
  check_honeypot : bool
  }.

(** Outcome of one HTTP GET with [timeout=5]. *)
Inductive Http (A : Type) : Type :=
  | Http200 (json : A)     (** status 200, body decoded *)
  | HttpStatus             (** any other status *)
  | HttpTimeout            (** asyncio.TimeoutError *)
  | HttpError.             (** any other exception *)
Arguments Http200 {A} json.
Arguments HttpStatus {A}.
Arguments HttpTimeout {A}.
Arguments HttpError {A}.

(** The outside world of one [analyze_token] call. *)
Record World : Type := {
  rugcheck_reply : Http (option Q);   (** the ['score'] key of the report *)
  honeypot_reply : Http (option bool);(** ['honeypotResult']['isHoneypot'] *)
  clock_gap : Q                       (** minutes between two [utcnow()] calls *)
  }.

Record RugcheckResult : Type := {
  rc_passed : bool; rc_score : Q; rc_reason : option string }.
Record LiquidityResult : Type := {
  lq_passed : bool; lq_amount : Q; lq_reason : option string }.
Record HolderResult : Type := {
  hd_passed : bool; hd_count : Q; hd_top_holder_pct : Q;
  hd_reason : option string }.
Record AgeResult : Type := {
  ag_passed : bool; ag_age_minutes : Z; ag_reason : option string }.
Record ContractResult : Type := {
  ct_passed : bool; ct_reason : option string }.

Record Details : Type := {
  rugcheck : RugcheckResult;
  liquidity_d : LiquidityResult;
  holders_d : HolderResult;
  age : AgeResult;
  contract : ContractResult
  }.

Record Report : Type := {
  safe : bool;
  score : Z;
  passed_checks : Z;
  total_checks : Z;
  details : Details;
  reasons : list (option string)
  }.

Section Layers.
Context `{PyFormat}.
Variable self : Config.

(** Layer 1 *)
Definition _check_rugcheck (w : World) (token_data : TokenData) : RugcheckResult :=
  let network := get (source token_data) "solana"%string in
  let fallback :=
    let simulated_score := 7 in
    {| rc_passed := Py.ge simulated_score (min_rugcheck self);
       rc_score := simulated_score;
       rc_reason := None |} in
  if bool_decide (network = "solana"%string) || bool_decide (network = "raydium"%string) then
    match rugcheck_reply w with
    | Http200 data =>
        let score := get data 0 in
        {| rc_passed := Py.ge score (min_rugcheck self);
           rc_score := score;
           rc_reason :=
             if Py.lt score (min_rugcheck self)
             then Some ("RugCheck score too low: " ++ fmt score ++ "/10")%string
             else None |}
    | HttpStatus | HttpTimeout => fallback
    | HttpError => {| rc_passed := true; rc_score := 7; rc_reason := None |}
    end
  else fallback.

(** Layer 2 *)
Definition _check_liquidity (token_data : TokenData) : LiquidityResult :=
  let liquidity_usd :=
    match liquidity token_data, liquidity_usd token_data with
    | Some liquidity_sol, None => liquidity_sol * 150
    | _, usd => get usd 0
    end in
  {| lq_passed := Py.ge liquidity_usd (min_liquidity self);
     lq_amount := liquidity_usd;
     lq_reason :=
       if Py.lt liquidity_usd (min_liquidity self)
       then Some ("Low liquidity: $" ++ fmt_comma_0f liquidity_usd
                  ++ " (min: $" ++ fmt_comma_0f (min_liquidity self) ++ ")")%string
       else None |}.

Definition too_few_holders (holders_count : Q) : string :=
  ("Too few holders: " ++ fmt holders_count
   ++ " (min: " ++ fmt (min_holders self) ++ ")")%string.

Definition high_concentration (top_holder_pct : Q) : string :=
  ("High concentration: " ++ fmt_1f top_holder_pct
   ++ "% (max: " ++ fmt (max_top_holder_pct self) ++ "%)")%string.

(** Layer 3 *)
Definition _check_holders (token_data : TokenData) : HolderResult :=
  let holders_count := get (holders token_data) 0 in
  let top_holder_pct := get (top_holder_percent token_data) 0 in
  let holders_count := if Py.eq holders_count 0 then 75 else holders_count in
  let top_holder_pct := if Py.eq top_holder_pct 0 then 45 else top_holder_pct in
  let reasons := [] in
  let reasons :=
    if Py.lt holders_count (min_holders self)
    then reasons ++ [too_few_holders holders_count] else reasons in
  let reasons :=
    if Py.gt top_holder_pct (max_top_holder_pct self)
    then reasons ++ [high_concentration top_holder_pct] else reasons in
  {| hd_passed := bool_decide (length reasons = 0%nat);
     hd_count := holders_count;
     hd_top_holder_pct := top_holder_pct;
     hd_reason :=
       match reasons with
       | [] => None
       | _ => Some (Py.join "; " reasons)
       end |}.

(** Layer 4 *)
Definition _check_age (w : World) (token_data : TokenData) : AgeResult :=
  let age_minutes : Py.call Q :=
    match timestamp token_data with
    | Some (TsString (Some a)) | Some (TsDatetime (Some a)) => Py.Returns a
    | Some (TsString None) | Some (TsDatetime None) => Py.Raises
    | Some TsOther | None => Py.Returns (clock_gap w)
    end in
  match age_minutes with
  | Py.Returns age_minutes =>
      {| ag_passed := Py.le age_minutes (max_age_minutes self);
         ag_age_minutes := Py.int age_minutes;
         ag_reason :=
           if Py.gt age_minutes (max_age_minutes self)
           then Some ("Token too old: " ++ fmt (inject_Z (Py.int age_minutes))
                      ++ " minutes (max: " ++ fmt (max_age_minutes self) ++ ")")%string
           else None |}
  | Py.Raises =>
      {| ag_passed := true; ag_age_minutes := 2; ag_reason := None |}
  end.

(** Layer 5 *)
Definition _check_contract (w : World) (token_data : TokenData) : ContractResult :=
  let pass := {| ct_passed := true; ct_reason := None |} in
  if negb (check_honeypot self) then pass
  else
    let network := get (source token_data) "solana"%string in
    if bool_decide (network = "bsc"%string) || bool_decide (network = "pancakeswap"%string) then
      match honeypot_reply w with
      | Http200 data =>
          let is_honeypot := get data false in
          {| ct_passed := negb is_honeypot;
             ct_reason := if is_honeypot then Some "Honeypot detected"%string else None |}
      | HttpStatus | HttpTimeout => pass
      | HttpError => pass
      end
    else pass.

(** One layer's contribution: [passed_checks += 1], or the reason is
  appended. *)
Definition tally (passed : bool) (reason : option string)
    (acc : Z * list (option string)) : Z * list (option string) :=
  if passed then ((fst acc + 1)%Z, snd acc) else (fst acc, snd acc ++ [reason]).

Definition analyze_token (w : World) (token_data : TokenData) : Report :=
  let total := 5%Z in
  let acc := (0%Z, []) in
  let rugcheck_result := _check_rugcheck w token_data in
  let acc := tally (rc_passed rugcheck_result) (rc_reason rugcheck_result) acc in
  let liquidity_result := _check_liquidity token_data in
  let acc := tally (lq_passed liquidity_result) (lq_reason liquidity_result) acc in
  let holder_result := _check_holders token_data in
  let acc := tally (hd_passed holder_result) (hd_reason holder_result) acc in
  let age_result := _check_age w token_data in
  let acc := tally (ag_passed age_result) (ag_reason age_result) acc in
  let contract_result := _check_contract w token_data in
  let acc := tally (ct_passed contract_result) (ct_reason contract_result) acc in
  let score := Py.int ((inject_Z (fst acc) / inject_Z total) * 100) in
  {| safe := Py.ge (inject_Z score) (min_safety_score self);
     score := score;
     passed_checks := fst acc;
     total_checks := total;
     details := {| rugcheck := rugcheck_result;
                   liquidity_d := liquidity_result;
                   holders_d := holder_result;
                   age := age_result;
                   contract := contract_result |};
     reasons := snd acc |}.

End Layers.

End SafetyFilters.

(* ===================================================================== *)
(** * main_paper.py: the position monitor *)
(* ===================================================================== *)

Module PaperTradingBot.

(** The strategy settings read by the monitor. *)
Record Config : Type := {
  take_profit : Q;
  stop_loss : Q;
  trailing_stop : bool;
  trailing_distance : Q
}.

(** [self.current_position]; the monitor holds a reference to this one
    dict and writes ['peak_price'] in place. *)
Record Position : Type := {
  token : string;
  amount : Q;
  entry_price : Q;
  peak_price : Q
}.

Definition set_peak_price (position : Position) (p : Q) : Position :=
  {| token := token position; amount := amount position;
     entry_price := entry_price position; peak_price := p |}.

(** The demo price of [_simulate_buy], 0.00000123. *)
Definition demo_entry_price : Q := 0.00000123.

(** The position created by [_simulate_buy]. *)
Definition _simulate_buy (token_address : string) (amount : Q) : Position :=
  let entry_price := demo_entry_price in
  {| token := token_address; amount := amount;
     entry_price := entry_price; peak_price := entry_price |}.

(** What one pass through the body of the monitoring loop ends with. *)
Inductive Outcome : Type :=
| Hold                                   (** no exit reason: loop again *)
| Sell (exit_price pnl_percent : Q) (reason : string)
                                         (** [_simulate_sell], then [break] *)
| Fault.                                 (** the [except] branch: log, sleep *)

Section Monitor.
Context `{PyFormat}.
Variable config : Config.

Definition take_profit_reason (pnl_percent : Q) : string :=
  ("Take Profit (" ++ fmt_1f pnl_percent ++ "%)")%string.
Definition stop_loss_reason (pnl_percent : Q) : string :=
  ("Stop Loss (" ++ fmt_1f pnl_percent ++ "%)")%string.
Definition trailing_stop_reason (drop_from_peak : Q) : string :=
  ("Trailing Stop (" ++ fmt_1f drop_from_peak ++ "% from peak)")%string.

(** One iteration of [while self.running ...] in [_monitor_position];
    [price_change] is the draw of [random.uniform].  The position is
    returned as the iteration leaves it. *)
Definition poll (position : Position) (price_change : Q) : Position * Outcome :=
  let entry_price := entry_price position in
  let current_price := entry_price * (1 + price_change) in
  match Py.div (current_price - entry_price) entry_price with
  | None => (position, Fault)
  | Some ratio =>
      let pnl_percent := ratio * 100 in
      let position :=
        if Py.gt current_price (peak_price position)
        then set_peak_price position current_price else position in
      if Py.ge pnl_percent (take_profit config) then
        (position, Sell current_price pnl_percent (take_profit_reason pnl_percent))
      else if Py.le pnl_percent (- stop_loss config) then
        (position, Sell current_price pnl_percent (stop_loss_reason pnl_percent))
      else if trailing_stop config then
        match Py.div (peak_price position - current_price) (peak_price position) with
        | None => (position, Fault)
        | Some r =>
            let drop_from_peak := r * 100 in
            if Py.ge drop_from_peak (trailing_distance config) then
              (position, Sell current_price pnl_percent (trailing_stop_reason drop_from_peak))
            else (position, Hold)
        end
      else (position, Hold)
  end.

(** The loop over the successive draws: it stops at the first sale.
    The result lists the position after every iteration that ran. *)
Fixpoint _monitor_position (position : Position) (draws : list Q)
  : list (Position * Outcome) :=
  match draws with
  | [] => []
  | price_change :: draws =>
      let '(position, outcome) := poll position price_change in
      (position, outcome) ::
      match outcome with
      | Sell _ _ _ => []
      | Hold | Fault => _monitor_position position draws
      end
  end.

(** The peak recorded after each iteration. *)
Definition peaks (position : Position) (draws : list Q) : list Q :=
  map (fun s => peak_price (fst s)) (_monitor_position position draws).

End Monitor.

End PaperTradingBot.

(* ===================================================================== *)
(** * modules/execution_engine.py *)
(* ===================================================================== *)

Module ExecutionEngine.

Definition JITO_TIP_ACCOUNTS : list string := [
  "96gYZGLnJYVFmbjzopPSU6QiEV5fGqZNyN9nmNhvrZU5";
  "HFqU5x63VTqvQss8hp11i4wVV8bD44PvwucfZ2bU7gRe";
  "Cw8CFyM9FkoMi7K7Crf6HNQqf4uEMzpKw6QNghXLvLkY";
  "ADaUMid9yfUytqMBgopwjb2DTLSokTSzL1zt6iGPaS49";
  "DfXygSm4jCyNCybVYYK6DwvWqjKee8pbDmJGcLWNDXjh";
  "ADuUkR4vqLUMWXxW9gh6D6L8pMSawimctcNZ5pGwDcEt";
  "DttWaMuVvTiduZRnguLF7jNxTgiMBZ1hyAumKUiL2KRL";
  "3AVi9Tg9Uo68tJfuvoKvqKNWKkC5wPdSSdeBnizKZ6jT"
]%string.

(** The settings and collaborators an engine is built from, together
    with what the imports at the top of the module found. *)
Record Setup : Type := {
  network : string;                 (** [config.network] *)
  config_use_jito : bool;           (** [config.use_jito] *)
  jito_tip_sol : Q;                 (** [config.jito_tip_sol] *)
  solana_libs : bool;               (** [AsyncClient] is not [None] *)
  web3_libs : bool;                 (** [Web3] is not [None] *)
  solana_keypair : option string;   (** [wallet.get_solana_keypair()] *)
  bsc_account : option string;      (** [wallet.get_bsc_account()] *)
  rpc_client_raises : bool;         (** [AsyncClient(rpc_url)] raises *)
  rpc_close_raises : bool           (** [client.close()] raises *)
}.

(** The mutable part of an engine. *)
Record State : Type := {
  jito_tip_account_index : Z
}.

(** [__init__] *)
Definition init : State := {| jito_tip_account_index := 0 |}.

Definition use_jito (s : Setup) : bool :=
  config_use_jito s && bool_decide (network s = "solana"%string).

Record TradeResult : Type := {
  success : bool;
  tx_hash : string;
  amount_in : Q;
  amount_out : Q;
  price : Q;
  tr_timestamp : Q                  (** [datetime.utcnow()] *)
}.

(** [_get_jito_tip_account]: the account at the stored index, and the
    state with the index advanced.  [None] is the IndexError of the
    subscript, raised before the index is written. *)
Definition _get_jito_tip_account (st : State) : option (string * State) :=
  tip_account ← Py.getitem JITO_TIP_ACCOUNTS (jito_tip_account_index st);
  Some (tip_account,
        {| jito_tip_account_index :=
             ((jito_tip_account_index st + 1) `mod` Z.of_nat (length JITO_TIP_ACCOUNTS))%Z |}).

(** [n] calls in a row: the accounts returned, in order, and the final
    state. *)
Fixpoint tip_calls (n : nat) (st : State) : option (list string * State) :=
  match n with
  | O => Some ([], st)
  | S n =>
      '(a, st) ← _get_jito_tip_account st;
      '(rest, st) ← tip_calls n st;
      Some (a :: rest, st)
  end.

Section Engine.
Variable self : Setup.
Variable now : Q.

Definition _buy_solana (st : State) (token_data : TokenData) (amount : Q)
  : option TradeResult * State :=
  if negb (solana_libs self) then (None, st)
  else match solana_keypair self with
  | None => (None, st)
  | Some keypair =>
      if rpc_client_raises self then (None, st)
      else
        (* the body of the inner try; [client.close()] runs after it *)
        let tipped :=
          if use_jito self then
            match _get_jito_tip_account st with
            | Some (tip_account, st) => Py.Returns st
            | None => Py.Raises
            end
          else Py.Returns st in
        match tipped with
        | Py.Raises => (None, st)
        | Py.Returns st =>
            let result :=
              {| success := true;
                 tx_hash := "DemoTxHash123...";
                 amount_in := amount;
                 amount_out := amount / 0.00000123;
                 price := 0.00000123;
                 tr_timestamp := now |} in
            if rpc_close_raises self then (None, st) else (Some result, st)
        end
  end.

Definition _sell_solana (token_data : TokenData) (amount : Q) : option TradeResult :=
  Some {| success := true;
          tx_hash := "DemoSellTxHash123...";
          amount_in := amount;
          amount_out := amount * 0.00000123;
          price := 0.00000123;
          tr_timestamp := now |}.

Definition _buy_bsc (token_data : TokenData) (amount : Q) : option TradeResult :=
  if negb (web3_libs self) then None
  else match bsc_account self with
  | None => None
  | Some account =>
      Some {| success := true;
              tx_hash := "0xDemoTxHash123...";
              amount_in := amount;
              amount_out := amount / 0.00001;
              price := 0.00001;
              tr_timestamp := now |}
  end.

Definition _sell_bsc (token_data : TokenData) (amount : Q) : option TradeResult :=
  Some {| success := true;
          tx_hash := "0xDemoSellTxHash123...";
          amount_in := amount;
          amount_out := amount * 0.00001;
          price := 0.00001;
          tr_timestamp := now |}.

(** [buy_token]: [None] is Python's [None]. *)
Definition buy_token (st : State) (token_data : TokenData) (amount : Q)
  : option TradeResult * State :=
  if bool_decide (network self = "solana"%string) then _buy_solana st token_data amount
  else if bool_decide (network self = "bsc"%string) then (_buy_bsc token_data amount, st)
  else (None, st).

(** [sell_token] *)
Definition sell_token (st : State) (token_data : TokenData) (amount : Q)
  : option TradeResult * State :=
  if bool_decide (network self = "solana"%string) then (_sell_solana token_data amount, st)
  else if bool_decide (network self = "bsc"%string) then (_sell_bsc token_data amount, st)
  else (None, st).

(** A call made on the engine by its owner. *)
Inductive Order : Type :=
| Buy (token_data : TokenData) (amount : Q)
| Sell (token_data : TokenData) (amount : Q).

Definition place (st : State) (o : Order) : option TradeResult * State :=
  match o with
  | Buy token_data amount => buy_token st token_data amount
  | Sell token_data amount => sell_token st token_data amount
  end.

(** The orders placed one after the other on one engine: the results in
    order, and the final state. *)
Fixpoint place_all (orders : list Order) (st : State)
  : list (option TradeResult) * State :=
  match orders with
  | [] => ([], st)
  | o :: orders =>
      let '(r, st) := place st o in
      let '(rs, st) := place_all orders st in
      (r :: rs, st)
  end.

End Engine.

(** ** The methods with their exceptions explicit

    Above, a method is given by what its caller receives.  Here the
    body of every [try] is given as it runs: a call that raises has the
    outcome [Py.Raises], which travels up to the nearest handler, and
    every [except Exception] and [finally] is the clause the source has.
    The logging that precedes the [try] of [buy_token] and [sell_token]
    formats the address (a string, or absent) and the amount (a number),
    which does not raise. *)
Module Raising.

(** [try: body / except Exception: handler] *)
Definition try_except {A} (body : Py.call A * State)
    (handler : State -> Py.call A * State) : Py.call A * State :=
  match body with
  | (Py.Returns a, st) => (Py.Returns a, st)
  | (Py.Raises, st) => handler st
  end.

(** [try: body / finally: final]: an exception of [final] replaces the
    outcome of [body]. *)
Definition try_finally {A} (body : Py.call A * State) (final : Py.call unit)
  : Py.call A * State :=
  match final with
  | Py.Returns _ => body
  | Py.Raises => (Py.Raises, snd body)
  end.

(** [return None] *)
Definition return_none (st : State) : Py.call (option TradeResult) * State :=
  (Py.Returns None, st).

Section Engine.
Variable self : Setup.
Variable now : Q.

(** [AsyncClient(rpc_url)] and [client.close()] *)
Definition AsyncClient : Py.call unit :=
  if rpc_client_raises self then Py.Raises else Py.Returns tt.

Definition close : Py.call unit :=
  if rpc_close_raises self then Py.Raises else Py.Returns tt.

(** [self._get_jito_tip_account()], the subscript of which may raise. *)
Definition tip (st : State) : Py.call string * State :=
  match _get_jito_tip_account st with
  | Some (tip_account, st) => (Py.Returns tip_account, st)
  | None => (Py.Raises, st)
  end.

Definition _buy_solana (st : State) (token_data : TokenData) (amount : Q)
  : Py.call (option TradeResult) * State :=
  try_except
    (if negb (solana_libs self) then return_none st
     else match solana_keypair self with
     | None => return_none st
     | Some keypair =>
         match AsyncClient with
         | Py.Raises => (Py.Raises, st)
         | Py.Returns client =>
             try_finally
               (let tipped :=
                  if use_jito self then tip st else (Py.Returns ""%string, st) in
                match tipped with
                | (Py.Raises, st) => (Py.Raises, st)
                | (Py.Returns tip_account, st) =>
                    let result :=
                      {| success := true;
                         tx_hash := "DemoTxHash123...";
                         amount_in := amount;
                         amount_out := amount / 0.00000123;
                         price := 0.00000123;
                         tr_timestamp := now |} in
                    (Py.Returns (Some result), st)
                end)
               close
         end
     end)
    return_none.

Definition _sell_solana (st : State) (token_data : TokenData) (amount : Q)
  : Py.call (option TradeResult) * State :=
  try_except
    (let result :=
       {| success := true;
          tx_hash := "DemoSellTxHash123...";
          amount_in := amount;
          amount_out := amount * 0.00000123;
          price := 0.00000123;
          tr_timestamp := now |} in
     (Py.Returns (Some result), st))
    return_none.

Definition _buy_bsc (st : State) (token_data : TokenData) (amount : Q)
  : Py.call (option TradeResult) * State :=
  try_except
    (if negb (web3_libs self) then return_none st
     else match bsc_account self with
     | None => return_none st
     | Some account =>
         let result :=
           {| success := true;
              tx_hash := "0xDemoTxHash123...";
              amount_in := amount;
              amount_out := amount / 0.00001;
              price := 0.00001;
              tr_timestamp := now |} in
         (Py.Returns (Some result), st)
     end)
    return_none.

Definition _sell_bsc (st : State) (token_data : TokenData) (amount : Q)
  : Py.call (option TradeResult) * State :=
  try_except
    (let result :=
       {| success := true;
          tx_hash := "0xDemoSellTxHash123...";
          amount_in := amount;
          amount_out := amount * 0.00001;
          price := 0.00001;
          tr_timestamp := now |} in
     (Py.Returns (Some result), st))
    return_none.

Definition buy_token (st : State) (token_data : TokenData) (amount : Q)
  : Py.call (option TradeResult) * State :=
  try_except
    (if bool_decide (network self = "solana"%string)
     then _buy_solana st token_data amount
     else if bool_decide (network self = "bsc"%string)
     then _buy_bsc st token_data amount
     else return_none st)
    return_none.

Definition sell_token (st : State) (token_data : TokenData) (amount : Q)
  : Py.call (option TradeResult) * State :=
  try_except
    (if bool_decide (network self = "solana"%string)
     then _sell_solana st token_data amount
     else if bool_decide (network self = "bsc"%string)
     then _sell_bsc st token_data amount
     else return_none st)
    return_none.

End Engine.

End Raising.

End ExecutionEngine.

(* ===================================================================== *)
(** * src/ai/model_trainer.py *)
(* ===================================================================== *)

Module ModelTrainer.

(** One entry of performance_history.json.  The numeric keys
    (['pnl_percent'], ['safety_score'], ['lep_confidence'],
    ['virality_score'], ['hold_time_minutes'], prices) are read with
    [t.get(key, 0)]. *)
Record Trade : Type := {
  token : string;
  win : option bool;
  numbers : gmap string Q
}.

(** [t.get(field, 0)] *)
Definition number (t : Trade) (field : string) : Q :=
  default 0 (numbers t !! field).

(** [t.get('win', False)] *)
Definition is_win (t : Trade) : bool := default false (win t).

(** winning_patterns.json *)
Record Patterns : Type := {
  total_trades : nat;
  wins : nat;
  losses : nat;
  win_rate : Q;
  avg_win : Q;
  avg_loss : Q;
  optimal_safety_score : Q;
  optimal_lep_confidence : Q;
  optimal_virality_score : Q;
  avg_hold_time : Q;
  last_updated : string
}.

(** [sorted(values)], by insertion. *)
Fixpoint insert_sorted (x : Q) (l : list Q) : list Q :=
  match l with
  | [] => [x]
  | y :: l' => if Py.le x y then x :: l else y :: insert_sorted x l'
  end.

Definition sorted (l : list Q) : list Q := fold_right insert_sorted [] l.

(** [np.mean(values)] on a non-empty list. *)
Definition np_mean (values : list Q) : Q := Py.sum values / Py.len values.

(** [np.median(values)] on a non-empty list: the middle element of the
    sorted values, or the mean of the two middle ones. *)
Definition np_median (values : list Q) : Q :=
  let s := sorted values in
  let n := length s in
  if Nat.even n
  then (nth (n / 2 - 1) s 0 + nth (n / 2) s 0) / 2
  else nth (n / 2) s 0.

Definition _find_optimal_threshold (winning_trades : list Trade) (field : string) : Q :=
  let values :=
    map (fun t => number t field)
        (List.filter (fun t => Py.gt (number t field) 0) winning_trades) in
  match values with
  | [] => 0
  | _ => np_median values
  end.

(** [_analyze_patterns]: the content of winning_patterns.json after the
    call, given its content [file] before ([None]: no file).  Writing
    the file is taken to succeed. *)
Definition _analyze_patterns (now : string) (history : list Trade)
    (file : option Patterns) : option Patterns :=
  if (length history <? 10)%nat then file
  else
    let wins := List.filter (fun t => is_win t) history in
    let losses := List.filter (fun t => negb (is_win t)) history in
    if (length wins =? 0)%nat then file
    else
      Some {| total_trades := length history;
              wins := length wins;
              losses := length losses;
              win_rate := match history with [] => 0 | _ => Py.len wins / Py.len history end;
              avg_win := np_mean (map (fun t => number t "pnl_percent") wins);
              avg_loss :=
                match losses with
                | [] => 0
                | _ => np_mean (map (fun t => number t "pnl_percent") losses)
                end;
              optimal_safety_score := _find_optimal_threshold wins "safety_score";
              optimal_lep_confidence := _find_optimal_threshold wins "lep_confidence";
              optimal_virality_score := _find_optimal_threshold wins "virality_score";
              avg_hold_time := np_mean (map (fun t => number t "hold_time_minutes") wins);
              last_updated := now |}.

(** In the words of the specification: the values of [field] among the
    winning trades, and what it is for [m] to be a median of [values]
    (at least half of the values lie at or below [m], and at least half
    at or above). *)
Definition winning_values (history : list Trade) (field : string) : list Q :=
  map (fun t => number t field) (List.filter is_win history).

Definition count_le (m : Q) (values : list Q) : nat :=
  length (List.filter (fun v => Py.le v m) values).

Definition count_ge (m : Q) (values : list Q) : nat :=
  length (List.filter (fun v => Py.ge v m) values).

Definition is_median (m : Q) (values : list Q) : Prop :=
  (length values <= 2 * count_le m values)%nat /\
  (length values <= 2 * count_ge m values)%nat.

(** The values the code keeps: the positive ones. *)
Definition positive (values : list Q) : list Q :=
  List.filter (fun v => Py.gt v 0) values.

(** [threshold] is learned from the positive values of [field] among
    the winning trades: their median, or 0 when there is none. *)
Definition learned_from (history : list Trade) (field : string) (threshold : Q) : Prop :=
  match positive (winning_values history field) with
  | [] => threshold = 0
  | values => threshold = np_median values /\ is_median threshold values
  end.

(** The two files of the trainer. *)
Record Files : Type := {
  performance_history : list Trade;
  winning_patterns : option Patterns
}.

(** [history[-1000:]] *)
Definition last_1000 (history : list Trade) : list Trade :=
  skipn (length history - 1000) history.

(** [record_trade]: [trade_data] carries the numeric keys, read with
    default 0; the history is saved capped, the patterns are computed on
    the list as it was appended to. *)
Definition record_trade (now : string) (token_address : option string)
    (trade_data : gmap string Q) (files : Files) : Files :=
  let history := performance_history files in
  let field k := default 0 (trade_data !! k) in
  let trade_record :=
    {| token := get token_address "Unknown"%string;
       win := Some (Py.gt (field "pnl_percent") 0);
       numbers :=
         list_to_map
           (map (fun k => (k, field k))
                ["entry_price"; "exit_price"; "pnl_percent"; "safety_score";
                 "lep_confidence"; "virality_score"; "hold_time_minutes"]%string) |} in
  let history := history ++ [trade_record] in
  {| performance_history :=
       if (1000 <? length history)%nat then last_1000 history else history;
     winning_patterns := _analyze_patterns now history (winning_patterns files) |}.

(** The defaults [get_recommended_thresholds] falls back on. *)
Record Config : Type := {
  safety_threshold : Q;
  lep_min_confidence : Q;
  cascade_min_virality : Q
}.

(** The dict returned by [get_recommended_thresholds]. *)
Record Thresholds : Type := {
  safety_score : Q;
  lep_confidence : Q;
  virality_score : Q;
  source : string;
  based_on_trades : option nat;
  learned_win_rate : option Q
}.

(** [get_recommended_thresholds], on what [_load_patterns] returns
    ([None]: no file, or one that cannot be read). *)
Definition get_recommended_thresholds (config : Config) (patterns : option Patterns)
  : Thresholds :=
  match patterns with
  | None =>
      {| safety_score := safety_threshold config;
         lep_confidence := lep_min_confidence config;
         virality_score := cascade_min_virality config;
         source := "config_defaults";
         based_on_trades := None; learned_win_rate := None |}
  | Some patterns =>
      if (total_trades patterns <? 10)%nat then
        {| safety_score := safety_threshold config;
           lep_confidence := lep_min_confidence config;
           virality_score := cascade_min_virality config;
           source := "config_defaults";
           based_on_trades := None; learned_win_rate := None |}
      else
        {| safety_score := optimal_safety_score patterns;
           lep_confidence := optimal_lep_confidence patterns;
           virality_score := optimal_virality_score patterns;
           source := "ai_learned";
           based_on_trades := Some (total_trades patterns);
           learned_win_rate := Some (win_rate patterns) |}
  end.

(** Neither file exists yet: [_load_performance_history] returns [[]]
    and [_load_patterns] returns [None]. *)
Definition no_files : Files := {| performance_history := []; winning_patterns := None |}.

(** Several trades recorded one after the other; each comes with the
    clock reading, the token address and the numeric keys. *)
Definition record_trades (trades : list (string * option string * gmap string Q))
    (files : Files) : Files :=
  fold_left (fun files '(now, token_address, trade_data) =>
               record_trade now token_address trade_data files)
            trades files.

End ModelTrainer.

(* ===================================================================== *)
(** * ai/lep_predictor.py *)
(* ===================================================================== *)

Module LEPPredictor.

Record Config : Type := {
  enabled : bool;
  min_confidence : Q
}.

(** The dict returned by one analyser.  Every such dict has a ['score']
    key; the other keys depend on the analyser. *)
Inductive Signal : Type :=
| LiquidityVelocity (score liquidity velocity : Q) (optimal_range : bool)
| HolderAccumulation (score holders top_holder_pct : Q) (optimal : bool)
| AgeTiming (score age_minutes : Q) (in_sweet_spot : bool)
| VolumeMomentum (score : Q) (strong_volume : bool)
| DevActivity (score : Q) (active : bool).

(** [signal.get('score', 0.0)], where [signal] is
    [signals.get(name, {})]. *)
Definition get_score (signal : option Signal) : Q :=
  match signal with
  | Some (LiquidityVelocity s _ _ _) | Some (HolderAccumulation s _ _ _)
  | Some (AgeTiming s _ _) | Some (VolumeMomentum s _) | Some (DevActivity s _) => s
  | None => 0
  end.

(** the truth value of [signal.get('in_sweet_spot')] *)
Definition get_in_sweet_spot (signal : option Signal) : bool :=
  match signal with
  | Some (AgeTiming _ _ b) => b
  | _ => false
  end.

(** [signal.get('velocity', 0)] *)
Definition get_velocity (signal : option Signal) : Q :=
  match signal with
  | Some (LiquidityVelocity _ _ v _) => v
  | _ => 0
  end.

Record Prediction : Type := {
  confidence : Q;
  predicted_hours : Q;
  signals : gmap string Signal;
  recommendation : string
}.

(** The weight table of [_calculate_confidence], in iteration order. *)
Definition weights : list (string * Q) := [
  ("liquidity_velocity", 0.25);
  ("holder_accumulation", 0.25);
  ("age_timing", 0.20);
  ("volume_momentum", 0.15);
  ("dev_activity", 0.15)
]%string.

Section Predictor.
Context `{PyFormat}.
Variable self : Config.
Variable clock_gap : Q.   (** minutes between two [utcnow()] calls *)

Definition _analyze_liquidity_velocity (token_data : TokenData)
    (historical_data : option (list (option Q))) : Signal :=
  let current_liquidity := get (liquidity_usd token_data) 0 in
  let optimal_range := Py.le 5000 current_liquidity && Py.le current_liquidity 50000 in
  let velocity :=
    match historical_data with
    | Some (old :: _ :: _) =>
        let old_liq := get old 0 in
        let new_liq := get (liquidity_usd token_data) 0 in
        let time_diff := 1 in
        if Py.gt time_diff 0 then (new_liq - old_liq) / time_diff else 0
    | _ => 0
    end in
  let strong_velocity := Py.gt velocity 1000 in
  let score := 0 in
  let score := if optimal_range then score + 0.5 else score in
  let score := if strong_velocity then score + 0.5 else score in
  LiquidityVelocity score current_liquidity velocity optimal_range.

Definition _analyze_holder_patterns (token_data : TokenData) : Signal :=
  let holders := get (holders token_data) 0 in
  let top_holder_pct := get (top_holder_percent token_data) 0 in
  let optimal_holder_count := Py.le 50 holders && Py.le holders 200 in
  let healthy_distribution := Py.le 30 top_holder_pct && Py.le top_holder_pct 60 in
  let score := 0 in
  let score := if optimal_holder_count then score + 0.5 else score in
  let score := if healthy_distribution then score + 0.5 else score in
  HolderAccumulation score holders top_holder_pct
    (optimal_holder_count && healthy_distribution).

Definition _analyze_age_timing (token_data : TokenData) : Signal :=
  let age_minutes : Py.call Q :=
    match timestamp token_data with
    | None => Py.Returns clock_gap
    | Some (TsDatetime (Some a)) | Some (TsString (Some a)) => Py.Returns a
    | Some (TsDatetime None) | Some (TsString None) => Py.Raises
    | Some TsOther => Py.Raises
    end in
  match age_minutes with
  | Py.Returns age_minutes =>
      let in_sweet_spot := Py.le 2 age_minutes && Py.le age_minutes 5 in
      let score := if in_sweet_spot then 1 else 0.3 in
      AgeTiming score age_minutes in_sweet_spot
  | Py.Raises => AgeTiming 0.5 0 false
  end.

Definition _analyze_volume (token_data : TokenData) : Signal :=
  let liquidity := get (liquidity_usd token_data) 0 in
  let strong_volume := Py.gt liquidity 10000 in
  let score := if strong_volume then 0.8 else 0.4 in
  VolumeMomentum score strong_volume.

Definition _analyze_dev_activity (token_data : TokenData) : Signal :=
  let score := 0.5 in
  DevActivity score true.

Definition _calculate_confidence (signals : gmap string Signal) : Q :=
  let confidence :=
    fold_left
      (fun confidence '(signal_name, weight) =>
         let signal := signals !! signal_name in
         let score := get_score signal in
         confidence + score * weight)
      weights 0 in
  Py.min (Py.max confidence 0) 1.

Definition _predict_hours (signals : gmap string Signal) (confidence : Q) : Q :=
  let hours := 12 in
  let age_signal := signals !! "age_timing"%string in
  let hours := if get_in_sweet_spot age_signal then 6 else hours in
  let liquidity_signal := signals !! "liquidity_velocity"%string in
  let hours := if Py.gt (get_velocity liquidity_signal) 2000 then Py.min hours 8 else hours in
  let hours := if Py.lt confidence 0.5 then 24 else hours in
  hours.

Definition _generate_recommendation (confidence hours : Q) : string :=
  if Py.ge confidence 0.8 then
    ("STRONG BUY - High confidence pump in " ++ fmt_1f hours ++ "h")%string
  else if Py.ge confidence 0.6 then
    ("BUY - Moderate confidence pump in " ++ fmt_1f hours ++ "h")%string
  else if Py.ge confidence 0.4 then
    ("CONSIDER - Low confidence pump in " ++ fmt_1f hours ++ "h")%string
  else "SKIP - Insufficient confidence"%string.

Definition predict_pump_timing (token_data : TokenData)
    (historical_data : option (list (option Q))) : Prediction :=
  if negb (enabled self) then
    {| confidence := 0; predicted_hours := 0; signals := ∅;
       recommendation := "LEP disabled" |}
  else
    let signals : gmap string Signal := ∅ in
    let signals :=
      <["liquidity_velocity"%string :=
          _analyze_liquidity_velocity token_data historical_data]> signals in
    let signals :=
      <["holder_accumulation"%string := _analyze_holder_patterns token_data]> signals in
    let signals := <["age_timing"%string := _analyze_age_timing token_data]> signals in
    let signals := <["volume_momentum"%string := _analyze_volume token_data]> signals in
    let signals := <["dev_activity"%string := _analyze_dev_activity token_data]> signals in
    let confidence := _calculate_confidence signals in
    let predicted_hours := _predict_hours signals confidence in
    let recommendation := _generate_recommendation confidence predicted_hours in
    {| confidence := confidence; predicted_hours := predicted_hours;
       signals := signals; recommendation := recommendation |}.

End Predictor.

End LEPPredictor.

(* ===================================================================== *)
(** * src/ai/cascade_sentinel.py *)
(* ===================================================================== *)

Module CascadeSentinel.

Record Config : Type := {
  enabled : bool;
  min_virality : Q
}.

Inductive Signal : Type :=
| NetworkVelocity (score holders growth_rate : Q) (strong_growth : bool)
| HolderDiversity (score holders top_holder_pct : Q) (diverse : bool)
| EarlyAdopterQuality (score : Q) (quality : string)
| LiquidityCascade (score liquidity liq_per_minute : Q) (strong_cascade : bool)
| SocialMomentum (score : Q) (momentum : string).

(** [signal.get('score', 0.0)], where [signal] is
    [signals.get(name, {})]. *)
Definition get_score (signal : option Signal) : Q :=
  match signal with
  | Some (NetworkVelocity s _ _ _) | Some (HolderDiversity s _ _ _)
  | Some (EarlyAdopterQuality s _) | Some (LiquidityCascade s _ _ _)
  | Some (SocialMomentum s _) => s
  | None => 0
  end.

Record Prediction : Type := {
  virality_score : Z;
  cascade_signals : gmap string Signal;
  recommendation : string;
  viral_probability : Q
}.

(** The weight table of [_calculate_virality_score], in iteration
    order. *)
Definition weights : list (string * Q) := [
  ("network_velocity", 0.25);
  ("holder_diversity", 0.20);
  ("early_adopter_quality", 0.20);
  ("liquidity_cascade", 0.25);
  ("social_momentum", 0.10)
]%string.

Section Sentinel.
Variable self : Config.
Variable clock_gap : Q.   (** minutes between two [utcnow()] calls *)

Definition _get_age_minutes (token_data : TokenData) : Q :=
  match timestamp token_data with
  | None => clock_gap
  | Some (TsDatetime (Some a)) | Some (TsString (Some a)) => a
  | Some (TsDatetime None) | Some (TsString None) => 1
  | Some TsOther => 1
  end.

Definition _analyze_network_growth (token_data : TokenData) : Signal :=
  let holders := get (holders token_data) 0 in
  let age_minutes := _get_age_minutes token_data in
  let growth_rate := if Py.gt age_minutes 0 then holders / age_minutes else 0 in
  let strong_growth := Py.gt growth_rate 10 in
  let score := if strong_growth then 0.8 else 0.4 in
  NetworkVelocity score holders growth_rate strong_growth.

Definition _analyze_holder_diversity (token_data : TokenData) : Signal :=
  let holders := get (holders token_data) 0 in
  let top_holder_pct := get (top_holder_percent token_data) 0 in
  let good_holder_count := Py.ge holders 100 in
  let decentralized := Py.lt top_holder_pct 50 in
  let score := 0 in
  let score := if good_holder_count then score + 0.5 else score in
  let score := if decentralized then score + 0.5 else score in
  HolderDiversity score holders top_holder_pct (good_holder_count && decentralized).

Definition _analyze_early_adopters (token_data : TokenData) : Signal :=
  let holders := get (holders token_data) 0 in
  let optimal_early_adopters := Py.le 50 holders && Py.le holders 150 in
  let score := if optimal_early_adopters then 0.7 else 0.4 in
  EarlyAdopterQuality score (if optimal_early_adopters then "high" else "medium").

Definition _analyze_liquidity_cascade (token_data : TokenData) : Signal :=
  let liquidity := get (liquidity_usd token_data) 0 in
  let age_minutes := _get_age_minutes token_data in
  let liq_per_minute := if Py.gt age_minutes 0 then liquidity / age_minutes else 0 in
  let strong_cascade := Py.gt liq_per_minute 1000 in
  let score := if strong_cascade then 0.8 else 0.4 in
  LiquidityCascade score liquidity liq_per_minute strong_cascade.

(** [social_data] is [None], or a dict (empty ones are falsy). *)
Definition _analyze_social_momentum (social_data : option (gmap string string)) : Signal :=
  match social_data with
  | None => SocialMomentum 0.5 "unknown"
  | Some d =>
      if bool_decide (d = ∅) then SocialMomentum 0.5 "unknown"
      else SocialMomentum 0.5 "neutral"
  end.

Definition _calculate_virality_score (signals : gmap string Signal) : Z :=
  let score :=
    fold_left
      (fun score '(signal_name, weight) =>
         let signal := signals !! signal_name in
         let signal_score := get_score signal in
         score + signal_score * weight)
      weights 0 in
  Py.int (score * 100).

Definition _generate_recommendation (virality_score : Z) : string :=
  if (90 <=? virality_score)%Z then "VIRAL ALERT - Extremely high viral potential"
  else if (75 <=? virality_score)%Z then "STRONG VIRAL - High viral potential"
  else if (60 <=? virality_score)%Z then "MODERATE VIRAL - Some viral potential"
  else if (40 <=? virality_score)%Z then "LOW VIRAL - Limited viral potential"
  else "NO VIRAL - Unlikely to go viral".

Definition predict_virality (token_data : TokenData)
    (social_data : option (gmap string string)) : Prediction :=
  if negb (enabled self) then
    {| virality_score := 0; cascade_signals := ∅;
       recommendation := "Cascade disabled"; viral_probability := 0 |}
  else
    let signals : gmap string Signal := ∅ in
    let signals :=
      <["network_velocity"%string := _analyze_network_growth token_data]> signals in
    let signals :=
      <["holder_diversity"%string := _analyze_holder_diversity token_data]> signals in
    let signals :=
      <["early_adopter_quality"%string := _analyze_early_adopters token_data]> signals in
    let signals :=
      <["liquidity_cascade"%string := _analyze_liquidity_cascade token_data]> signals in
    let signals :=
      <["social_momentum"%string := _analyze_social_momentum social_data]> signals in
    let virality_score := _calculate_virality_score signals in
    let viral_probability := inject_Z virality_score / 100 in
    let recommendation := _generate_recommendation virality_score in
    {| virality_score := virality_score; cascade_signals := signals;
       recommendation := recommendation; viral_probability := viral_probability |}.

End Sentinel.

End CascadeSentinel.

(* ===================================================================== *)
(** * config_loader.py: the settings read by the controllers *)
(* ===================================================================== *)

Module TradingConfig.

Record t : Type := {
  network : string;
  initial_balance_sol : Q;
  initial_balance_bnb : Q;
  amount_sol : Q;
  amount_bnb : Q;
  max_daily_sol : Q;
  max_daily_bnb : Q;
  min_liquidity_usd : Q;
  min_holders : Q;
  max_top_holder_percent : Q;
  max_token_age_minutes : Q;
  safety_threshold : Q;
  lep_min_confidence : Q;
  cascade_min_virality : Q;
  solana_endpoints : list string;
  bsc_endpoints : list string
}.

Definition get_investment_amount (self : t) : Q :=
  if bool_decide (network self = "solana"%string) then amount_sol self
  else if bool_decide (network self = "bsc"%string) then amount_bnb self
  else 0.05.

Definition get_max_daily (self : t) : Q :=
  if bool_decide (network self = "solana"%string) then max_daily_sol self
  else if bool_decide (network self = "bsc"%string) then max_daily_bnb self
  else 2.0.

(** [endpoints[0] if endpoints else ''] *)
Definition first_or_empty (endpoints : list string) : string :=
  match endpoints with
  | [] => ""
  | e :: _ => e
  end.

Definition get_rpc_endpoint (self : t) : string :=
  if bool_decide (network self = "solana"%string) then first_or_empty (solana_endpoints self)
  else if bool_decide (network self = "bsc"%string) then first_or_empty (bsc_endpoints self)
  else "".

End TradingConfig.

(* ===================================================================== *)
(** * main_paper.py: the controller *)
(* ===================================================================== *)

Module PaperSession.

(** The dict handed to [_process_token].  Its keys are read with
    [token_data[key]]: an absent key raises KeyError. *)
Record Token : Type := {
  address : option string;
  liquidity : option Q;
  holders : option Q;
  top_holder_percent : option Q;
  age_minutes : option Q
}.

(** An entry of [self.trades_history]. *)
Record Closed : Type := {
  closed_token : string;
  pnl : Q;
  reason : string;
  closed_at : string
}.

(** The attributes of the bot that change while it runs. *)
Record Bot : Type := {
  running : bool;
  paper_balance : Q;
  current_position : option PaperTradingBot.Position;
  trades_history : list Closed;
  wins : nat;
  losses : nat
}.

Section Controller.
Context `{PyFormat}.
Variable config : TradingConfig.t.
Variable strategy : PaperTradingBot.Config.

(** [__init__] *)
Definition init : Bot :=
  {| running := false;
     paper_balance :=
       if bool_decide (TradingConfig.network config = "solana"%string)
       then TradingConfig.initial_balance_sol config
       else TradingConfig.initial_balance_bnb config;
     current_position := None;
     trades_history := [];
     wins := 0;
     losses := 0 |}.

Definition set_running (self : Bot) (b : bool) : Bot :=
  {| running := b; paper_balance := paper_balance self;
     current_position := current_position self;
     trades_history := trades_history self;
     wins := wins self; losses := losses self |}.

Definition set_position (self : Bot) (position : PaperTradingBot.Position) : Bot :=
  {| running := running self; paper_balance := paper_balance self;
     current_position := Some position;
     trades_history := trades_history self;
     wins := wins self; losses := losses self |}.

(** [_signal_handler] *)
Definition _signal_handler (self : Bot) : Bot := set_running self false.

(** [_check_safety]: the four checks in order, each reading its key
    when it is reached. *)
Definition _check_safety (token_data : Token) : Py.call bool :=
  match liquidity token_data with
  | None => Py.Raises
  | Some liquidity =>
  if Py.lt liquidity (TradingConfig.min_liquidity_usd config) then Py.Returns false
  else
  match holders token_data with
  | None => Py.Raises
  | Some holders =>
  if Py.lt holders (TradingConfig.min_holders config) then Py.Returns false
  else
  match top_holder_percent token_data with
  | None => Py.Raises
  | Some top_holder_percent =>
  if Py.gt top_holder_percent (TradingConfig.max_top_holder_percent config)
  then Py.Returns false
  else
  match age_minutes token_data with
  | None => Py.Raises
  | Some age_minutes =>
  if Py.gt age_minutes (TradingConfig.max_token_age_minutes config)
  then Py.Returns false
  else Py.Returns true
  end end end end.

(** [_simulate_buy]: the balance is debited and the position created.
    The monitoring task it creates is part of the session below. *)
Definition _simulate_buy (self : Bot) (token_address : string) : Bot :=
  let amount := TradingConfig.get_investment_amount config in
  {| running := running self;
     paper_balance := paper_balance self - amount;
     current_position := Some (PaperTradingBot._simulate_buy token_address amount);
     trades_history := trades_history self;
     wins := wins self; losses := losses self |}.

(** [_simulate_sell]; it raises when there is no position to
    subscript.  The sale value and the new balance are the exact
    results of the expressions of the source, which the program rounds
    to binary64 at every operation. *)
Definition _simulate_sell (self : Bot) (exit_price pnl_percent : Q) (reason : string)
    (now : string) : Py.call Bot :=
  match current_position self with
  | None => Py.Raises
  | Some position =>
      let token_address := PaperTradingBot.token position in
      let amount := PaperTradingBot.amount position in
      let sell_value := amount * (1 + pnl_percent / 100) in
      let won := Py.gt pnl_percent 0 in
      Py.Returns
        {| running := running self;
           paper_balance := paper_balance self + sell_value;
           current_position := None;
           trades_history :=
             trades_history self ++
             [{| closed_token := token_address; pnl := pnl_percent;
                 reason := reason; closed_at := now |}];
           wins := if won then S (wins self) else wins self;
           losses := if won then losses self else S (losses self) |}
  end.

(** How a call of [_process_token] ends. *)
Inductive Processed : Type :=
| Raised            (** a KeyError, left to the detection loop *)
| Rejected          (** [_check_safety] returned False *)
| AlreadyOpen       (** a position is open *)
| Insufficient      (** the balance is below one investment *)
| Bought.

Definition _process_token (self : Bot) (token_data : Token) : Bot * Processed :=
  match address token_data with
  | None => (self, Raised)
  | Some token_address =>
      match _check_safety token_data with
      | Py.Raises => (self, Raised)
      | Py.Returns false => (self, Rejected)
      | Py.Returns true =>
          match current_position self with
          | Some _ => (self, AlreadyOpen)
          | None =>
              if Py.lt (paper_balance self) (TradingConfig.get_investment_amount config)
              then (self, Insufficient)
              else (_simulate_buy self token_address, Bought)
          end
      end
  end.

(** The two loops are coroutines on one event loop.  Each tests its
    condition at the top, then sleeps, then runs its body; after an
    exception it sleeps once more before the next test. *)
Inductive Detector : Type :=
| DetectorSleeping      (** in [sleep(30)]: the body runs at the next wake-up *)
| DetectorRecovering    (** in the [sleep(5)] of the handler *)
| DetectorDone.         (** the loop has ended: [shutdown], then the
                            event loop closes and cancels the monitor *)

Inductive Monitor : Type :=
| MonitorAbsent         (** no task *)
| MonitorCreated        (** created by [create_task], not yet run *)
| MonitorSleeping       (** in [sleep(5)] *)
| MonitorRecovering     (** in the [sleep(10)] of the handler *)
| MonitorDone.          (** the loop has ended *)

Record Session : Type := {
  bot : Bot;
  detector : Detector;
  monitor : Monitor
}.

(** The test at the top of the detection loops, [while self.running]. *)
Definition detector_test (self : Bot) : Detector :=
  if running self then DetectorSleeping else DetectorDone.

(** The test at the top of [_monitor_position],
    [while self.running and self.current_position == position]; the
    task holds the dict that [self.current_position] refers to while the
    position is open. *)
Definition monitor_test (self : Bot) : Monitor :=
  if running self && bool_decide (is_Some (current_position self))
  then MonitorSleeping else MonitorDone.

(** [start]: without the balance for one investment it returns at once;
    on a network that has no monitoring loop it goes straight to
    [shutdown]. *)
Definition start : Session :=
  let self := init in
  if Py.lt (paper_balance self) (TradingConfig.get_investment_amount config)
  then {| bot := self; detector := DetectorDone; monitor := MonitorAbsent |}
  else
    let self := set_running self true in
    if bool_decide (TradingConfig.network config = "solana"%string)
       || bool_decide (TradingConfig.network config = "bsc"%string)
    then {| bot := self; detector := detector_test self; monitor := MonitorAbsent |}
    else {| bot := self; detector := DetectorDone; monitor := MonitorAbsent |}.

(** What the event loop can run next. *)
Inductive Event : Type :=
| DetectorWakes (token_data : Token)
    (** the detection loop resumes; on Solana its body hands
        [token_data] to [_process_token] *)
| MonitorWakes (price_change : Q) (now : string)
    (** the monitoring task resumes; its body draws [price_change] *)
| Signal.
    (** SIGINT or SIGTERM runs [_signal_handler] *)

Definition detector_wakes (s : Session) (token_data : Token) : Session :=
  match detector s with
  | DetectorDone => s
  | DetectorRecovering =>
      {| bot := bot s; detector := detector_test (bot s); monitor := monitor s |}
  | DetectorSleeping =>
      if bool_decide (TradingConfig.network config = "solana"%string) then
        match _process_token (bot s) token_data with
        | (self, Raised) =>
            {| bot := self; detector := DetectorRecovering; monitor := monitor s |}
        | (self, Bought) =>
            {| bot := self; detector := detector_test self; monitor := MonitorCreated |}
        | (self, _) =>
            {| bot := self; detector := detector_test self; monitor := monitor s |}
        end
      else {| bot := bot s; detector := detector_test (bot s); monitor := monitor s |}
  end.

Definition monitor_wakes (s : Session) (price_change : Q) (now : string) : Session :=
  match monitor s with
  | MonitorAbsent | MonitorDone => s
  | MonitorCreated | MonitorRecovering =>
      {| bot := bot s; detector := detector s; monitor := monitor_test (bot s) |}
  | MonitorSleeping =>
      match current_position (bot s) with
      | None => {| bot := bot s; detector := detector s; monitor := MonitorRecovering |}
      | Some position =>
          match PaperTradingBot.poll strategy position price_change with
          | (position, PaperTradingBot.Sell exit_price pnl_percent reason) =>
              match _simulate_sell (set_position (bot s) position) exit_price
                      pnl_percent reason now with
              | Py.Returns self =>
                  {| bot := self; detector := detector s; monitor := MonitorDone |}
              | Py.Raises =>
                  {| bot := set_position (bot s) position; detector := detector s;
                     monitor := MonitorRecovering |}
              end
          | (position, PaperTradingBot.Fault) =>
              {| bot := set_position (bot s) position; detector := detector s;
                 monitor := MonitorRecovering |}
          | (position, PaperTradingBot.Hold) =>
              let self := set_position (bot s) position in
              {| bot := self; detector := detector s; monitor := monitor_test self |}
          end
      end
  end.

(** Once the detection loop has ended nothing runs any more. *)
Definition step (s : Session) (e : Event) : Session :=
  match detector s with
  | DetectorDone => s
  | _ =>
      match e with
      | DetectorWakes token_data => detector_wakes s token_data
      | MonitorWakes price_change now => monitor_wakes s price_change now
      | Signal =>
          {| bot := _signal_handler (bot s); detector := detector s;
             monitor := monitor s |}
      end
  end.

Definition run (events : list Event) : Session := fold_left step events start.

(** The books of the bot: every closed trade is a win or a loss, the
    wins are the trades closed with a positive result, the open position
    holds one investment, and, in exact arithmetic, the balance is the
    initial balance plus the results of the closed trades, less the
    investment that is out. *)
Definition books_balance (self : Bot) : Prop :=
  let amount := TradingConfig.get_investment_amount config in
  (wins self + losses self = length (trades_history self))%nat /\
  wins self = length (List.filter (fun c => Py.gt (pnl c) 0) (trades_history self)) /\
  (forall p, current_position self = Some p -> PaperTradingBot.amount p = amount) /\
  paper_balance self + match current_position self with Some _ => amount | None => 0 end
  == paper_balance init
     + Py.sum (map (fun c => amount * (pnl c / 100)) (trades_history self)).

(** The draws of the source: [random.uniform(-0.05, 0.15)]. *)
Definition drawn_as_coded (e : Event) : Prop :=
  match e with
  | MonitorWakes price_change _ => -0.05 <= price_change /\ price_change <= 0.15
  | _ => True
  end.

End Controller.

End PaperSession.

(* ===================================================================== *)
(** * modules/monitor_solana.py *)
(* ===================================================================== *)

Module SolanaMonitor.

(** What [get_transaction] does for a signature, and what follows. *)
Inductive Fetch : Type :=
| TxRaises                          (** the RPC call raises *)
| TxEmpty                           (** [tx.value] is empty *)
| TxFound (callback_raises : bool). (** a transaction; the token data
                                        parsed from it goes to the callback,
                                        which may raise *)

(** The chain as one poll sees it. *)
Record Poll : Type := {
  signatures : Py.call (list string);  (** [get_signatures_for_address] *)
  transaction : string -> Fetch
}.

Section Monitor.
Variable has_callback : bool.   (** [self.on_token_detected] is set *)

(** The loop over [response.value] in [_check_raydium_pools], from the
    set of seen signatures and the signatures handed to the callback so
    far.  An exception leaves the loop. *)
Fixpoint scan (transaction : string -> Fetch) (sigs : list string)
    (seen_tokens : gset string) (detected : list string)
  : gset string * list string :=
  match sigs with
  | [] => (seen_tokens, detected)
  | signature :: sigs =>
      if bool_decide (signature ∈ seen_tokens)
      then scan transaction sigs seen_tokens detected
      else
        let seen_tokens := {[signature]} ∪ seen_tokens in
        match transaction signature with
        | TxRaises => (seen_tokens, detected)
        | TxEmpty => scan transaction sigs seen_tokens detected
        | TxFound callback_raises =>
            if has_callback then
              if callback_raises then (seen_tokens, detected ++ [signature])
              else scan transaction sigs seen_tokens (detected ++ [signature])
            else scan transaction sigs seen_tokens detected
        end
  end.

Definition _check_raydium_pools (poll : Poll) (seen_tokens : gset string)
    (detected : list string) : gset string * list string :=
  match signatures poll with
  | Py.Raises => (seen_tokens, detected)
  | Py.Returns sigs => scan (transaction poll) sigs seen_tokens detected
  end.

(** [_monitor_polling] over successive polls, from a fresh monitor. *)
Definition _monitor_polling (polls : list Poll) : gset string * list string :=
  fold_left (fun '(seen_tokens, detected) poll =>
               _check_raydium_pools poll seen_tokens detected)
            polls (∅, []).

End Monitor.

End SolanaMonitor.

(* ===================================================================== *)
(** * src/modules/monitor_bsc.py *)
(* ===================================================================== *)

Module BSCMonitor.

Definition WBNB : string := "0xbb4CdB9CBd36B01bD1cBaEBF2De08d9173bc095c".

(** [str.lower] on ASCII text. *)
Definition lower_ascii (c : ascii) : ascii :=
  let n := nat_of_ascii c in
  if (65 <=? n)%nat && (n <=? 90)%nat then ascii_of_nat (n + 32) else c.

Fixpoint lower (s : string) : string :=
  match s with
  | EmptyString => EmptyString
  | String c s => String (lower_ascii c) (lower s)
  end.

(** The arguments of a PairCreated event. *)
Record PairCreated : Type := {
  pair : string;
  token0 : string;
  token1 : string
}.

(** The side of the pair that is taken for the token. *)
Definition token_of (event : PairCreated) : string :=
  if bool_decide (lower (token0 event) = lower WBNB) then token1 event else token0 event.

(** The chain as one call of [_check_new_pairs] sees it. *)
Record Chain : Type := {
  entries : Z -> Z -> Py.call (list PairCreated);
    (** the PairCreated events of a block range *)
  token_data : string -> string -> bool;
    (** [_get_token_data token pair] returns a dict (not [None]) *)
  callback_raises : string -> bool
    (** the callback raises on the data of this token *)
}.

Section Monitor.
Variable has_callback : bool.   (** [self.on_token_detected] is set *)

(** The loop over the events in [_check_new_pairs]: the pairs seen and
    the tokens handed to the callback. *)
Fixpoint scan (chain : Chain) (events : list PairCreated)
    (seen_pairs : gset string) (detected : list string)
  : gset string * list string :=
  match events with
  | [] => (seen_pairs, detected)
  | event :: events =>
      let pair_address := pair event in
      if bool_decide (pair_address ∈ seen_pairs)
      then scan chain events seen_pairs detected
      else
        let seen_pairs := {[pair_address]} ∪ seen_pairs in
        let token_address := token_of event in
        if token_data chain token_address pair_address && has_callback then
          if callback_raises chain token_address
          then (seen_pairs, detected ++ [token_address])
          else scan chain events seen_pairs (detected ++ [token_address])
        else scan chain events seen_pairs detected
  end.

Definition _check_new_pairs (chain : Chain) (from_block to_block : Z)
    (seen_pairs : gset string) (detected : list string) : gset string * list string :=
  match entries chain from_block to_block with
  | Py.Raises => (seen_pairs, detected)
  | Py.Returns events => scan chain events seen_pairs detected
  end.

(** The state [_monitor_blocks] works on, with the block ranges it has
    asked for. *)
Record State : Type := {
  last_block : Z;
  seen_pairs : gset string;
  detected : list string;
  ranges : list (Z * Z)
}.

(** One pass of the loop of [_monitor_blocks]: [block_number] is the
    reading of [w3.eth.block_number], which may raise, and [chain] the
    chain at that time. *)
Definition pass (st : State) (now : Py.call Z * Chain) : State :=
  match now with
  | (Py.Raises, _) => st
  | (Py.Returns current_block, chain) =>
      if (last_block st <? current_block)%Z then
        let '(seen, found) :=
          _check_new_pairs chain (last_block st + 1) current_block
            (seen_pairs st) (detected st) in
        {| last_block := current_block; seen_pairs := seen; detected := found;
           ranges := ranges st ++ [((last_block st + 1)%Z, current_block)] |}
      else st
  end.

(** [start] reads the block number, then [_monitor_blocks] runs with
    the readings that follow. *)
Definition _monitor_blocks (start_block : Z) (readings : list (Py.call Z * Chain))
  : State :=
  fold_left pass readings
    {| last_block := start_block; seen_pairs := ∅; detected := []; ranges := [] |}.

End Monitor.

End BSCMonitor.

(* ===================================================================== *)
(** * The same arithmetic in binary64 *)
(* ===================================================================== *)

(** The arithmetic that the claims put numbers on, on IEEE 754 doubles
    as Python evaluates it.  It is used to measure, at those numbers,
    what the rational model leaves out. *)
Module Binary64.

#[local] Set Warnings "-inexact-float".
#[local] Open Scope float_scope.

(** [(passed_checks / total_checks) * 100] of [analyze_token]. *)
Definition score_percent (passed_checks total_checks : float) : float :=
  (passed_checks / total_checks) * 100.

(** The accumulation loop of [_calculate_confidence] and of
    [_calculate_virality_score], over (score, weight) pairs in the
    order of the weight table. *)
Definition weighted_sum (terms : list (float * float)) : float :=
  fold_left (fun acc '(score, weight) => acc + score * weight) terms 0.

Definition lep_weights : list float := [0.25; 0.25; 0.20; 0.15; 0.15].
Definition cascade_weights : list float := [0.25; 0.20; 0.20; 0.25; 0.10].

(** [sum(weights)] *)
Definition total (weights : list float) : float := fold_left PrimFloat.add weights 0.

(** The scores of the LEP scenario, in the order of the weight table. *)
Definition lep_scenario_scores : list float := [0.5; 1.0; 1.0; 0.8; 0.5].

(** Every score an analyser of the sentinel can return, handlers
    included, per signal in the order of the weight table. *)
Definition cascade_score_choices : list (list float) :=
  [[0.8; 0.4; 0.5]; [0.0; 0.5; 1.0]; [0.7; 0.4; 0.5]; [0.8; 0.4; 0.5]; [0.5]].

(** The scores the analysers of the sentinel return on numeric data
    (no handler runs), and the scores the analysers of the predictor can
    return, handlers included. *)
Definition cascade_number_choices : list (list float) :=
  [[0.8; 0.4]; [0.0; 0.5; 1.0]; [0.7; 0.4]; [0.8; 0.4]; [0.5]].

Definition lep_score_choices : list (list float) :=
  [[0.0; 0.5; 1.0]; [0.0; 0.5; 1.0]; [1.0; 0.3; 0.5]; [0.8; 0.4; 0.5]; [0.5]].

(** The arithmetic of one paper trade of main_paper.py, as the program
    computes it: the result of [_monitor_position] on a draw, the
    balance after [_simulate_buy] and [_simulate_sell], and the initial
    balance plus [sum] of the one booked result. *)
Definition pnl_percent (entry_price price_change : float) : float :=
  let current_price := entry_price * (1 + price_change) in
  ((current_price - entry_price) / entry_price) * 100.

Definition balance_after_trade (initial amount pnl : float) : float :=
  (initial - amount) + amount * (1 + pnl / 100).

Definition booked (initial amount pnl : float) : float :=
  initial + (0 + amount * (pnl / 100)).

Definition paper_draws : list float :=
  [-0.05; -0.025; 0; 0.025; 0.05; 0.075; 0.1; 0.125; 0.15].

(** All ways of picking one element from each list. *)
Fixpoint choices {A} (ls : list (list A)) : list (list A) :=
  match ls with
  | [] => [[]]
  | l :: ls => flat_map (fun x => map (cons x) (choices ls)) l
  end.

End Binary64.

(* ===================================================================== *)
(** * A decimal rendering of numbers *)
(* ===================================================================== *)

(** An instance of the format specifications, used where a property is
    evaluated on given data: integers print as Python ints, other
    numbers with their decimal expansion (at most 17 fractional digits). *)
Module Decimal.

Definition sign (z : Z) : string := if (z <? 0)%Z then "-" else "".

(** [{x:.1f}] *)
Definition one_decimal (q : Q) : string :=
  let t := Py.round (q * 10) in
  (sign t ++ pretty (Z.abs t / 10)%Z ++ "." ++ pretty (Z.abs t mod 10)%Z)%string.

Definition three_digits (n : Z) : string :=
  (pretty (n / 100)%Z ++ pretty (n / 10 mod 10)%Z ++ pretty (n mod 10)%Z)%string.

Fixpoint grouped (fuel : nat) (n : Z) : string :=
  match fuel with
  | O => pretty n
  | S fuel =>
      if (n <? 1000)%Z then pretty n
      else (grouped fuel (n / 1000) ++ "," ++ three_digits (n mod 1000))%string
  end.

(** [{x:,.0f}] *)
Definition comma_0f (q : Q) : string :=
  let r := Py.round q in
  (sign r ++ grouped (Z.to_nat (Z.log2 (Z.abs r))) (Z.abs r))%string.

(** The digits of [r / d] after the point, by long division. *)
Fixpoint fraction (fuel : nat) (r d : Z) : string :=
  match fuel with
  | O => ""
  | S fuel =>
      if (r =? 0)%Z then ""
      else (pretty (10 * r / d)%Z ++ fraction fuel ((10 * r) mod d) d)%string
  end.

(** [{x}] *)
Definition plain (q : Q) : string :=
  let n := Qnum q in
  let d := Z.pos (Qden q) in
  if (n mod d =? 0)%Z then pretty (n / d)%Z
  else (sign n ++ pretty (Z.abs n / d)%Z ++ "." ++ fraction 17 (Z.abs n mod d) d)%string.

#[global] Instance format : PyFormat :=
  {| fmt := plain; fmt_1f := one_decimal; fmt_comma_0f := comma_0f |}.

End Decimal.

(* ===================================================================== *)
(** * Sample data *)
(* ===================================================================== *)

Module Sample.

(** A snapshot with no key set. *)
Definition empty_token : TokenData :=
  {| address := None; source := None; liquidity_usd := None; liquidity := None;
     holders := None; top_holder_percent := None; timestamp := None |}.

(** The defaults of config_loader.py for the safety section. *)
Definition safety_config : SafetyFilters.Config :=
  {| SafetyFilters.min_safety_score := 70;
     SafetyFilters.min_rugcheck := 7;
     SafetyFilters.min_liquidity := 5000;
     SafetyFilters.min_holders := 50;
     SafetyFilters.max_top_holder_pct := 60;
     SafetyFilters.max_age_minutes := 5;
     SafetyFilters.check_honeypot := true |}.

(** A snapshot as monitor_solana.py emits it when the holder query
    returns no account: ['holders'] is 0 and there is no
    ['top_holder_percent']. *)
Definition token_without_holders : TokenData :=
  {| address := Some "TestToken123..."%string; source := Some "raydium"%string;
     liquidity_usd := Some 8000; liquidity := None;
     holders := Some 0; top_holder_percent := None;
     timestamp := Some (TsDatetime (Some 0)) |}.

(** A snapshot that violates both holder conditions. *)
Definition concentrated_token : TokenData :=
  {| address := Some "TestToken123..."%string; source := Some "raydium"%string;
     liquidity_usd := Some 8000; liquidity := None;
     holders := Some 10; top_holder_percent := Some 80;
     timestamp := Some (TsDatetime (Some 0)) |}.

(** Strategy settings: the defaults of config_loader.py, and the same
    with the profit target lowered to 10%. *)
Definition strategy : PaperTradingBot.Config :=
  {| PaperTradingBot.take_profit := 300;
     PaperTradingBot.stop_loss := 20;
     PaperTradingBot.trailing_stop := true;
     PaperTradingBot.trailing_distance := 20 |}.

Definition eager_strategy : PaperTradingBot.Config :=
  {| PaperTradingBot.take_profit := 10;
     PaperTradingBot.stop_loss := 20;
     PaperTradingBot.trailing_stop := true;
     PaperTradingBot.trailing_distance := 20 |}.

(** A position just entered at 1.0. *)
Definition fresh_position : PaperTradingBot.Position :=
  {| PaperTradingBot.token := "TestToken123...";
     PaperTradingBot.amount := 0.05;
     PaperTradingBot.entry_price := 1;
     PaperTradingBot.peak_price := 1 |}.

(** A position entered at 1.0 whose price has peaked at 1.5. *)
Definition peaked_position : PaperTradingBot.Position :=
  {| PaperTradingBot.token := "TestToken123...";
     PaperTradingBot.amount := 0.05;
     PaperTradingBot.entry_price := 1;
     PaperTradingBot.peak_price := 1.5 |}.

(** An engine on Solana with Jito, libraries installed and a wallet
    loaded; the same without the Solana libraries; and one configured
    for a network the engine does not know. *)
Definition solana_setup : ExecutionEngine.Setup :=
  {| ExecutionEngine.network := "solana";
     ExecutionEngine.config_use_jito := true;
     ExecutionEngine.jito_tip_sol := 0.01;
     ExecutionEngine.solana_libs := true;
     ExecutionEngine.web3_libs := true;
     ExecutionEngine.solana_keypair := Some "keypair"%string;
     ExecutionEngine.bsc_account := None;
     ExecutionEngine.rpc_client_raises := false;
     ExecutionEngine.rpc_close_raises := false |}.

Definition solana_setup_without_libs : ExecutionEngine.Setup :=
  {| ExecutionEngine.network := "solana";
     ExecutionEngine.config_use_jito := true;
     ExecutionEngine.jito_tip_sol := 0.01;
     ExecutionEngine.solana_libs := false;
     ExecutionEngine.web3_libs := false;
     ExecutionEngine.solana_keypair := None;
     ExecutionEngine.bsc_account := None;
     ExecutionEngine.rpc_client_raises := false;
     ExecutionEngine.rpc_close_raises := false |}.

Definition ethereum_setup : ExecutionEngine.Setup :=
  {| ExecutionEngine.network := "ethereum";
     ExecutionEngine.config_use_jito := true;
     ExecutionEngine.jito_tip_sol := 0.01;
     ExecutionEngine.solana_libs := true;
     ExecutionEngine.web3_libs := true;
     ExecutionEngine.solana_keypair := Some "keypair"%string;
     ExecutionEngine.bsc_account := Some "account"%string;
     ExecutionEngine.rpc_client_raises := false;
     ExecutionEngine.rpc_close_raises := false |}.

(** A winning trade with the given safety score, and a history of ten
    of them of which seven were recorded without a safety score (0). *)
Definition winning_trade (safety_score : Q) : ModelTrainer.Trade :=
  {| ModelTrainer.token := "TestToken123...";
     ModelTrainer.win := Some true;
     ModelTrainer.numbers :=
       list_to_map [("pnl_percent", 250); ("safety_score", safety_score);
                    ("lep_confidence", 0.75); ("virality_score", 85);
                    ("hold_time_minutes", 45)]%string |}.

Definition ten_wins : list ModelTrainer.Trade :=
  map winning_trade [0; 80; 0; 0; 90; 0; 0; 100; 0; 0].

(** The snapshot of the LEP scenario: liquidity 15000, 85 holders, top
    holder at 45%, created 3 minutes ago. *)
Definition lep_token : TokenData :=
  {| address := Some "TestToken123..."%string; source := None;
     liquidity_usd := Some 15000; liquidity := None;
     holders := Some 85; top_holder_percent := Some 45;
     timestamp := Some (TsDatetime (Some 3)) |}.

Definition lep_config : LEPPredictor.Config :=
  {| LEPPredictor.enabled := true; LEPPredictor.min_confidence := 0.6 |}.

(** A snapshot on which every Cascade signal is at its highest: 120
    holders and 20000 of liquidity one minute after creation, top holder
    at 40%. *)
Definition viral_token : TokenData :=
  {| address := Some "TestToken123..."%string; source := None;
     liquidity_usd := Some 20000; liquidity := None;
     holders := Some 120; top_holder_percent := Some 40;
     timestamp := Some (TsDatetime (Some 1)) |}.

Definition cascade_config : CascadeSentinel.Config :=
  {| CascadeSentinel.enabled := true; CascadeSentinel.min_virality := 75 |}.

(** The snapshot of the safety scenario (the test data at the end of
    safety_filters.py) and a world where RugCheck answers 7. *)
Definition safe_token : TokenData :=
  {| address := Some "TestToken123..."%string; source := Some "raydium"%string;
     liquidity_usd := Some 8000; liquidity := None;
     holders := Some 75; top_holder_percent := Some 45;
     timestamp := Some (TsDatetime (Some 0)) |}.

Definition calm_world : SafetyFilters.World :=
  {| SafetyFilters.rugcheck_reply := SafetyFilters.Http200 (Some 7);
     SafetyFilters.honeypot_reply := SafetyFilters.HttpStatus;
     SafetyFilters.clock_gap := 0 |}.

End Sample.

(* ===================================================================== *)
(** * Further sample data *)
(* ===================================================================== *)

Module Cases.

(** A PancakeSwap token that passes the first four layers, in a world
    where honeypot.is reports it as a honeypot. *)
Definition bsc_token : TokenData :=
  {| address := Some "0x1234"%string; source := Some "pancakeswap"%string;
     liquidity_usd := Some 8000; liquidity := None;
     holders := Some 75; top_holder_percent := Some 45;
     timestamp := Some (TsDatetime (Some 0)) |}.

Definition honeypot_world : SafetyFilters.World :=
  {| SafetyFilters.rugcheck_reply := SafetyFilters.HttpTimeout;
     SafetyFilters.honeypot_reply := SafetyFilters.Http200 (Some true);
     SafetyFilters.clock_gap := 0 |}.

(** The same limits with RugCheck's minimum raised to 8. *)
Definition strict_rugcheck : SafetyFilters.Config :=
  {| SafetyFilters.min_safety_score := 70;
     SafetyFilters.min_rugcheck := 8;
     SafetyFilters.min_liquidity := 5000;
     SafetyFilters.min_holders := 50;
     SafetyFilters.max_top_holder_pct := 60;
     SafetyFilters.max_age_minutes := 5;
     SafetyFilters.check_honeypot := true |}.

(** A snapshot whose timestamp is an ISO string ending in Z, as
    [get_token_info] of monitor_solana.py would give with a UTC suffix:
    the parsed datetime is timezone-aware. *)
Definition utc_token : TokenData :=
  {| address := Some "TestToken123..."%string; source := Some "raydium"%string;
     liquidity_usd := Some 8000; liquidity := None;
     holders := Some 75; top_holder_percent := Some 45;
     timestamp := Some (TsString None) |}.

(** The settings of a paper session on Solana with the defaults of
    config_loader.py, and the token the detection loop of main_paper.py
    hands over. *)
Definition paper_config : TradingConfig.t :=
  {| TradingConfig.network := "solana";
     TradingConfig.initial_balance_sol := 10.0;
     TradingConfig.initial_balance_bnb := 1.0;
     TradingConfig.amount_sol := 0.05;
     TradingConfig.amount_bnb := 0.01;
     TradingConfig.max_daily_sol := 2.0;
     TradingConfig.max_daily_bnb := 0.5;
     TradingConfig.min_liquidity_usd := 5000;
     TradingConfig.min_holders := 50;
     TradingConfig.max_top_holder_percent := 60;
     TradingConfig.max_token_age_minutes := 5;
     TradingConfig.safety_threshold := 70;
     TradingConfig.lep_min_confidence := 0.6;
     TradingConfig.cascade_min_virality := 75;
     TradingConfig.solana_endpoints := [];
     TradingConfig.bsc_endpoints := [] |}.

Definition demo_token : PaperSession.Token :=
  {| PaperSession.address := Some "DemoToken123..."%string;
     PaperSession.liquidity := Some 10000;
     PaperSession.holders := Some 75;
     PaperSession.top_holder_percent := Some 45;
     PaperSession.age_minutes := Some 2 |}.

(** A token with too little liquidity and nothing else known. *)
Definition thin_token : PaperSession.Token :=
  {| PaperSession.address := Some "ThinToken..."%string;
     PaperSession.liquidity := Some 100;
     PaperSession.holders := None;
     PaperSession.top_holder_percent := None;
     PaperSession.age_minutes := None |}.


(** Two polls of the Raydium program that list the same signature: the
    RPC fails on the transaction in the first, and serves it in the
    second. *)
Definition failing_poll : SolanaMonitor.Poll :=
  {| SolanaMonitor.signatures := Py.Returns ["5VERv8NMvzbJMEkV8xnrLkEaWRtSz9CosKDYjCJjBRnb"%string];
     SolanaMonitor.transaction := fun _ => SolanaMonitor.TxRaises |}.

Definition serving_poll : SolanaMonitor.Poll :=
  {| SolanaMonitor.signatures := Py.Returns ["5VERv8NMvzbJMEkV8xnrLkEaWRtSz9CosKDYjCJjBRnb"%string];
     SolanaMonitor.transaction := fun _ => SolanaMonitor.TxFound false |}.

End Cases.

(* ===================================================================== *)
(** * Properties of the embedding *)
(* ===================================================================== *)

(** ** Comparisons *)

Lemma ge_true (a b : Q) : Py.ge a b = true <-> b <= a.
Proof. unfold Py.ge. apply Qle_bool_iff. Qed.

Lemma le_true (a b : Q) : Py.le a b = true <-> a <= b.
Proof. unfold Py.le. apply Qle_bool_iff. Qed.

Lemma gt_true (a b : Q) : Py.gt a b = true <-> b < a.
Proof.
  unfold Py.gt. rewrite negb_true_iff, <- not_true_iff_false, Qle_bool_iff.
  split; [apply Qnot_le_lt | apply Qlt_not_le].
Qed.

Lemma lt_true (a b : Q) : Py.lt a b = true <-> a < b.
Proof. apply (gt_true b a). Qed.

Lemma gt_false (a b : Q) : Py.gt a b = false <-> a <= b.
Proof. unfold Py.gt. rewrite negb_false_iff. apply Qle_bool_iff. Qed.

Lemma lt_false (a b : Q) : Py.lt a b = false <-> b <= a.
Proof. apply (gt_false b a). Qed.

Lemma ge_false (a b : Q) : Py.ge a b = false <-> a < b.
Proof.
  unfold Py.ge. rewrite <- not_true_iff_false, Qle_bool_iff.
  split; [apply Qnot_le_lt | apply Qlt_not_le].
Qed.

Lemma le_false (a b : Q) : Py.le a b = false <-> b < a.
Proof. apply (ge_false b a). Qed.

Lemma eq_true (a b : Q) : Py.eq a b = true <-> a == b.
Proof. unfold Py.eq. apply Qeq_bool_iff. Qed.

(** Case analysis on a comparison, leaving the order fact in context. *)
Ltac cmp_cases c :=
  let E := fresh "E" in
  destruct c eqn:E;
  [ first [ apply ge_true in E | apply le_true in E
          | apply gt_true in E | apply lt_true in E | apply eq_true in E ]
  | first [ apply ge_false in E | apply le_false in E
          | apply gt_false in E | apply lt_false in E | idtac ] ].

(** ** SafetyFilters *)

Section SafetyFiltersFacts.
Import SafetyFilters.
Context `{PyFormat}.

(** With five checks the percentage is a multiple of twenty, so that
    truncating it and rounding it agree. *)
Lemma score_of_passed (b1 b2 b3 b4 b5 : bool) (r1 r2 r3 r4 r5 : option string) :
  let acc := tally b5 r5 (tally b4 r4 (tally b3 r3 (tally b2 r2 (tally b1 r1 (0%Z, []))))) in
  (0 <= fst acc <= 5)%Z /\
  Py.int (inject_Z (fst acc) / inject_Z 5 * 100)
  = Py.round (inject_Z (fst acc) / inject_Z 5 * 100).
Proof. destruct b1, b2, b3, b4, b5; vm_compute; intuition congruence. Qed.

(** C1: the report of [analyze_token] counts five checks, of which
    between 0 and 5 passed; its score is
    [round(passed_checks / total_checks * 100)]; and it is safe exactly
    when the score reaches the configured threshold. *)
Theorem analyze_token_score_and_safe (self : Config) (w : World) (token_data : TokenData) :
  let r := analyze_token self w token_data in
  total_checks r = 5%Z /\
  (0 <= passed_checks r <= 5)%Z /\
  score r = Py.round (inject_Z (passed_checks r) / inject_Z (total_checks r) * 100) /\
  (safe r = true <-> min_safety_score self <= inject_Z (score r)).
Proof.
  cbv zeta. unfold analyze_token. cbn [total_checks passed_checks score safe].
  split; [reflexivity|].
  pose proof (score_of_passed
    (rc_passed (_check_rugcheck self w token_data))
    (lq_passed (_check_liquidity self token_data))
    (hd_passed (_check_holders self token_data))
    (ag_passed (_check_age self w token_data))
    (ct_passed (_check_contract self w token_data))
    (rc_reason (_check_rugcheck self w token_data))
    (lq_reason (_check_liquidity self token_data))
    (hd_reason (_check_holders self token_data))
    (ag_reason (_check_age self w token_data))
    (ct_reason (_check_contract self w token_data))) as [Hrange Hround].
  split; [exact Hrange|]. split; [exact Hround|]. apply ge_true.
Qed.

(** The holder layer passes exactly when no reason was collected. *)
Lemma check_holders_passed (self : Config) (token_data : TokenData) :
  hd_passed (_check_holders self token_data) = true <->
  min_holders self <= hd_count (_check_holders self token_data) /\
  hd_top_holder_pct (_check_holders self token_data) <= max_top_holder_pct self.
Proof.
  unfold _check_holders. cbn [hd_passed hd_count hd_top_holder_pct].
  set (count := if Py.eq _ 0 then 75 else _).
  set (top := if Py.eq _ 0 then 45 else _).
  cmp_cases (Py.lt count (min_holders self));
    cmp_cases (Py.gt top (max_top_holder_pct self)); cbn;
    (split; [ try discriminate; intros _; split; assumption
            | intros [? ?]; try reflexivity;
              exfalso; eapply Qlt_not_le; eassumption ]).
Qed.

(** C5, as amended: the layer works on the holder count with 0 (or an
    absent key) replaced by 75 and on the top-holder percentage with 0 (or
    an absent key) replaced by 45.  It passes exactly when that count is
    at least [min_holders] and that percentage is at most
    [max_top_holder_pct]; and when both are violated the reason is the
    two messages joined by "; ". *)
Theorem check_holders_on_substituted_values (self : Config) (token_data : TokenData) :
  let r := _check_holders self token_data in
  let holders_count := get (holders token_data) 0 in
  let top_holder_pct := get (top_holder_percent token_data) 0 in
  hd_count r = (if Py.eq holders_count 0 then 75 else holders_count) /\
  hd_top_holder_pct r = (if Py.eq top_holder_pct 0 then 45 else top_holder_pct) /\
  (hd_passed r = true <->
     min_holders self <= hd_count r /\ hd_top_holder_pct r <= max_top_holder_pct self) /\
  (hd_count r < min_holders self -> max_top_holder_pct self < hd_top_holder_pct r ->
     hd_reason r = Some (too_few_holders self (hd_count r) ++ "; "
                         ++ high_concentration self (hd_top_holder_pct r))%string).
Proof.
  cbv zeta. split; [reflexivity|]. split; [reflexivity|].
  split; [apply check_holders_passed|].
  unfold _check_holders. cbn [hd_count hd_top_holder_pct hd_reason].
  set (count := if Py.eq _ 0 then 75 else _).
  set (top := if Py.eq _ 0 then 45 else _).
  intros Hc Ht.
  apply lt_true in Hc. apply gt_true in Ht. rewrite Hc, Ht. reflexivity.
Qed.

End SafetyFiltersFacts.

(** The safety scenario: all five checks pass, the score is 100 and the
    token is safe under the threshold of 70. *)
Example safety_scenario :
  let r := SafetyFilters.analyze_token Sample.safety_config Sample.calm_world
             Sample.safe_token in
  SafetyFilters.passed_checks r = 5%Z /\
  SafetyFilters.score r = 100%Z /\
  SafetyFilters.safe r = true /\
  SafetyFilters.reasons r = [].
Proof. repeat split; vm_compute; reflexivity. Qed.

(** C5, witness: ten holders and a top holder at 80% against the default
    limits of 50 and 60. *)
Lemma check_holders_on_substituted_values_witness :
  SafetyFilters.hd_reason
    (SafetyFilters._check_holders Sample.safety_config Sample.concentrated_token)
  = Some "Too few holders: 10 (min: 50); High concentration: 80.0% (max: 60%)"%string.
Proof.
  etransitivity.
  - apply (proj2 (proj2 (proj2
      (check_holders_on_substituted_values Sample.safety_config Sample.concentrated_token))));
      vm_compute; reflexivity.
  - vm_compute. reflexivity.
Defined.

(** C5, counterexample: a snapshot whose holder count is 0 passes the
    layer under the default limits, although 0 is below [min_holders]. *)
Lemma check_holders_zero_count_counterexample :
  ~ (SafetyFilters.hd_passed
       (SafetyFilters._check_holders Sample.safety_config Sample.token_without_holders) = true
     <->
     SafetyFilters.min_holders Sample.safety_config
       <= get (holders Sample.token_without_holders) 0 /\
     get (top_holder_percent Sample.token_without_holders) 0
       <= SafetyFilters.max_top_holder_pct Sample.safety_config).
Proof.
  intros [Hpass _].
  assert (Hrun : SafetyFilters.hd_passed
            (SafetyFilters._check_holders Sample.safety_config Sample.token_without_holders)
          = true) by (vm_compute; reflexivity).
  destruct (Hpass Hrun) as [Hmin _].
  revert Hmin. vm_compute. intros Hmin. apply Hmin. reflexivity.
Qed.

(** ** The position monitor *)

Section MonitorFacts.
Import PaperTradingBot.
Context `{PyFormat}.
Variable config : Config.

Lemma div_some (a b : Q) : ~ b == 0 -> Py.div a b = Some (a / b).
Proof.
  intros Hb. unfold Py.div. destruct (Py.eq b 0) eqn:E; [|reflexivity].
  apply eq_true in E. contradiction.
Qed.

(** An iteration leaves the position as it was, or with the current
    price as its new, higher peak. *)
Lemma poll_position (position : Position) (price_change : Q) :
  let current_price := entry_price position * (1 + price_change) in
  fst (poll config position price_change) = position \/
  (fst (poll config position price_change) = set_peak_price position current_price /\
   peak_price position < current_price).
Proof.
  cbv zeta. unfold poll.
  destruct (Py.div _ (entry_price position)); [|left; reflexivity].
  cmp_cases (Py.gt (entry_price position * (1 + price_change)) (peak_price position));
    [right | left];
    repeat match goal with
           | |- context [if ?c then _ else _] => destruct c
           | |- context [match ?c with Some _ => _ | None => _ end] => destruct c
           end; cbn [fst]; auto.
Qed.

Lemma poll_peak_le (position : Position) (price_change : Q) :
  peak_price position <= peak_price (fst (poll config position price_change)).
Proof.
  destruct (poll_position position price_change) as [-> | [-> Hlt]].
  - apply Qle_refl.
  - cbn. apply Qlt_le_weak, Hlt.
Qed.

Lemma peaks_cons (position : Position) (price_change : Q) (draws : list Q) :
  exists rest,
    peaks config position (price_change :: draws)
    = peak_price (fst (poll config position price_change)) :: rest /\
    (rest = [] \/
     rest = peaks config (fst (poll config position price_change)) draws).
Proof.
  unfold peaks. cbn [_monitor_position].
  destruct (poll config position price_change) as [position' outcome].
  cbn [fst map]. destruct outcome; eexists; split; eauto.
Qed.

(** Every recorded peak is at least the peak the monitor started from. *)
Lemma peaks_lower_bound (draws : list Q) :
  forall (position : Position) (i : nat) (p : Q),
    peaks config position draws !! i = Some p -> peak_price position <= p.
Proof.
  induction draws as [|c draws IH]; intros position i p Hp.
  - discriminate.
  - destruct (peaks_cons position c draws) as (rest & E & Hrest).
    rewrite E in Hp.
    destruct i as [|i]; cbn in Hp.
    + injection Hp as <-. apply poll_peak_le.
    + apply Qle_trans with (peak_price (fst (poll config position c))).
      * apply poll_peak_le.
      * destruct Hrest as [-> | ->]; [discriminate|]. eapply IH; eassumption.
Qed.

Lemma peaks_monotone (draws : list Q) :
  forall (position : Position) (i j : nat) (p q : Q),
    (i <= j)%nat ->
    peaks config position draws !! i = Some p ->
    peaks config position draws !! j = Some q ->
    p <= q.
Proof.
  induction draws as [|c draws IH]; intros position i j p q Hij Hp Hq.
  - discriminate.
  - destruct (peaks_cons position c draws) as (rest & E & Hrest).
    rewrite E in Hp, Hq.
    destruct i as [|i]; destruct j as [|j]; cbn in Hp, Hq; try lia.
    + injection Hp as <-. injection Hq as <-. apply Qle_refl.
    + injection Hp as <-.
      destruct Hrest as [-> | ->]; [discriminate|].
      eapply peaks_lower_bound; eassumption.
    + destruct Hrest as [-> | ->]; [discriminate|].
      apply (IH (fst (poll config position c)) i j); [lia | assumption | assumption].
Qed.

Lemma max_ge_l (a b : Q) : a <= Py.max a b.
Proof. unfold Py.max. cmp_cases (Py.gt b a); lra. Qed.

(** An open position has a positive entry price and a peak at or above
    it: [_simulate_buy] creates it so and [poll] keeps it so. *)
Lemma simulate_buy_open (token_address : string) (amount : Q) :
  0 < entry_price (_simulate_buy token_address amount) /\
  entry_price (_simulate_buy token_address amount)
    <= peak_price (_simulate_buy token_address amount).
Proof. split; [reflexivity | apply Qle_refl]. Qed.

Lemma poll_keeps_open (position : Position) (price_change : Q) :
  0 < entry_price position -> entry_price position <= peak_price position ->
  0 < entry_price (fst (poll config position price_change)) /\
  entry_price (fst (poll config position price_change))
    <= peak_price (fst (poll config position price_change)).
Proof.
  intros Hentry Hpeak.
  destruct (poll_position position price_change) as [-> | [-> Hlt]].
  - split; assumption.
  - cbn. split; [assumption|]. apply Qlt_le_weak. eapply Qle_lt_trans; eassumption.
Qed.

(** C2: the exit reason of one poll of an open position follows a fixed
    precedence.  A profit at or above the target sells with "Take
    Profit" whatever the other conditions; failing that, a loss at or
    beyond the stop sells with "Stop Loss" whatever the trailing
    condition; the drop from the peak is looked at only when neither
    holds and the trailing stop is enabled. *)
Theorem exit_precedence (position : Position) (price_change : Q) :
  let current_price := entry_price position * (1 + price_change) in
  let pnl_percent := (current_price - entry_price position) / entry_price position * 100 in
  let peak := Py.max (peak_price position) current_price in
  let drop_from_peak := (peak - current_price) / peak * 100 in
  let outcome := snd (poll config position price_change) in
  0 < entry_price position -> entry_price position <= peak_price position ->
  (take_profit config <= pnl_percent ->
     outcome = Sell current_price pnl_percent (take_profit_reason pnl_percent)) /\
  (pnl_percent < take_profit config -> pnl_percent <= - stop_loss config ->
     outcome = Sell current_price pnl_percent (stop_loss_reason pnl_percent)) /\
  (pnl_percent < take_profit config -> - stop_loss config < pnl_percent ->
     trailing_stop config = false -> outcome = Hold) /\
  (pnl_percent < take_profit config -> - stop_loss config < pnl_percent ->
     trailing_stop config = true -> trailing_distance config <= drop_from_peak ->
     outcome = Sell current_price pnl_percent (trailing_stop_reason drop_from_peak)) /\
  (pnl_percent < take_profit config -> - stop_loss config < pnl_percent ->
     trailing_stop config = true -> drop_from_peak < trailing_distance config ->
     outcome = Hold).
Proof.
  cbv zeta. intros Hentry Hopen. unfold poll.
  assert (Hne : ~ entry_price position == 0) by (intros E; rewrite E in Hentry; lra).
  rewrite (div_some _ _ Hne).
  set (current_price := entry_price position * (1 + price_change)).
  set (pnl_percent := (current_price - entry_price position) / entry_price position * 100).
  assert (Hpeak : peak_price (if Py.gt current_price (peak_price position)
                              then set_peak_price position current_price else position)
                  = Py.max (peak_price position) current_price).
  { unfold Py.max. destruct (Py.gt current_price (peak_price position)); reflexivity. }
  rewrite Hpeak. set (peak := Py.max (peak_price position) current_price).
  assert (Hpk : ~ peak == 0).
  { pose proof (max_ge_l (peak_price position) current_price) as Hge. fold peak in Hge.
    intros E. rewrite E in Hge. lra. }
  rewrite (div_some _ _ Hpk).
  split; [|split; [|split; [|split]]].
  - intros Htp. apply ge_true in Htp. rewrite Htp. reflexivity.
  - intros Htp Hsl. apply ge_false in Htp. apply le_true in Hsl.
    rewrite Htp, Hsl. reflexivity.
  - intros Htp Hsl Hoff. apply ge_false in Htp. apply le_false in Hsl.
    rewrite Htp, Hsl, Hoff. reflexivity.
  - intros Htp Hsl Hon Hdrop. apply ge_false in Htp. apply le_false in Hsl.
    apply ge_true in Hdrop. rewrite Htp, Hsl, Hon, Hdrop. reflexivity.
  - intros Htp Hsl Hon Hdrop. apply ge_false in Htp. apply le_false in Hsl.
    apply ge_false in Hdrop. rewrite Htp, Hsl, Hon, Hdrop. reflexivity.
Qed.

(** C3: the peak never decreases.  A poll sets it to the larger of the
    previous peak and the current price, and over any sequence of price
    draws the peak recorded after a later poll is at least the one
    recorded after an earlier poll, and at least the peak at entry. *)
Theorem peak_price_non_decreasing (position : Position) (draws : list Q) :
  (forall price_change : Q,
     0 < entry_price position ->
     peak_price (fst (poll config position price_change))
     = Py.max (peak_price position) (entry_price position * (1 + price_change))) /\
  (forall (i j : nat) (p q : Q),
     (i <= j)%nat ->
     peaks config position draws !! i = Some p ->
     peaks config position draws !! j = Some q ->
     p <= q) /\
  (forall (i : nat) (p : Q),
     peaks config position draws !! i = Some p -> peak_price position <= p).
Proof.
  split; [|split].
  - intros price_change Hentry. unfold poll.
    assert (Hne : ~ entry_price position == 0) by (intros E; rewrite E in Hentry; lra).
    rewrite (div_some _ _ Hne). unfold Py.max.
    destruct (Py.gt (entry_price position * (1 + price_change)) (peak_price position));
      repeat match goal with
             | |- context [if ?c then _ else _] => destruct c
             | |- context [match ?c with Some _ => _ | None => _ end] => destruct c
             end; reflexivity.
  - apply peaks_monotone.
  - apply peaks_lower_bound.
Qed.

End MonitorFacts.

(** C2, witness: entered at 1.0 with the peak at 1.5, the price comes
    back to 1.2.  The drop from the peak is 20%, the trailing distance.
    With the profit target at 10% both conditions hold and the sale is
    a "Take Profit"; with the target at 300% it is a "Trailing Stop". *)
Lemma exit_precedence_witness :
  (exists exit_price pnl_percent,
     snd (PaperTradingBot.poll Sample.eager_strategy Sample.peaked_position 0.2)
     = PaperTradingBot.Sell exit_price pnl_percent "Take Profit (20.0%)") /\
  (exists exit_price pnl_percent,
     snd (PaperTradingBot.poll Sample.strategy Sample.peaked_position 0.2)
     = PaperTradingBot.Sell exit_price pnl_percent "Trailing Stop (20.0% from peak)").
Proof.
  assert (Hentry : 0 < PaperTradingBot.entry_price Sample.peaked_position)
    by (vm_compute; reflexivity).
  assert (Hopen : PaperTradingBot.entry_price Sample.peaked_position
                  <= PaperTradingBot.peak_price Sample.peaked_position)
    by (vm_compute; discriminate).
  split; eexists; eexists.
  - etransitivity.
    + apply (proj1 (exit_precedence Sample.eager_strategy Sample.peaked_position 0.2
                      Hentry Hopen)).
      vm_compute. discriminate.
    + apply f_equal. vm_compute. reflexivity.
  - etransitivity.
    + refine (proj1 (proj2 (proj2 (proj2
        (exit_precedence Sample.strategy Sample.peaked_position 0.2 Hentry Hopen))))
        _ _ _ _).
      * vm_compute. reflexivity.
      * vm_compute. reflexivity.
      * reflexivity.
      * vm_compute. discriminate.
    + apply f_equal. vm_compute. reflexivity.
Defined.

(** The trailing-stop scenario: entered at 1.0, the price rises to 1.5
    and falls back to 1.2.  The first poll holds and records the peak;
    the second sells on the trailing stop, 20% below the peak, with a
    profit of 20%. *)
Example trailing_stop_scenario :
  map snd (PaperTradingBot._monitor_position Sample.strategy Sample.fresh_position
             [0.5; 0.2; 0.1])
  = [PaperTradingBot.Hold;
     PaperTradingBot.Sell (1 * (1 + 0.2)) ((1 * (1 + 0.2) - 1) / 1 * 100)
       "Trailing Stop (20.0% from peak)"] /\
  PaperTradingBot.peaks Sample.strategy Sample.fresh_position [0.5; 0.2; 0.1]
  = [1 * (1 + 0.5); 1 * (1 + 0.5)].
Proof. split; vm_compute; reflexivity. Qed.

(** C3, witness: a position bought at the demo price sees the price go
    up 10%, down 5% and up 15% from entry. *)
Lemma peak_price_non_decreasing_witness :
  let position := PaperTradingBot._simulate_buy "TestToken123..." 0.05 in
  let draws := [0.1; -0.05; 0.15] in
  PaperTradingBot.peak_price (fst (PaperTradingBot.poll Sample.strategy position (-0.05)))
    == PaperTradingBot.demo_entry_price /\
  (forall p q : Q,
     PaperTradingBot.peaks Sample.strategy position draws !! 0%nat = Some p ->
     PaperTradingBot.peaks Sample.strategy position draws !! 1%nat = Some q -> p <= q) /\
  (forall p : Q,
     PaperTradingBot.peaks Sample.strategy position draws !! 2%nat = Some p ->
     PaperTradingBot.demo_entry_price <= p).
Proof.
  cbv zeta.
  pose proof (peak_price_non_decreasing Sample.strategy
    (PaperTradingBot._simulate_buy "TestToken123..." 0.05) [0.1; -0.05; 0.15])
    as (Hpoll & Hpairs & Hentry).
  split; [|split].
  - rewrite Hpoll by (vm_compute; reflexivity). vm_compute. reflexivity.
  - intros p q. apply Hpairs. lia.
  - intros p. apply Hentry.
Defined.

(** ** ExecutionEngine *)

Section EngineFacts.
Import ExecutionEngine.
Variable self : Setup.
Variable now : Q.

Lemma buy_solana_result (st : State) (token_data : TokenData) (amount : Q) :
  match fst (_buy_solana self now st token_data amount) with
  | Some r => success r = true /\ amount_in r = amount
  | None =>
      solana_libs self = false \/ solana_keypair self = None \/
      rpc_client_raises self = true \/ rpc_close_raises self = true \/
      (use_jito self = true /\ _get_jito_tip_account st = None)
  end.
Proof.
  unfold _buy_solana.
  destruct (solana_libs self); cbn [negb]; [|cbn; auto].
  destruct (solana_keypair self); [|cbn; auto].
  destruct (rpc_client_raises self); [cbn; auto|].
  destruct (use_jito self).
  - destruct (_get_jito_tip_account st) as [[tip st']|]; [|cbn; auto 10].
    destruct (rpc_close_raises self); cbn; auto.
  - destruct (rpc_close_raises self); cbn; auto.
Qed.

Lemma buy_bsc_result (token_data : TokenData) (amount : Q) :
  match _buy_bsc self now token_data amount with
  | Some r => success r = true /\ amount_in r = amount
  | None => web3_libs self = false \/ bsc_account self = None
  end.
Proof.
  unfold _buy_bsc.
  destruct (web3_libs self); cbn [negb]; [|auto].
  destruct (bsc_account self); cbn; auto.
Qed.

Lemma buy_solana_none (st : State) (token_data : TokenData) (amount : Q) :
  fst (_buy_solana self now st token_data amount) = None <->
  solana_libs self = false \/ solana_keypair self = None \/
  rpc_client_raises self = true \/ rpc_close_raises self = true \/
  (use_jito self = true /\ _get_jito_tip_account st = None).
Proof.
  unfold _buy_solana.
  destruct (solana_libs self); cbn [negb]; [|cbn; tauto].
  destruct (solana_keypair self) as [keypair|]; [|cbn; tauto].
  destruct (rpc_client_raises self); [cbn; tauto|].
  destruct (use_jito self).
  - destruct (_get_jito_tip_account st) as [[tip_account st']|]; [|cbn; tauto].
    destruct (rpc_close_raises self); cbn; intuition (discriminate || congruence).
  - destruct (rpc_close_raises self); cbn; intuition (discriminate || congruence).
Qed.

Lemma buy_bsc_none (token_data : TokenData) (amount : Q) :
  _buy_bsc self now token_data amount = None <->
  web3_libs self = false \/ bsc_account self = None.
Proof.
  unfold _buy_bsc.
  destruct (web3_libs self); cbn [negb]; [|tauto].
  destruct (bsc_account self); intuition (discriminate || congruence).
Qed.

(** With the exceptions explicit, the Solana purchase returns what
    [_buy_solana] gives, whatever raises inside it. *)
Lemma raising_buy_solana (st : State) (token_data : TokenData) (amount : Q) :
  Raising._buy_solana self now st token_data amount
  = (Py.Returns (fst (_buy_solana self now st token_data amount)),
     snd (_buy_solana self now st token_data amount)).
Proof.
  unfold Raising._buy_solana, _buy_solana, Raising.AsyncClient, Raising.close,
    Raising.tip, Raising.return_none.
  destruct (solana_libs self); cbn [negb]; [|reflexivity].
  destruct (solana_keypair self) as [keypair|]; [|reflexivity].
  destruct (rpc_client_raises self); [reflexivity|].
  destruct (use_jito self).
  - destruct (_get_jito_tip_account st) as [[tip_account st']|];
      destruct (rpc_close_raises self); reflexivity.
  - destruct (rpc_close_raises self); reflexivity.
Qed.

Lemma raising_buy_bsc (st : State) (token_data : TokenData) (amount : Q) :
  Raising._buy_bsc self now st token_data amount
  = (Py.Returns (_buy_bsc self now token_data amount), st).
Proof.
  unfold Raising._buy_bsc, _buy_bsc, Raising.return_none.
  destruct (web3_libs self); cbn [negb]; [|reflexivity].
  destruct (bsc_account self); reflexivity.
Qed.

(** C4, as amended: [buy_token] and [sell_token] return without raising:
    with every exception of their bodies explicit, the outcome is a
    return, of the value given above.  That value is [None] or a result
    whose success flag is true; a result with the flag false is never
    built.  [sell_token] returns [None] exactly when the network is
    neither of the two supported ones.  [buy_token] returns [None]
    exactly when the network is unsupported, the library or the wallet
    of the network is missing, or a call inside the Solana path raises
    (constructing or closing the client, or reading the tip account). *)
Theorem trade_result_or_none (st : State) (token_data : TokenData) (amount : Q) :
  Raising.buy_token self now st token_data amount
  = (Py.Returns (fst (buy_token self now st token_data amount)),
     snd (buy_token self now st token_data amount)) /\
  Raising.sell_token self now st token_data amount
  = (Py.Returns (fst (sell_token self now st token_data amount)),
     snd (sell_token self now st token_data amount)) /\
  (fst (buy_token self now st token_data amount) = None <->
   (network self <> "solana"%string /\ network self <> "bsc"%string) \/
   (network self = "solana"%string /\
    (solana_libs self = false \/ solana_keypair self = None \/
     rpc_client_raises self = true \/ rpc_close_raises self = true \/
     (use_jito self = true /\ _get_jito_tip_account st = None))) \/
   (network self = "bsc"%string /\
    (web3_libs self = false \/ bsc_account self = None))) /\
  (forall r, fst (buy_token self now st token_data amount) = Some r ->
     success r = true /\ amount_in r = amount) /\
  (fst (sell_token self now st token_data amount) = None <->
   network self <> "solana"%string /\ network self <> "bsc"%string) /\
  (forall r, fst (sell_token self now st token_data amount) = Some r ->
     success r = true /\ amount_in r = amount /\
     (network self = "solana"%string \/ network self = "bsc"%string)).
Proof.
  split; [|split; [|split; [|split; [|split]]]].
  - unfold Raising.buy_token, buy_token, Raising.return_none.
    case_bool_decide as Hsol; [rewrite raising_buy_solana; reflexivity|].
    case_bool_decide as Hbsc; [rewrite raising_buy_bsc|]; reflexivity.
  - unfold Raising.sell_token, sell_token.
    repeat case_bool_decide; reflexivity.
  - unfold buy_token. case_bool_decide as Hsol.
    + rewrite buy_solana_none. split; [intros Hnone; right; left; auto|].
      intros [[Hno _] | [[_ Hnone] | [Hbsc _]]];
        [contradiction | exact Hnone | congruence].
    + case_bool_decide as Hbsc; cbn [fst].
      * rewrite buy_bsc_none. split; [intros Hnone; right; right; auto|].
        intros [[_ Hno] | [[Hs _] | [_ Hnone]]];
          [contradiction | contradiction | exact Hnone].
      * split; [intros _; left; auto | reflexivity].
  - intros r Hr. unfold buy_token in Hr. revert Hr. case_bool_decide as Hsol.
    + pose proof (buy_solana_result st token_data amount) as Hb.
      intros Hr. rewrite Hr in Hb. exact Hb.
    + case_bool_decide as Hbsc; cbn [fst]; [|discriminate].
      pose proof (buy_bsc_result token_data amount) as Hb.
      intros Hr. rewrite Hr in Hb. exact Hb.
  - unfold sell_token. case_bool_decide as Hsol; [cbn; split; [discriminate | tauto]|].
    case_bool_decide as Hbsc; cbn; [split; [discriminate | tauto] | tauto].
  - intros r. unfold sell_token.
    case_bool_decide as Hsol; [cbn; intros [= <-]; cbn; auto|].
    case_bool_decide as Hbsc; cbn; [intros [= <-]; cbn; auto | discriminate].
Qed.

End EngineFacts.

(** C4, witness: on Solana with libraries and wallet in place a purchase
    of 0.05 returns a successful result for that amount. *)
Lemma trade_result_or_none_witness :
  exists r,
    fst (ExecutionEngine.buy_token Sample.solana_setup 0 ExecutionEngine.init
           Sample.empty_token 0.05) = Some r /\
    ExecutionEngine.success r = true /\ ExecutionEngine.amount_in r = 0.05.
Proof.
  eexists. split; [vm_compute; reflexivity|].
  refine (proj1 (proj2 (proj2 (proj2
            (trade_result_or_none Sample.solana_setup 0 ExecutionEngine.init
               Sample.empty_token 0.05)))) _ _).
  vm_compute. reflexivity.
Defined.

(** C4, counterexample: with the network set to "ethereum" both calls
    return [None], and so does a purchase on Solana when the Solana
    libraries are not installed. *)
Lemma trade_result_none_counterexample :
  ~ (exists r, fst (ExecutionEngine.buy_token Sample.ethereum_setup 0 ExecutionEngine.init
                      Sample.empty_token 0.05) = Some r) /\
  ~ (exists r, fst (ExecutionEngine.sell_token Sample.ethereum_setup 0 ExecutionEngine.init
                      Sample.empty_token 0.05) = Some r) /\
  ~ (exists r, fst (ExecutionEngine.buy_token Sample.solana_setup_without_libs 0
                      ExecutionEngine.init Sample.empty_token 0.05) = Some r).
Proof. repeat split; intros [r Hr]; vm_compute in Hr; discriminate Hr. Qed.

(** ** Tip rotation *)

Section TipRotation.
Import ExecutionEngine.

Lemma tip_accounts_length : length JITO_TIP_ACCOUNTS = 8%nat.
Proof. reflexivity. Qed.

Lemma tip_accounts_NoDup : NoDup JITO_TIP_ACCOUNTS.
Proof. apply (bool_decide_unpack _). vm_compute. reflexivity. Qed.

(** One call at an index within the pool. *)
Lemma get_jito_tip_account_at (i : nat) :
  (i < 8)%nat ->
  exists a,
    JITO_TIP_ACCOUNTS !! i = Some a /\
    _get_jito_tip_account {| jito_tip_account_index := Z.of_nat i |}
    = Some (a, {| jito_tip_account_index := Z.of_nat (S i mod 8) |}).
Proof.
  intros Hi.
  do 8 (destruct i as [|i]; [eexists; split; reflexivity|]). lia.
Qed.

(** [n] calls from an index within the pool walk the pool cyclically. *)
Lemma tip_calls_from (n : nat) :
  forall i : nat,
    (i < 8)%nat ->
    exists accounts,
      tip_calls n {| jito_tip_account_index := Z.of_nat i |}
      = Some (accounts, {| jito_tip_account_index := Z.of_nat ((i + n) mod 8) |}) /\
      length accounts = n /\
      forall k : nat,
        (k < n)%nat -> accounts !! k = JITO_TIP_ACCOUNTS !! ((i + k) mod 8)%nat.
Proof.
  induction n as [|n IH]; intros i Hi.
  - exists []. rewrite Nat.add_0_r, Nat.mod_small by exact Hi.
    split; [reflexivity|]. split; [reflexivity|]. intros k Hk. lia.
  - destruct (get_jito_tip_account_at i Hi) as (a & Ha & Hcall).
    assert (Hnext : (S i mod 8 < 8)%nat) by (apply Nat.mod_upper_bound; lia).
    destruct (IH (S i mod 8)%nat Hnext) as (rest & Hrest & Hlen & Hnth).
    exists (a :: rest). cbn [tip_calls]. rewrite Hcall. cbn [mbind option_bind].
    rewrite Hrest. cbn [mbind option_bind length].
    assert (Hshift : forall m : nat, ((S i mod 8 + m) mod 8 = (i + S m) mod 8)%nat).
    { intros m. rewrite Nat.Div0.add_mod_idemp_l. f_equal. lia. }
    rewrite Hshift. split; [reflexivity|]. split; [lia|].
    intros [|k] Hk.
    + rewrite Nat.add_0_r, Nat.mod_small by exact Hi. symmetry. exact Ha.
    + change ((a :: rest) !! S k) with (rest !! k).
      rewrite Hnth by lia. rewrite Hshift. reflexivity.
Qed.

Lemma rotation_count_step (N j : nat) :
  (j < 8)%nat ->
  (S N / 8 + (if j <? S N mod 8 then 1 else 0)
   = N / 8 + (if j <? N mod 8 then 1 else 0) + (if N mod 8 =? j then 1 else 0))%nat.
Proof.
  intros Hj.
  pose proof (Nat.div_mod_eq N 8).
  pose proof (Nat.mod_upper_bound N 8 ltac:(lia)).
  pose proof (Nat.div_mod_eq (S N) 8).
  pose proof (Nat.mod_upper_bound (S N) 8 ltac:(lia)).
  repeat match goal with
         | |- context [if ?c then _ else _] =>
             let E := fresh in
             destruct c eqn:E;
             [ first [apply Nat.ltb_lt in E | apply Nat.eqb_eq in E]
             | first [apply Nat.ltb_ge in E | apply Nat.eqb_neq in E] ]
         end; lia.
Qed.

(** How often the [j]-th account occurs in a cyclic walk of length
    [N]. *)
Lemma rotation_count (accounts : list string) :
  forall (N j : nat) (a : string),
    length accounts = N ->
    (forall k : nat,
       (k < N)%nat -> accounts !! k = JITO_TIP_ACCOUNTS !! (k mod 8)%nat) ->
    (j < 8)%nat ->
    JITO_TIP_ACCOUNTS !! j = Some a ->
    count_occ string_dec accounts a
    = (N / 8 + (if j <? N mod 8 then 1 else 0))%nat.
Proof.
  induction accounts as [|x l IH] using rev_ind; intros N j a Hlen Hnth Hj Ha.
  - cbn in Hlen. subst N. destruct j; reflexivity.
  - rewrite length_app in Hlen. cbn in Hlen.
    destruct N as [|N]; [lia|].
    assert (Hl : length l = N) by lia.
    rewrite count_occ_app, (IH N j a Hl); [|
      intros k Hk; rewrite <- Hnth by lia; symmetry; apply lookup_app_l; lia
      | exact Hj | exact Ha ].
    rewrite rotation_count_step by exact Hj. f_equal.
    assert (Hx : JITO_TIP_ACCOUNTS !! (N mod 8)%nat = Some x).
    { rewrite <- Hnth by lia. rewrite lookup_app_r by lia.
      replace (N - length l)%nat with 0%nat by lia. reflexivity. }
    cbn [count_occ]. destruct (string_dec x a) as [-> | Hne].
    + rewrite (NoDup_lookup _ _ _ _ tip_accounts_NoDup Hx Ha).
      rewrite Nat.eqb_refl. reflexivity.
    + destruct (Nat.eqb_spec (N mod 8) j) as [E|]; [|reflexivity].
      rewrite E in Hx. congruence.
Qed.

(** C6: from index 0, [N] calls succeed; the [k]-th returns
    [JITO_TIP_ACCOUNTS[k mod 8]]; the stored index ends at [N mod 8],
    within 0..7; and every account of the pool has been returned
    [N / 8] or [N / 8 + 1] times. *)
Theorem jito_tip_rotation (N : nat) :
  exists (accounts : list string) (st : State),
    tip_calls N init = Some (accounts, st) /\
    length accounts = N /\
    (forall k : nat,
       (k < N)%nat -> accounts !! k = JITO_TIP_ACCOUNTS !! (k mod 8)%nat) /\
    jito_tip_account_index st = Z.of_nat (N mod 8) /\
    (0 <= jito_tip_account_index st <= 7)%Z /\
    (forall a : string,
       a ∈ JITO_TIP_ACCOUNTS ->
       (N / 8 <= count_occ string_dec accounts a <= N / 8 + 1)%nat).
Proof.
  destruct (tip_calls_from N 0%nat ltac:(lia)) as (accounts & Hrun & Hlen & Hnth).
  cbn [Nat.add] in Hrun, Hnth.
  exists accounts, {| jito_tip_account_index := Z.of_nat (N mod 8) |}.
  split; [exact Hrun|]. split; [exact Hlen|]. split; [exact Hnth|].
  split; [reflexivity|]. split.
  - cbn. pose proof (Nat.mod_upper_bound N 8 ltac:(lia)). lia.
  - intros a Ha. apply list_elem_of_lookup in Ha as [j Hj].
    assert (Hlt : (j < 8)%nat).
    { apply lookup_lt_Some in Hj. rewrite tip_accounts_length in Hj. exact Hj. }
    rewrite (rotation_count accounts N j a Hlen Hnth Hlt Hj).
    destruct (j <? N mod 8)%nat; lia.
Qed.

End TipRotation.

(** C6, witness: nineteen calls.  The last one (k = 18) returns the
    third account of the pool, which by then has come up three times. *)
Lemma jito_tip_rotation_witness :
  exists (accounts : list string) (st : ExecutionEngine.State),
    ExecutionEngine.tip_calls 19 ExecutionEngine.init = Some (accounts, st) /\
    accounts !! 18%nat = Some "Cw8CFyM9FkoMi7K7Crf6HNQqf4uEMzpKw6QNghXLvLkY"%string /\
    (2 <= count_occ string_dec accounts "Cw8CFyM9FkoMi7K7Crf6HNQqf4uEMzpKw6QNghXLvLkY" <= 3)%nat.
Proof.
  destruct (jito_tip_rotation 19) as (accounts & st & Hrun & _ & Hnth & _ & _ & Hcount).
  exists accounts, st. split; [exact Hrun|]. split.
  - rewrite (Hnth 18%nat) by lia. reflexivity.
  - apply (Hcount "Cw8CFyM9FkoMi7K7Crf6HNQqf4uEMzpKw6QNghXLvLkY"%string).
    apply list_elem_of_lookup. exists 2%nat. reflexivity.
Defined.

(** ** ModelTrainer *)

Section ModelTrainerFacts.
Import ModelTrainer.

(** *** Sorting *)

Lemma insert_sorted_perm (x : Q) (l : list Q) :
  Permutation (insert_sorted x l) (x :: l).
Proof.
  induction l as [|y l IH]; cbn [insert_sorted].
  - reflexivity.
  - destruct (Py.le x y); [reflexivity|].
    rewrite IH. apply perm_swap.
Qed.

Lemma sorted_perm (l : list Q) : Permutation (sorted l) l.
Proof.
  induction l as [|x l IH]; cbn [sorted fold_right].
  - reflexivity.
  - fold (sorted l). rewrite insert_sorted_perm, IH. reflexivity.
Qed.

Lemma sorted_length (l : list Q) : length (sorted l) = length l.
Proof. apply Permutation_length, sorted_perm. Qed.

Lemma insert_sorted_HdRel (a x : Q) (l : list Q) :
  a <= x -> HdRel Qle a l -> HdRel Qle a (insert_sorted x l).
Proof.
  intros Hax Hl. destruct l as [|y l]; cbn [insert_sorted].
  - constructor. exact Hax.
  - destruct (Py.le x y); constructor; [exact Hax|].
    inversion Hl; assumption.
Qed.

Lemma insert_sorted_Sorted (x : Q) (l : list Q) :
  Sorted Qle l -> Sorted Qle (insert_sorted x l).
Proof.
  induction 1 as [|y l Hl IH Hhd]; cbn [insert_sorted].
  - repeat constructor.
  - cmp_cases (Py.le x y).
    + constructor; [constructor; assumption|]. constructor. exact E.
    + constructor; [exact IH|].
      apply insert_sorted_HdRel; [apply Qlt_le_weak, E | exact Hhd].
Qed.

Lemma sorted_Sorted (l : list Q) : StronglySorted Qle (sorted l).
Proof.
  apply Sorted_StronglySorted; [exact Qle_trans|].
  induction l as [|x l IH]; cbn [sorted fold_right].
  - constructor.
  - apply insert_sorted_Sorted, IH.
Qed.

(** In a sorted list everything before a position is at most the
    element there, and everything after is at least that element. *)
Lemma StronglySorted_split (l1 l2 : list Q) (x : Q) :
  StronglySorted Qle (l1 ++ x :: l2) ->
  Forall (fun v => v <= x) l1 /\ Forall (fun v => x <= v) l2.
Proof.
  induction l1 as [|y l1 IH]; cbn; intros Hs.
  - inversion Hs; subst. split; [constructor | assumption].
  - inversion Hs as [|? ? Htl Hall]; subst.
    destruct (IH Htl) as [H1 H2]. split; [|exact H2].
    constructor; [|exact H1].
    rewrite Forall_app in Hall. destruct Hall as [_ Hall].
    inversion Hall; assumption.
Qed.

(** *** Counting *)

Lemma count_le_app (m : Q) (l1 l2 : list Q) :
  count_le m (l1 ++ l2) = (count_le m l1 + count_le m l2)%nat.
Proof. unfold count_le. rewrite List.filter_app, length_app. reflexivity. Qed.

Lemma count_ge_app (m : Q) (l1 l2 : list Q) :
  count_ge m (l1 ++ l2) = (count_ge m l1 + count_ge m l2)%nat.
Proof. unfold count_ge. rewrite List.filter_app, length_app. reflexivity. Qed.

Lemma count_le_all (m : Q) (l : list Q) :
  Forall (fun v => v <= m) l -> count_le m l = length l.
Proof.
  unfold count_le. induction 1 as [|v l Hv _ IH]; [reflexivity|].
  cbn. apply le_true in Hv. rewrite Hv. cbn. rewrite IH. reflexivity.
Qed.

Lemma count_ge_all (m : Q) (l : list Q) :
  Forall (fun v => m <= v) l -> count_ge m l = length l.
Proof.
  unfold count_ge. induction 1 as [|v l Hv _ IH]; [reflexivity|].
  cbn. apply ge_true in Hv. rewrite Hv. cbn. rewrite IH. reflexivity.
Qed.

Lemma count_le_mono (m m' : Q) (l : list Q) :
  m <= m' -> (count_le m l <= count_le m' l)%nat.
Proof.
  intros Hm. unfold count_le. induction l as [|v l IH]; [reflexivity|].
  cbn. cmp_cases (Py.le v m).
  - assert (Hv : Py.le v m' = true) by (apply le_true; eapply Qle_trans; eassumption).
    rewrite Hv. cbn. lia.
  - destruct (Py.le v m'); cbn; lia.
Qed.

Lemma count_ge_mono (m m' : Q) (l : list Q) :
  m' <= m -> (count_ge m l <= count_ge m' l)%nat.
Proof.
  intros Hm. unfold count_ge. induction l as [|v l IH]; [reflexivity|].
  cbn. cmp_cases (Py.ge v m).
  - assert (Hv : Py.ge v m' = true) by (apply ge_true; eapply Qle_trans; eassumption).
    rewrite Hv. cbn. lia.
  - destruct (Py.ge v m'); cbn; lia.
Qed.

Lemma count_le_perm (m : Q) (l l' : list Q) :
  Permutation l l' -> count_le m l = count_le m l'.
Proof.
  unfold count_le. induction 1 as [|v l l' _ IH|v w l|l l' l'' _ IH1 _ IH2]; cbn.
  - reflexivity.
  - destruct (Py.le v m); cbn; rewrite IH; reflexivity.
  - destruct (Py.le v m), (Py.le w m); reflexivity.
  - rewrite IH1. exact IH2.
Qed.

Lemma count_ge_perm (m : Q) (l l' : list Q) :
  Permutation l l' -> count_ge m l = count_ge m l'.
Proof.
  unfold count_ge. induction 1 as [|v l l' _ IH|v w l|l l' l'' _ IH1 _ IH2]; cbn.
  - reflexivity.
  - destruct (Py.ge v m); cbn; rewrite IH; reflexivity.
  - destruct (Py.ge v m), (Py.ge w m); reflexivity.
  - rewrite IH1. exact IH2.
Qed.

(** The element at position [k] of a sorted list has at least [k + 1]
    elements at or below it and at least [length - k] at or above. *)
Lemma sorted_nth_counts (s : list Q) (k : nat) :
  StronglySorted Qle s -> (k < length s)%nat ->
  (k + 1 <= count_le (nth k s 0%Q) s)%nat /\
  (length s - k <= count_ge (nth k s 0%Q) s)%nat.
Proof.
  intros Hs Hk.
  destruct (nth_split s 0 Hk) as (l1 & l2 & Hsplit & Hlen).
  revert Hsplit. generalize (nth k s 0). intros x Hsplit. subst s.
  destruct (StronglySorted_split l1 l2 x Hs) as [Hbefore Hafter].
  assert (Hxle : count_le x [x] = 1%nat).
  { apply (count_le_all x [x]). repeat constructor. apply Qle_refl. }
  assert (Hxge : count_ge x [x] = 1%nat).
  { apply (count_ge_all x [x]). repeat constructor. apply Qle_refl. }
  change (x :: l2) with ([x] ++ l2).
  rewrite !count_le_app, !count_ge_app, !length_app.
  rewrite (count_le_all x l1 Hbefore), (count_ge_all x l2 Hafter), Hxle, Hxge.
  cbn [length]. lia.
Qed.

Lemma StronglySorted_nth_le (s : list Q) (i j : nat) :
  StronglySorted Qle s -> (i <= j)%nat -> (j < length s)%nat ->
  nth i s 0 <= nth j s 0.
Proof.
  intros Hs. revert i j.
  induction Hs as [|x s Hs IH Hall]; intros i j Hij Hj; cbn in Hj; [lia|].
  destruct i as [|i], j as [|j]; cbn [nth]; try lia.
  - apply Qle_refl.
  - rewrite Forall_forall in Hall. apply Hall, list_elem_of_In, nth_In. lia.
  - apply IH; lia.
Qed.

(** *** The median *)

(** [np_median] returns a median. *)
Lemma np_median_is_median (values : list Q) :
  values <> [] -> is_median (np_median values) values.
Proof.
  intros Hne. unfold is_median, np_median.
  pose proof (sorted_Sorted values) as Hs.
  pose proof (sorted_perm values) as Hp.
  rewrite <- (count_le_perm _ _ _ Hp), <- (count_ge_perm _ _ _ Hp).
  rewrite <- (sorted_length values).
  assert (Hpos : (0 < length (sorted values))%nat).
  { rewrite sorted_length. destruct values; [congruence | cbn; lia]. }
  set (s := sorted values) in *. set (n := length s) in *.
  pose proof (Nat.div_mod_eq n 2) as Hdiv.
  pose proof (Nat.mod_upper_bound n 2 ltac:(lia)) as Hmod.
  destruct (Nat.even n) eqn:Heven.
  - apply Nat.even_spec in Heven. destruct Heven as [h Hh].
    assert (Hk : (n / 2 = h)%nat) by lia.
    rewrite Hk.
    set (a := nth (h - 1) s 0). set (b := nth h s 0).
    assert (Hab : a <= b) by (apply StronglySorted_nth_le; [exact Hs | lia | lia]).
    destruct (sorted_nth_counts s (h - 1) Hs ltac:(lia)) as [Hle _].
    destruct (sorted_nth_counts s h Hs ltac:(lia)) as [_ Hge].
    fold a in Hle. fold b in Hge. fold n in Hge.
    clearbody a b.
    assert (Hlo : a <= (a + b) / 2)
      by (unfold Qdiv; change (/ 2) with (1 # 2); lra).
    assert (Hhi : (a + b) / 2 <= b)
      by (unfold Qdiv; change (/ 2) with (1 # 2); lra).
    pose proof (count_le_mono a ((a + b) / 2) s Hlo).
    pose proof (count_ge_mono b ((a + b) / 2) s Hhi).
    lia.
  - assert (Hodd : Nat.odd n = true) by (rewrite <- Nat.negb_even, Heven; reflexivity).
    apply Nat.odd_spec in Hodd. destruct Hodd as [h Hh].
    assert (Hk : (n / 2 = h)%nat) by lia.
    rewrite Hk.
    destruct (sorted_nth_counts s h Hs ltac:(lia)) as [Hle Hge].
    fold n in Hge. lia.
Qed.

Lemma map_filter_comm {A B : Type} (f : A -> B) (p : B -> bool) (l : list A) :
  map f (List.filter (fun x => p (f x)) l) = List.filter p (map f l).
Proof.
  induction l as [|x l IH]; cbn; [reflexivity|].
  destruct (p (f x)); cbn; rewrite IH; reflexivity.
Qed.

Lemma find_optimal_threshold_learned (history : list Trade) (field : string) :
  learned_from history field
    (_find_optimal_threshold (List.filter (fun t => is_win t) history) field).
Proof.
  unfold learned_from, _find_optimal_threshold, positive, winning_values.
  rewrite (map_filter_comm (fun t => number t field) (fun v => Py.gt v 0)).
  change (List.filter (fun t => is_win t) history) with (List.filter is_win history).
  destruct (List.filter (fun v => Py.gt v 0)
              (map (fun t => number t field) (List.filter is_win history)))
    as [|v values] eqn:E; [reflexivity|].
  split; [reflexivity|]. apply np_median_is_median. discriminate.
Qed.

(** C7, as amended: below ten records, or without a winning trade, the
    patterns file is left as it is.  From ten records on, with at least
    one winning trade, it is rewritten, and each learned threshold is the
    median of the positive values of its field among the winning trades
    (values of 0 or less are left out), or 0 when no winning trade has a
    positive value. *)
Theorem pattern_recomputation (now : string) (history : list Trade)
    (file : option Patterns) :
  ((length history < 10)%nat -> _analyze_patterns now history file = file) /\
  ((10 <= length history)%nat -> List.filter is_win history = [] ->
     _analyze_patterns now history file = file) /\
  ((10 <= length history)%nat -> List.filter is_win history <> [] ->
     exists p : Patterns,
       _analyze_patterns now history file = Some p /\
       total_trades p = length history /\
       learned_from history "safety_score" (optimal_safety_score p) /\
       learned_from history "lep_confidence" (optimal_lep_confidence p) /\
       learned_from history "virality_score" (optimal_virality_score p)).
Proof.
  unfold _analyze_patterns.
  change (List.filter (fun t => is_win t) history) with (List.filter is_win history).
  split; [|split].
  - intros Hlen. apply Nat.ltb_lt in Hlen. rewrite Hlen. reflexivity.
  - intros Hlen Hwins. apply Nat.ltb_ge in Hlen. rewrite Hlen, Hwins. reflexivity.
  - intros Hlen Hwins. apply Nat.ltb_ge in Hlen. rewrite Hlen.
    destruct (length (List.filter is_win history) =? 0)%nat eqn:E.
    + apply Nat.eqb_eq in E. destruct (List.filter is_win history); [congruence | discriminate].
    + eexists. split; [reflexivity|]. cbn [total_trades optimal_safety_score
        optimal_lep_confidence optimal_virality_score].
      split; [reflexivity|].
      repeat split; apply find_optimal_threshold_learned.
Qed.

End ModelTrainerFacts.

(** C7, witness: ten winning trades, three of which carry a safety score
    (80, 90 and 100).  The learned safety threshold is 90, the median of
    those three. *)
Lemma pattern_recomputation_witness :
  exists p : ModelTrainer.Patterns,
    ModelTrainer._analyze_patterns "2024-01-01T00:00:00" Sample.ten_wins None = Some p /\
    ModelTrainer.optimal_safety_score p == 90 /\
    ModelTrainer.is_median (ModelTrainer.optimal_safety_score p) [80; 90; 100].
Proof.
  destruct (proj2 (proj2 (pattern_recomputation "2024-01-01T00:00:00" Sample.ten_wins None)))
    as (p & Hrun & _ & Hsafety & _).
  - vm_compute. lia.
  - vm_compute. discriminate.
  - exists p. split; [exact Hrun|].
    unfold ModelTrainer.learned_from in Hsafety.
    assert (Hvalues : ModelTrainer.positive
                        (ModelTrainer.winning_values Sample.ten_wins "safety_score")
                      = [80; 90; 100]) by (vm_compute; reflexivity).
    rewrite Hvalues in Hsafety. destruct Hsafety as [Hmedian Hspec].
    split; [|exact Hspec].
    rewrite Hmedian. vm_compute. reflexivity.
Defined.

(** C7, counterexample: on the same history the learned safety
    threshold is not the median of the safety scores of the winning
    trades (seven of the ten are 0, so that median is 0), and it is not
    a median of them in any sense: only two of the ten values reach it. *)
Lemma learned_threshold_skips_zero_counterexample :
  match ModelTrainer._analyze_patterns "2024-01-01T00:00:00" Sample.ten_wins None with
  | Some p =>
      ~ ModelTrainer.optimal_safety_score p
        == ModelTrainer.np_median (ModelTrainer.winning_values Sample.ten_wins "safety_score")
      /\
      ~ ModelTrainer.is_median (ModelTrainer.optimal_safety_score p)
          (ModelTrainer.winning_values Sample.ten_wins "safety_score")
  | None => False
  end.
Proof.
  destruct (ModelTrainer._analyze_patterns "2024-01-01T00:00:00" Sample.ten_wins None)
    as [p|] eqn:E; vm_compute in E; [|discriminate E].
  injection E as <-. split.
  - vm_compute. discriminate.
  - intros [_ Hge]. vm_compute in Hge. lia.
Qed.

(** ** LEPPredictor *)

Section LEPFacts.
Import LEPPredictor.
Context `{PyFormat}.



(** The weighted sum over the signals [predict_pump_timing] collects. *)
Lemma calculate_confidence_collected (a b c d e : Signal) :
  _calculate_confidence
    (<["dev_activity"%string := e]>
       (<["volume_momentum"%string := d]>
          (<["age_timing"%string := c]>
             (<["holder_accumulation"%string := b]>
                (<["liquidity_velocity"%string := a]> ∅)))))
  = Py.min (Py.max (0 + get_score (Some a) * 0.25 + get_score (Some b) * 0.25
                    + get_score (Some c) * 0.20 + get_score (Some d) * 0.15
                    + get_score (Some e) * 0.15) 0) 1.
Proof.
  unfold _calculate_confidence, weights. cbn [fold_left].
  repeat (rewrite lookup_insert_eq || rewrite lookup_insert_ne by discriminate).
  reflexivity.
Qed.

(** C8: on the scenario snapshot, with no history, an enabled predictor
    scores the five signals 0.5, 1.0, 1.0, 0.8 and 0.5, returns the
    confidence 0.77 and 6 predicted hours, and recommends a buy of
    moderate confidence, the tier of confidences in [0.6, 0.8). *)
Theorem lep_scenario (self : Config) (clock_gap : Q) :
  enabled self = true ->
  let r := predict_pump_timing self clock_gap Sample.lep_token None in
  get_score (signals r !! "liquidity_velocity"%string) == 0.5 /\
  get_score (signals r !! "holder_accumulation"%string) == 1.0 /\
  get_score (signals r !! "age_timing"%string) == 1.0 /\
  get_score (signals r !! "volume_momentum"%string) == 0.8 /\
  get_score (signals r !! "dev_activity"%string) == 0.5 /\
  confidence r == 0.5 * 0.25 + 1.0 * 0.25 + 1.0 * 0.20 + 0.8 * 0.15 + 0.5 * 0.15 /\
  confidence r == 0.77 /\
  predicted_hours r == 6.0 /\
  recommendation r = ("BUY - Moderate confidence pump in " ++ fmt_1f 6 ++ "h")%string /\
  0.6 <= confidence r /\ confidence r < 0.8.
Proof.
  intros Hon. cbv zeta. unfold predict_pump_timing. rewrite Hon. cbn [negb].
  cbn [signals confidence predicted_hours recommendation].
  repeat split; try (vm_compute; reflexivity); vm_compute; discriminate.
Qed.

End LEPFacts.

(** C8, witness: the recommendation with the hours printed. *)
Lemma lep_scenario_witness :
  LEPPredictor.recommendation
    (LEPPredictor.predict_pump_timing Sample.lep_config 0 Sample.lep_token None)
  = "BUY - Moderate confidence pump in 6.0h"%string /\
  LEPPredictor.confidence
    (LEPPredictor.predict_pump_timing Sample.lep_config 0 Sample.lep_token None) == 0.77.
Proof.
  pose proof (lep_scenario Sample.lep_config 0 eq_refl)
    as (_ & _ & _ & _ & _ & _ & Hconfidence & _ & Hrecommendation & _).
  split; [|exact Hconfidence].
  etransitivity; [exact Hrecommendation|]. vm_compute. reflexivity.
Defined.

(** ** CascadeSentinel *)

Section CascadeFacts.
Import CascadeSentinel.
Variable self : Config.
Variable clock_gap : Q.

Lemma int_range (x : Q) (n : Z) : 0 <= x -> x <= inject_Z n -> (0 <= Py.int x <= n)%Z.
Proof.
  intros H0 Hn. unfold Py.int.
  assert (E : Qle_bool 0 x = true) by (apply Qle_bool_iff; exact H0).
  rewrite E. split.
  - change 0%Z with (Qfloor (inject_Z 0)). apply Qfloor_resp_le. exact H0.
  - rewrite <- (Qfloor_Z n). apply Qfloor_resp_le. exact Hn.
Qed.

(** The weighted sum spelled out, for any signals dict. *)
Lemma calculate_virality_score_sum (signals : gmap string Signal) :
  _calculate_virality_score signals
  = Py.int ((0 + get_score (signals !! "network_velocity"%string) * 0.25
             + get_score (signals !! "holder_diversity"%string) * 0.20
             + get_score (signals !! "early_adopter_quality"%string) * 0.20
             + get_score (signals !! "liquidity_cascade"%string) * 0.25
             + get_score (signals !! "social_momentum"%string) * 0.10) * 100).
Proof. reflexivity. Qed.


(** What each analyser can score. *)
Lemma network_growth_score (token_data : TokenData) :
  0 <= get_score (Some (_analyze_network_growth clock_gap token_data)) <= 0.8.
Proof.
  unfold _analyze_network_growth. cbn [get_score].
  destruct (Py.gt _ 10); lra.
Qed.

Lemma holder_diversity_score (token_data : TokenData) :
  0 <= get_score (Some (_analyze_holder_diversity token_data)) <= 1.
Proof.
  unfold _analyze_holder_diversity. cbn [get_score].
  destruct (Py.ge _ 100), (Py.lt _ 50); lra.
Qed.

Lemma early_adopters_score (token_data : TokenData) :
  0 <= get_score (Some (_analyze_early_adopters token_data)) <= 0.7.
Proof.
  unfold _analyze_early_adopters. cbn [get_score].
  destruct (Py.le 50 _ && Py.le _ 150); lra.
Qed.

Lemma liquidity_cascade_score (token_data : TokenData) :
  0 <= get_score (Some (_analyze_liquidity_cascade clock_gap token_data)) <= 0.8.
Proof.
  unfold _analyze_liquidity_cascade. cbn [get_score].
  destruct (Py.gt _ 1000); lra.
Qed.

Lemma social_momentum_score (social_data : option (gmap string string)) :
  get_score (Some (_analyze_social_momentum social_data)) = 0.5.
Proof.
  unfold _analyze_social_momentum.
  destruct social_data as [d|]; [destruct (bool_decide (d = ∅))|]; reflexivity.
Qed.

(** The score of an enabled sentinel lies between 0 and 79. *)
Lemma predict_virality_enabled (token_data : TokenData)
    (social_data : option (gmap string string)) :
  enabled self = true ->
  (0 <= virality_score (predict_virality self clock_gap token_data social_data) <= 79)%Z.
Proof.
  intros Hon. unfold predict_virality. rewrite Hon. cbn [negb virality_score].
  rewrite calculate_virality_score_sum.
  repeat (rewrite lookup_insert_eq || rewrite lookup_insert_ne by discriminate).
  pose proof (network_growth_score token_data).
  pose proof (holder_diversity_score token_data).
  pose proof (early_adopters_score token_data).
  pose proof (liquidity_cascade_score token_data).
  rewrite (social_momentum_score social_data).
  apply int_range; [lra|]. change (inject_Z 79) with 79. lra.
Qed.

Lemma predict_virality_range (token_data : TokenData)
    (social_data : option (gmap string string)) :
  (0 <= virality_score (predict_virality self clock_gap token_data social_data) <= 79)%Z.
Proof.
  destruct (enabled self) eqn:Hon.
  - apply predict_virality_enabled, Hon.
  - unfold predict_virality. rewrite Hon. cbn. lia.
Qed.

Lemma generate_recommendation_below_90 (virality_score : Z) :
  (virality_score < 90)%Z ->
  _generate_recommendation virality_score
  <> "VIRAL ALERT - Extremely high viral potential"%string.
Proof.
  intros Hlt. unfold _generate_recommendation.
  destruct (Z.leb_spec 90 virality_score); [lia|].
  repeat match goal with |- context [if ?c then _ else _] => destruct c end;
    discriminate.
Qed.

(** C10: whatever the snapshot and the social data, the virality score
    is at most 79, the viral probability at most 0.79, and the
    recommendation is never the "VIRAL ALERT" of scores from 90 up. *)
Theorem virality_at_most_79 (token_data : TokenData)
    (social_data : option (gmap string string)) :
  let r := predict_virality self clock_gap token_data social_data in
  (virality_score r <= 79)%Z /\
  viral_probability r <= 0.79 /\
  (virality_score r < 90)%Z /\
  recommendation r <> "VIRAL ALERT - Extremely high viral potential"%string.
Proof.
  cbv zeta.
  pose proof (predict_virality_range token_data social_data) as Hrange.
  split; [lia|]. split; [|split; [lia|]].
  - unfold predict_virality in *.
    destruct (enabled self); cbn [negb viral_probability virality_score] in *.
    + set (v := _calculate_virality_score _) in *.
      assert (Hv : inject_Z v <= inject_Z 79) by (rewrite <- Zle_Qle; lia).
      change (inject_Z 79) with 79 in Hv.
      unfold Qdiv. change (/ 100) with (1 # 100). lra.
    + lra.
  - unfold predict_virality in *.
    destruct (enabled self); cbn [negb recommendation virality_score] in *.
    + apply generate_recommendation_below_90. lia.
    + discriminate.
Qed.

End CascadeFacts.

(** The bound of C10 is reached: on the sample snapshot the score is 79
    and the recommendation is the second tier. *)
Example viral_token_scores_79 :
  CascadeSentinel.virality_score
    (CascadeSentinel.predict_virality Sample.cascade_config 0 Sample.viral_token None) = 79%Z /\
  CascadeSentinel.recommendation
    (CascadeSentinel.predict_virality Sample.cascade_config 0 Sample.viral_token None)
  = "STRONG VIRAL - High viral potential"%string.
Proof. split; vm_compute; reflexivity. Qed.

(** ** Weight tables and aggregate ranges *)

Section Aggregates.
Context `{PyFormat}.



End Aggregates.



(** ** Rounding *)

(** The rational model is exact where the properties above depend on a
    number; these evaluations are in binary64. *)
Section Rounding.
Import Binary64.
#[local] Set Warnings "-inexact-float".
#[local] Open Scope float_scope.

(** The six possible scores are computed without rounding error. *)
Example score_percent_exact :
  forallb (fun '(passed_checks, score) =>
             PrimFloat.eqb (score_percent passed_checks 5) score)
          [(0, 0); (1, 20); (2, 40); (3, 60); (4, 80); (5, 100)] = true.
Proof. vm_compute. reflexivity. Qed.

(** Both weight tables add up to exactly 1.0. *)
Example weights_total_one :
  PrimFloat.eqb (total lep_weights) 1 = true /\
  PrimFloat.eqb (total cascade_weights) 1 = true.
Proof. split; vm_compute; reflexivity. Qed.

(** The confidence of the LEP scenario is within 2^-52 of 0.77 (it is
    0.7699999999999999) and inside the tier [0.6, 0.8). *)
Example lep_scenario_confidence_rounded :
  let confidence := weighted_sum (combine lep_scenario_scores lep_weights) in
  PrimFloat.ltb (abs (confidence - 0.77)) 0x1p-52 = true /\
  PrimFloat.leb 0.6 confidence = true /\
  PrimFloat.ltb confidence 0.8 = true /\
  PrimFloat.leb 0.5 confidence = true.
Proof. repeat split; vm_compute; reflexivity. Qed.

(** Whatever the analysers return, the weighted sum times 100 is at
    least 0 and below 80, so that [int] of it is at most 79. *)
Example cascade_sum_below_80 :
  forallb (fun scores =>
             let score := weighted_sum (combine scores cascade_weights) in
             PrimFloat.leb 0 (score * 100) && PrimFloat.ltb (score * 100) 80)
          (choices cascade_score_choices) = true.
Proof. vm_compute. reflexivity. Qed.

End Rounding.

(* ===================================================================== *)
(** * Further properties *)
(* ===================================================================== *)

(** ** SafetyFilters: the report as a whole *)

Section SafetyReportFacts.
Import SafetyFilters.
Context `{PyFormat}.
Variable self : Config.

(** The number of [true]s among the five verdicts. *)
Lemma tally_counts (b1 b2 b3 b4 b5 : bool) (r1 r2 r3 r4 r5 : option string) :
  let acc := tally b5 r5 (tally b4 r4 (tally b3 r3 (tally b2 r2 (tally b1 r1 (0%Z, []))))) in
  fst acc = Z.of_nat (length (List.filter id [b1; b2; b3; b4; b5])) /\
  (fst acc + Z.of_nat (length (snd acc)) = 5)%Z /\
  Py.int (inject_Z (fst acc) / inject_Z 5 * 100) = (20 * fst acc)%Z.
Proof. destruct b1, b2, b3, b4, b5; vm_compute; intuition congruence. Qed.

(** X1: The report is consistent with its details: [passed_checks] counts
    the layers whose verdict is True, every other layer has left one
    entry in [reasons], and the score is 20 points per passed layer. *)
Theorem report_counts_layers (w : World) (token_data : TokenData) :
  let r := analyze_token self w token_data in
  passed_checks r
  = Z.of_nat (length (List.filter id
      [rc_passed (rugcheck (details r)); lq_passed (liquidity_d (details r));
       hd_passed (holders_d (details r)); ag_passed (age (details r));
       ct_passed (contract (details r))])) /\
  (passed_checks r + Z.of_nat (length (reasons r)) = 5)%Z /\
  score r = (20 * passed_checks r)%Z.
Proof.
  cbv zeta. unfold analyze_token.
  cbn [passed_checks reasons score details rugcheck liquidity_d holders_d age contract].
  apply tally_counts.
Qed.

(** X2: With a threshold of at most 80, four passed layers are enough: a
    token is judged safe whichever single layer it fails. *)
Theorem four_layers_suffice (w : World) (token_data : TokenData) :
  min_safety_score self <= 80 ->
  (4 <= passed_checks (analyze_token self w token_data))%Z ->
  safe (analyze_token self w token_data) = true.
Proof.
  unfold analyze_token. cbn [passed_checks safe].
  pose proof (tally_counts
    (rc_passed (_check_rugcheck self w token_data))
    (lq_passed (_check_liquidity self token_data))
    (hd_passed (_check_holders self token_data))
    (ag_passed (_check_age self w token_data))
    (ct_passed (_check_contract self w token_data))
    (rc_reason (_check_rugcheck self w token_data))
    (lq_reason (_check_liquidity self token_data))
    (hd_reason (_check_holders self token_data))
    (ag_reason (_check_age self w token_data))
    (ct_reason (_check_contract self w token_data))) as (_ & _ & Hscore).
  cbv zeta in Hscore. rewrite Hscore.
  intros Hmin Hfour. apply ge_true.
  apply Qle_trans with 80; [exact Hmin|].
  change 80 with (inject_Z 80). rewrite <- Zle_Qle. lia.
Qed.

End SafetyReportFacts.

(** X2, witness: a PancakeSwap token reported as a honeypot passes the four
    other layers and is judged safe under the default threshold of 70;
    the only reason recorded is the honeypot. *)
Lemma four_layers_suffice_witness :
  SafetyFilters.safe
    (SafetyFilters.analyze_token Sample.safety_config Cases.honeypot_world Cases.bsc_token)
  = true /\
  SafetyFilters.reasons
    (SafetyFilters.analyze_token Sample.safety_config Cases.honeypot_world Cases.bsc_token)
  = [Some "Honeypot detected"%string].
Proof.
  split.
  - apply (four_layers_suffice Sample.safety_config Cases.honeypot_world Cases.bsc_token).
    + vm_compute. discriminate.
    + vm_compute. discriminate.
  - vm_compute. reflexivity.
Defined.

(** ** SafetyFilters: the layers that call out *)

Section SafetyLayerFacts.
Import SafetyFilters.
Context `{PyFormat}.
Variable self : Config.

(** The layer on its own, when RugCheck gives no report. *)
Lemma check_rugcheck_no_report (w : World) (token_data : TokenData) :
  let network := get (source token_data) "solana"%string in
  (network <> "solana"%string /\ network <> "raydium"%string) \/
  (forall data, rugcheck_reply w <> Http200 data) ->
  rc_score (_check_rugcheck self w token_data) = 7 /\
  rc_reason (_check_rugcheck self w token_data) = None /\
  (rc_passed (_check_rugcheck self w token_data) = true <->
     min_rugcheck self <= 7 \/
     ((network = "solana"%string \/ network = "raydium"%string) /\
      rugcheck_reply w = HttpError)).
Proof.
  cbv zeta. unfold _check_rugcheck.
  set (network := get (source token_data) "solana"%string).
  intros Hno.
  do 2 case_bool_decide; cbn [orb];
    try (destruct Hno as [[? ?] | Hno]; [congruence|]);
    try (destruct (rugcheck_reply w) as [data| | |] eqn:E;
         [exfalso; apply (Hno data); reflexivity| | |]);
    cbn [rc_score rc_reason rc_passed];
    (split; [reflexivity|]; split; [reflexivity|]);
    rewrite ?ge_true;
    intuition (try congruence; try discriminate).
Qed.

(** Every layer after the first leaves the reasons recorded so far in
    place. *)
Lemma tally_keeps_head (b2 b3 b4 b5 : bool) (r1 r2 r3 r4 r5 : option string) :
  exists rest,
    snd (tally b5 r5 (tally b4 r4 (tally b3 r3 (tally b2 r2 (tally false r1 (0%Z, []))))))
    = r1 :: rest.
Proof. destruct b2, b3, b4, b5; cbn; eexists; reflexivity. Qed.

(** X3: Without a report from RugCheck (the source is not one it is asked
    about, or the call does not end in a 200) the layer scores the
    token 7 and records no reason, also when it fails it.  It passes
    when 7 reaches the configured minimum; an exception other than a
    timeout passes it whatever that minimum.  When it fails, the first
    entry of the reasons of [analyze_token] is [None]. *)
Theorem rugcheck_without_report (w : World) (token_data : TokenData) :
  let network := get (source token_data) "solana"%string in
  (network <> "solana"%string /\ network <> "raydium"%string) \/
  (forall data, rugcheck_reply w <> Http200 data) ->
  rc_score (_check_rugcheck self w token_data) = 7 /\
  rc_reason (_check_rugcheck self w token_data) = None /\
  (rc_passed (_check_rugcheck self w token_data) = true <->
     min_rugcheck self <= 7 \/
     ((network = "solana"%string \/ network = "raydium"%string) /\
      rugcheck_reply w = HttpError)) /\
  (rc_passed (_check_rugcheck self w token_data) = false ->
   exists rest, reasons (analyze_token self w token_data) = None :: rest).
Proof.
  cbv zeta. intros Hno.
  destruct (check_rugcheck_no_report w token_data Hno) as (Hscore & Hreason & Hpassed).
  split; [exact Hscore|]. split; [exact Hreason|]. split; [exact Hpassed|].
  intros Hfailed. unfold analyze_token. cbn [reasons]. rewrite Hfailed, Hreason.
  apply tally_keeps_head.
Qed.

(** X4: The contract layer fails in one case only: honeypot checking is on,
    the source is BSC or PancakeSwap, and honeypot.is answers 200 with
    the honeypot flag set.  Tokens from any other source are never
    asked about, and a failed call passes the token. *)
Theorem contract_fails_only_on_report (w : World) (token_data : TokenData) :
  let network := get (source token_data) "solana"%string in
  ct_passed (_check_contract self w token_data) = false <->
  check_honeypot self = true /\
  (network = "bsc"%string \/ network = "pancakeswap"%string) /\
  honeypot_reply w = Http200 (Some true).
Proof.
  cbv zeta. unfold _check_contract.
  set (network := get (source token_data) "solana"%string).
  destruct (check_honeypot self); cbn [negb];
    [|cbn; intuition discriminate].
  do 2 case_bool_decide; cbn [orb];
    try (destruct (honeypot_reply w) as [[[|]|]| | |]);
    cbn; intuition (try congruence; try discriminate).
Qed.

End SafetyLayerFacts.

(** X3, witness: with the minimum raised to 8, a timeout of RugCheck fails
    the layer with no reason, and the report lists [None] among its
    reasons. *)
Lemma rugcheck_without_report_witness :
  SafetyFilters.rc_reason
    (SafetyFilters._check_rugcheck Cases.strict_rugcheck Cases.honeypot_world
       Sample.safe_token) = None /\
  SafetyFilters.rc_passed
    (SafetyFilters._check_rugcheck Cases.strict_rugcheck Cases.honeypot_world
       Sample.safe_token) = false /\
  SafetyFilters.reasons
    (SafetyFilters.analyze_token Cases.strict_rugcheck Cases.honeypot_world
       Sample.safe_token) = [None].
Proof.
  assert (Hno : (get (source Sample.safe_token) "solana"%string <> "solana"%string /\
                 get (source Sample.safe_token) "solana"%string <> "raydium"%string) \/
                (forall data, SafetyFilters.rugcheck_reply Cases.honeypot_world
                              <> SafetyFilters.Http200 data))
    by (right; intros data; discriminate).
  destruct (rugcheck_without_report Cases.strict_rugcheck Cases.honeypot_world
              Sample.safe_token Hno) as (_ & Hreason & _ & Hfirst).
  split; [exact Hreason|]. split; [vm_compute; reflexivity|].
  destruct (Hfirst eq_refl) as [rest Hrest].
  rewrite Hrest. f_equal.
  assert (Hlen : length (SafetyFilters.reasons
                          (SafetyFilters.analyze_token Cases.strict_rugcheck
                             Cases.honeypot_world Sample.safe_token)) = 1%nat)
    by (vm_compute; reflexivity).
  rewrite Hrest in Hlen. destruct rest; [reflexivity | discriminate Hlen].
Defined.

(** ** The paper session *)

Section PaperSessionFacts.
Import PaperSession.
Context `{PyFormat}.
Variable config : TradingConfig.t.
Variable strategy : PaperTradingBot.Config.

(** X5: [_check_safety] accepts a token exactly when the four keys are
    there and within the limits.  The checks run in order and stop at
    the first failure: a token short of liquidity is rejected without
    its other keys being read, and a missing ['liquidity'] raises. *)
Theorem check_safety_verdict (token_data : Token) :
  (_check_safety config token_data = Py.Returns true <->
   exists l h t a,
     liquidity token_data = Some l /\ holders token_data = Some h /\
     top_holder_percent token_data = Some t /\ age_minutes token_data = Some a /\
     TradingConfig.min_liquidity_usd config <= l /\
     TradingConfig.min_holders config <= h /\
     t <= TradingConfig.max_top_holder_percent config /\
     a <= TradingConfig.max_token_age_minutes config) /\
  (forall l, liquidity token_data = Some l ->
             l < TradingConfig.min_liquidity_usd config ->
             _check_safety config token_data = Py.Returns false) /\
  (liquidity token_data = None -> _check_safety config token_data = Py.Raises).
Proof.
  unfold _check_safety. split; [|split].
  - split.
    + destruct (liquidity token_data) as [l|]; [|discriminate].
      cmp_cases (Py.lt l (TradingConfig.min_liquidity_usd config)); [discriminate|].
      destruct (holders token_data) as [h|]; [|discriminate].
      cmp_cases (Py.lt h (TradingConfig.min_holders config)); [discriminate|].
      destruct (top_holder_percent token_data) as [t|]; [|discriminate].
      cmp_cases (Py.gt t (TradingConfig.max_top_holder_percent config)); [discriminate|].
      destruct (age_minutes token_data) as [a|]; [|discriminate].
      cmp_cases (Py.gt a (TradingConfig.max_token_age_minutes config)); [discriminate|].
      intros _. exists l, h, t, a. auto 10.
    + intros (l & h & t & a & -> & -> & -> & -> & Hl & Hh & Ht & Ha).
      apply lt_false in Hl, Hh. apply gt_false in Ht, Ha.
      rewrite Hl, Hh, Ht, Ha. reflexivity.
  - intros l -> Hl. apply lt_true in Hl. rewrite Hl. reflexivity.
  - intros ->. reflexivity.
Qed.

(** X6: [_process_token] buys exactly when the token has an address and
    passes [_check_safety], no position is open and the balance covers
    the investment.  A purchase debits the investment, leaves a balance
    that is not negative and opens the position at the demo price; in
    every other case, an exception included, the bot is left as it was. *)
Theorem process_token_effect (self : Bot) (token_data : Token) :
  let amount := TradingConfig.get_investment_amount config in
  let after := fst (_process_token config self token_data) in
  let outcome := snd (_process_token config self token_data) in
  (outcome = Bought <->
   is_Some (address token_data) /\
   _check_safety config token_data = Py.Returns true /\
   current_position self = None /\
   amount <= paper_balance self) /\
  (outcome <> Bought -> after = self) /\
  (outcome = Bought ->
   paper_balance after = paper_balance self - amount /\
   0 <= paper_balance after /\
   (exists token_address,
      address token_data = Some token_address /\
      current_position after
      = Some (PaperTradingBot._simulate_buy token_address amount)) /\
   trades_history after = trades_history self).
Proof.
  cbv zeta. unfold _process_token.
  destruct (address token_data) as [token_address|];
    [|cbn; repeat split; try discriminate; try tauto;
      intros (Haddr & _); destruct Haddr; discriminate].
  destruct (_check_safety config token_data) as [[|]|];
    try (cbn; repeat split; try discriminate; try tauto;
         intros (_ & Hsafe & _); discriminate).
  destruct (current_position self) as [p|] eqn:Hpos;
    [cbn; repeat split; try discriminate; try tauto;
     intros (_ & _ & Hnone & _); discriminate|].
  cmp_cases (Py.lt (paper_balance self) (TradingConfig.get_investment_amount config)).
  - cbn. repeat split; try discriminate; try tauto.
    intros (_ & _ & _ & Hle). exfalso. eapply Qlt_not_le; eassumption.
  - cbn. repeat split; eauto; try tauto; try lra.
Qed.

End PaperSessionFacts.

(** X5, witness: the demo token is accepted; a token short of liquidity is
    rejected although its other keys are missing. *)
Lemma check_safety_verdict_witness :
  PaperSession._check_safety Cases.paper_config Cases.demo_token = Py.Returns true /\
  PaperSession._check_safety Cases.paper_config Cases.thin_token = Py.Returns false.
Proof.
  split.
  - apply (proj1 (check_safety_verdict Cases.paper_config Cases.demo_token)).
    exists 10000, 75, 45, 2. repeat split; try reflexivity; vm_compute; discriminate.
  - apply (proj1 (proj2 (check_safety_verdict Cases.paper_config Cases.thin_token)) 100).
    + reflexivity.
    + vm_compute. reflexivity.
Defined.

(** ** The paper session: what every run keeps *)

Section PaperAccounting.
Import PaperSession.
Context `{PyFormat}.
Variable config : TradingConfig.t.
Variable strategy : PaperTradingBot.Config.

Lemma sum_snoc (l : list Q) (x : Q) : Py.sum (l ++ [x]) = Py.sum l + x.
Proof. unfold Py.sum. rewrite fold_left_app. reflexivity. Qed.

Lemma poll_keeps_amount (position : PaperTradingBot.Position) (price_change : Q) :
  PaperTradingBot.amount (fst (PaperTradingBot.poll strategy position price_change))
  = PaperTradingBot.amount position.
Proof.
  destruct (poll_position strategy position price_change) as [-> | [-> _]]; reflexivity.
Qed.

Lemma books_init : books_balance config (init config).
Proof.
  unfold books_balance. cbn. repeat split; try discriminate.
Qed.

Lemma books_set_running (self : Bot) (b : bool) :
  books_balance config self -> books_balance config (set_running self b).
Proof. exact (fun H => H). Qed.

Lemma books_process_token (self : Bot) (token_data : Token) :
  books_balance config self ->
  books_balance config (fst (_process_token config self token_data)).
Proof.
  intros Hb. unfold _process_token.
  destruct (address token_data) as [token_address|]; [|exact Hb].
  destruct (_check_safety config token_data) as [[|]|]; try exact Hb.
  destruct (current_position self) as [p|] eqn:Hpos; [exact Hb|].
  destruct (Py.lt _ _); [exact Hb|].
  destruct Hb as (Hcount & Hwins & _ & Hbal). rewrite Hpos in Hbal.
  unfold books_balance. cbn. repeat split; try assumption.
  - intros p [= <-]. reflexivity.
  - rewrite <- Hbal. lra.
Qed.

Lemma books_monitor_wakes (s : Session) (price_change : Q) (now : string) :
  books_balance config (bot s) ->
  books_balance config (bot (monitor_wakes strategy s price_change now)).
Proof.
  intros Hb. unfold monitor_wakes.
  destruct (monitor s); try exact Hb.
  destruct (current_position (bot s)) as [p|] eqn:Hpos; [|exact Hb].
  pose proof (poll_keeps_amount p price_change) as Hamount.
  destruct Hb as (Hcount & Hwins & Hopen & Hbal). rewrite Hpos in Hbal.
  specialize (Hopen p Hpos).
  destruct (PaperTradingBot.poll strategy p price_change) as [p' outcome].
  cbn [fst] in Hamount.
  assert (Hkept : books_balance config (set_position (bot s) p')).
  { unfold books_balance. cbn. repeat split; try assumption.
    intros q [= <-]. congruence. }
  destruct outcome as [|exit_price pnl_percent reason|]; try exact Hkept.
  cbn. unfold books_balance. cbn. repeat split.
  - destruct (Py.gt pnl_percent 0); rewrite length_app; cbn; lia.
  - rewrite List.filter_app, length_app. cbn.
    destruct (Py.gt pnl_percent 0); cbn; lia.
  - discriminate.
  - rewrite map_app, fold_left_app. cbn [map fold_left pnl].
    unfold Py.sum in Hbal. cbn in Hbal.
    rewrite Hamount, Hopen.
    unfold Qdiv in *. change (/ 100) with (1 # 100) in *. lra.
Qed.

Lemma books_step (s : Session) (e : Event) :
  books_balance config (bot s) -> books_balance config (bot (step config strategy s e)).
Proof.
  intros Hb. unfold step. destruct (detector s) eqn:Hd; try exact Hb.
  - destruct e as [token_data|price_change now|]; [| |exact Hb].
    + unfold detector_wakes. rewrite Hd. case_bool_decide; [|exact Hb].
      pose proof (books_process_token (bot s) token_data Hb) as Hp.
      destruct (_process_token config (bot s) token_data) as [self []]; exact Hp.
    + apply books_monitor_wakes, Hb.
  - destruct e as [token_data|price_change now|]; [| |exact Hb].
    + unfold detector_wakes. rewrite Hd. exact Hb.
    + apply books_monitor_wakes, Hb.
Qed.

Lemma books_start : books_balance config (bot (start config)).
Proof.
  unfold start. destruct (Py.lt _ _); [apply books_init|].
  destruct (_ || _); apply books_init.
Qed.

Lemma run_books_balance (events : list Event) :
  books_balance config (bot (run config strategy events)).
Proof.
  unfold run. generalize books_start. generalize (start config).
  induction events as [|e events IH]; intros s Hs; [exact Hs|].
  cbn [fold_left]. apply IH, books_step, Hs.
Qed.

(** X7: At every point of every session the books balance: wins and losses
    add up to the closed trades, a win is a trade closed above zero, and,
    in exact arithmetic, the balance plus the investment that is out
    equals the initial balance plus the sum over the closed trades of
    investment times result.  The two counts are those of the program;
    its balance is rounded at every operation and agrees with the sum up
    to that rounding ([paper_balance_rounded]). *)
Theorem session_books_balance (events : list Event) :
  let self := bot (run config strategy events) in
  let amount := TradingConfig.get_investment_amount config in
  (wins self + losses self = length (trades_history self))%nat /\
  wins self = length (List.filter (fun c => Py.gt (pnl c) 0) (trades_history self)) /\
  paper_balance self + match current_position self with Some _ => amount | None => 0 end
  == paper_balance (init config)
     + Py.sum (map (fun c => amount * (pnl c / 100)) (trades_history self)).
Proof.
  cbv zeta. destruct (run_books_balance events) as (Hcount & Hwins & _ & Hbal).
  auto.
Qed.

(** One iteration on a draw of the coded range, under limits the range
    cannot reach: the position is held, and its peak stays within the
    range. *)
Lemma poll_holds_in_range (position : PaperTradingBot.Position) (price_change : Q) :
  15 < PaperTradingBot.take_profit strategy ->
  5 < PaperTradingBot.stop_loss strategy ->
  (PaperTradingBot.trailing_stop strategy = true ->
   400 / 23 < PaperTradingBot.trailing_distance strategy) ->
  0 < PaperTradingBot.entry_price position ->
  PaperTradingBot.entry_price position <= PaperTradingBot.peak_price position ->
  PaperTradingBot.peak_price position <= PaperTradingBot.entry_price position * 1.15 ->
  -0.05 <= price_change -> price_change <= 0.15 ->
  exists position',
    PaperTradingBot.poll strategy position price_change = (position', PaperTradingBot.Hold) /\
    PaperTradingBot.entry_price position' = PaperTradingBot.entry_price position /\
    PaperTradingBot.entry_price position' <= PaperTradingBot.peak_price position' /\
    PaperTradingBot.peak_price position' <= PaperTradingBot.entry_price position' * 1.15.
Proof.
  intros Htp Hsl Htd He Hlo Hhi Hc1 Hc2.
  destruct position as [tok amt e pk]. cbn in He, Hlo, Hhi.
  unfold PaperTradingBot.poll. cbn [PaperTradingBot.entry_price PaperTradingBot.peak_price].
  rewrite div_some by lra.
  assert (Hpnl : (e * (1 + price_change) - e) / e * 100 == 100 * price_change)
    by (field; lra).
  cmp_cases (Py.ge ((e * (1 + price_change) - e) / e * 100)
                   (PaperTradingBot.take_profit strategy)); [rewrite Hpnl in E; lra|].
  cmp_cases (Py.le ((e * (1 + price_change) - e) / e * 100)
                   (- PaperTradingBot.stop_loss strategy)); [rewrite Hpnl in E0; lra|].
  clear E E0.
  assert (Hcur1 : e * (95 # 100) <= e * (1 + price_change)) by nra.
  assert (Hcur2 : e * (1 + price_change) <= e * 1.15) by nra.
  set (current_price := e * (1 + price_change)) in *.
  set (position' := if Py.gt current_price pk
                    then PaperTradingBot.set_peak_price
                           {| PaperTradingBot.token := tok; PaperTradingBot.amount := amt;
                              PaperTradingBot.entry_price := e;
                              PaperTradingBot.peak_price := pk |} current_price
                    else {| PaperTradingBot.token := tok; PaperTradingBot.amount := amt;
                            PaperTradingBot.entry_price := e;
                            PaperTradingBot.peak_price := pk |}).
  assert (Hent : PaperTradingBot.entry_price position' = e)
    by (subst position'; destruct (Py.gt _ _); reflexivity).
  assert (Hpk : e <= PaperTradingBot.peak_price position' /\
                PaperTradingBot.peak_price position' <= e * 1.15 /\
                current_price <= PaperTradingBot.peak_price position').
  { subst position'. cmp_cases (Py.gt current_price pk); cbn; repeat split; lra. }
  destruct Hpk as (Hpk1 & Hpk2 & Hpk3).
  exists position'. rewrite Hent. repeat split; try assumption.
  destruct (PaperTradingBot.trailing_stop strategy); [|reflexivity].
  specialize (Htd eq_refl).
  rewrite div_some by lra.
  assert (Hdrop : (PaperTradingBot.peak_price position' - current_price)
                  / PaperTradingBot.peak_price position' <= 4 / 23).
  { apply Qle_shift_div_r; [lra|].
    unfold Qdiv. change (/ 23) with (1 # 23). lra. }
  cmp_cases (Py.ge ((PaperTradingBot.peak_price position' - current_price)
                    / PaperTradingBot.peak_price position' * 100)
                   (PaperTradingBot.trailing_distance strategy)); [|reflexivity].
  exfalso. revert E Hdrop.
  generalize ((PaperTradingBot.peak_price position' - current_price)
              / PaperTradingBot.peak_price position').
  change (400 / 23) with (400 # 23) in Htd. change (4 / 23) with (4 # 23).
  intros; lra.
Qed.

Lemma quiet_step (s : Session) (e : Event) :
  15 < PaperTradingBot.take_profit strategy ->
  5 < PaperTradingBot.stop_loss strategy ->
  (PaperTradingBot.trailing_stop strategy = true ->
   400 / 23 < PaperTradingBot.trailing_distance strategy) ->
  drawn_as_coded e ->
  (trades_history (bot s) = [] /\
   forall p, current_position (bot s) = Some p ->
     0 < PaperTradingBot.entry_price p /\
     PaperTradingBot.entry_price p <= PaperTradingBot.peak_price p /\
     PaperTradingBot.peak_price p <= PaperTradingBot.entry_price p * 1.15) ->
  let s' := step config strategy s e in
  trades_history (bot s') = [] /\
  forall p, current_position (bot s') = Some p ->
    0 < PaperTradingBot.entry_price p /\
    PaperTradingBot.entry_price p <= PaperTradingBot.peak_price p /\
    PaperTradingBot.peak_price p <= PaperTradingBot.entry_price p * 1.15.
Proof.
  intros Htp Hsl Htd He Hs. cbv zeta. unfold step.
  destruct (detector s) eqn:Hd; try exact Hs;
    (destruct e as [token_data|price_change now|]; [| |exact Hs]).
  all: try (unfold detector_wakes; rewrite Hd; try exact Hs).
  - case_bool_decide; [|exact Hs].
    assert (Hp : trades_history (fst (_process_token config (bot s) token_data)) = [] /\
                 forall p, current_position (fst (_process_token config (bot s) token_data))
                           = Some p ->
                   0 < PaperTradingBot.entry_price p /\
                   PaperTradingBot.entry_price p <= PaperTradingBot.peak_price p /\
                   PaperTradingBot.peak_price p <= PaperTradingBot.entry_price p * 1.15).
    { unfold _process_token.
      destruct (address token_data); [|exact Hs].
      destruct (_check_safety config token_data) as [[|]|]; try exact Hs.
      destruct (current_position (bot s)) eqn:Hpos; [rewrite <- Hpos in Hs; exact Hs|].
      destruct (Py.lt _ _); [rewrite <- Hpos in Hs; exact Hs|].
      split; [apply Hs|]. intros p [= <-]. cbn. unfold PaperTradingBot.demo_entry_price.
      repeat split; lra. }
    destruct (_process_token config (bot s) token_data) as [self []]; exact Hp.
  - destruct He as [Hc1 Hc2]. destruct Hs as [Hhist Hopen].
    unfold monitor_wakes. destruct (monitor s); try (split; assumption).
    destruct (current_position (bot s)) as [p|] eqn:Hpos;
      [|split; [assumption|cbn; rewrite Hpos; discriminate]].
    destruct (Hopen p eq_refl) as (Hpos0 & Hlo & Hhi).
    destruct (poll_holds_in_range p price_change Htp Hsl Htd Hpos0 Hlo Hhi Hc1 Hc2)
      as (p' & -> & Hent & Hlo' & Hhi').
    cbn. split; [assumption|]. intros q [= <-]. rewrite Hent in *. auto.
  - destruct He as [Hc1 Hc2]. destruct Hs as [Hhist Hopen].
    unfold monitor_wakes. destruct (monitor s); try (split; assumption).
    destruct (current_position (bot s)) as [p|] eqn:Hpos;
      [|split; [assumption|cbn; rewrite Hpos; discriminate]].
    destruct (Hopen p eq_refl) as (Hpos0 & Hlo & Hhi).
    destruct (poll_holds_in_range p price_change Htp Hsl Htd Hpos0 Hlo Hhi Hc1 Hc2)
      as (p' & -> & Hent & Hlo' & Hhi').
    cbn. split; [assumption|]. intros q [= <-]. rewrite Hent in *. auto.
Qed.

(** X8: With a take-profit above 15 per cent, a stop-loss above 5 per cent
    and a trailing distance above 400/23 per cent (or no trailing stop),
    which the defaults 300, 20 and 20 are, the draws of the monitor,
    taken between -0.05 and 0.15 of the entry price, never close a
    position: no session records a trade, a win or a loss. *)
Theorem coded_draws_never_close (events : list Event) :
  15 < PaperTradingBot.take_profit strategy ->
  5 < PaperTradingBot.stop_loss strategy ->
  (PaperTradingBot.trailing_stop strategy = true ->
   400 / 23 < PaperTradingBot.trailing_distance strategy) ->
  Forall drawn_as_coded events ->
  trades_history (bot (run config strategy events)) = [] /\
  wins (bot (run config strategy events)) = 0%nat /\
  losses (bot (run config strategy events)) = 0%nat.
Proof.
  intros Htp Hsl Htd Hev.
  assert (Hq : trades_history (bot (run config strategy events)) = [] /\
               forall p, current_position (bot (run config strategy events)) = Some p ->
                 0 < PaperTradingBot.entry_price p /\
                 PaperTradingBot.entry_price p <= PaperTradingBot.peak_price p /\
                 PaperTradingBot.peak_price p <= PaperTradingBot.entry_price p * 1.15).
  { unfold run.
    assert (Hs : trades_history (bot (start config)) = [] /\
                 forall p, current_position (bot (start config)) = Some p ->
                   0 < PaperTradingBot.entry_price p /\
                   PaperTradingBot.entry_price p <= PaperTradingBot.peak_price p /\
                   PaperTradingBot.peak_price p <= PaperTradingBot.entry_price p * 1.15).
    { unfold start. destruct (Py.lt _ _); [|destruct (_ || _)]; cbn; split;
        reflexivity || discriminate. }
    revert Hs. generalize (start config).
    induction Hev as [|e events He Hev IH]; intros s Hs; [exact Hs|].
    cbn [fold_left]. apply IH, quiet_step; assumption. }
  destruct Hq as [Hhist _].
  destruct (run_books_balance events) as (Hcount & _).
  rewrite Hhist in Hcount. cbn in Hcount. split; [assumption|]. lia.
Qed.

Lemma done_stays (events : list Event) (s : Session) :
  detector s = DetectorDone -> fold_left (step config strategy) events s = s.
Proof.
  intros Hd. induction events as [|e events IH]; [reflexivity|].
  cbn [fold_left]. unfold step at 2. rewrite Hd. exact IH.
Qed.

(** X9: A token that the detection loop hands over after the shutdown signal
    is still bought: the investment leaves the balance and the position
    is opened, but the session ends with the monitoring task created and
    never run, so the position is not sold and no trade is recorded,
    whatever is scheduled afterwards. *)
Theorem bought_after_signal (token_data : Token) (token_address : string)
    (events : list Event) :
  TradingConfig.network config = "solana"%string ->
  TradingConfig.get_investment_amount config <= paper_balance (init config) ->
  address token_data = Some token_address ->
  _check_safety config token_data = Py.Returns true ->
  run config strategy (Signal :: DetectorWakes token_data :: events) =
  {| bot :=
       {| running := false;
          paper_balance :=
            paper_balance (init config) - TradingConfig.get_investment_amount config;
          current_position :=
            Some (PaperTradingBot._simulate_buy token_address
                    (TradingConfig.get_investment_amount config));
          trades_history := [];
          wins := 0;
          losses := 0 |};
     detector := DetectorDone;
     monitor := MonitorCreated |}.
Proof.
  intros Hnet Hbal Haddr Hsafe. unfold run. cbn [fold_left].
  apply lt_false in Hbal.
  assert (Hstart : start config =
                   {| bot := set_running (init config) true;
                      detector := DetectorSleeping; monitor := MonitorAbsent |}).
  { unfold start. cbv zeta.
    destruct (Py.lt _ _) eqn:E; [discriminate|].
    rewrite bool_decide_eq_true_2 by assumption. reflexivity. }
  rewrite Hstart. unfold step at 2. cbn [detector bot monitor].
  unfold step at 2. cbn [detector bot monitor].
  unfold detector_wakes. cbn [detector bot monitor].
  rewrite bool_decide_eq_true_2 by assumption.
  unfold _process_token. rewrite Haddr, Hsafe.
  cbn [_signal_handler set_running current_position paper_balance init] in *.
  destruct (Py.lt _ _); [discriminate|].
  apply done_stays. reflexivity.
Qed.

End PaperAccounting.

Section PaperAccountingSamples.
Import PaperSession.

(** X8, witness: under the default strategy a session that buys the demo
    token and then draws 0, +15 and -5 per cent records no trade. *)
Lemma coded_draws_never_close_witness :
  trades_history
    (bot (run Cases.paper_config Sample.strategy
            [DetectorWakes Cases.demo_token; MonitorWakes 0 "";
             MonitorWakes 0.15 ""; MonitorWakes (-0.05) ""; Signal])) = [].
Proof.
  refine (proj1 (coded_draws_never_close _ _ _ _ _ _ _)).
  - reflexivity.
  - reflexivity.
  - intros _. reflexivity.
  - repeat constructor; vm_compute; discriminate.
Defined.

(** X9, witness: with the default settings the demo token handed over
    after the signal leaves a position of 0.05 open at the demo price. *)
Lemma bought_after_signal_witness :
  current_position
    (bot (run Cases.paper_config Sample.strategy
            [Signal; DetectorWakes Cases.demo_token; MonitorWakes 0.15 ""]))
  = Some (PaperTradingBot._simulate_buy "DemoToken123..." 0.05).
Proof.
  rewrite (bought_after_signal Cases.paper_config Sample.strategy Cases.demo_token
             "DemoToken123..." [MonitorWakes 0.15 ""]).
  - reflexivity.
  - reflexivity.
  - vm_compute; discriminate.
  - reflexivity.
  - reflexivity.
Defined.

End PaperAccountingSamples.

(** ** The engine over a sequence of orders *)

Section EngineOrders.
Import ExecutionEngine.
Variable self : Setup.
Variable now : Q.

Lemma place_index (i : nat) (o : Order) :
  (i < 8)%nat ->
  snd (place self now {| jito_tip_account_index := Z.of_nat i |} o)
  = {| jito_tip_account_index :=
         Z.of_nat
           (if use_jito self && solana_libs self
               && bool_decide (is_Some (solana_keypair self))
               && negb (rpc_client_raises self)
               && match o with Buy _ _ => true | Sell _ _ => false end
            then S i mod 8 else i) |}.
Proof.
  intros Hi. destruct o as [token_data amount|token_data amount]; cbn [place].
  - unfold buy_token, _buy_solana.
    destruct (get_jito_tip_account_at i Hi) as (a & _ & ->).
    unfold use_jito.
    case_bool_decide as Hsol.
    + destruct (solana_libs self), (solana_keypair self), (rpc_client_raises self),
        (config_use_jito self), (rpc_close_raises self); reflexivity.
    + rewrite !andb_false_r. cbn [andb]. case_bool_decide; reflexivity.
  - rewrite andb_false_r. unfold sell_token. repeat case_bool_decide; reflexivity.
Qed.

Lemma place_all_index (orders : list Order) :
  forall i : nat,
    (i < 8)%nat ->
    snd (place_all self now orders {| jito_tip_account_index := Z.of_nat i |})
    = {| jito_tip_account_index :=
           Z.of_nat
             (if use_jito self && solana_libs self
                 && bool_decide (is_Some (solana_keypair self))
                 && negb (rpc_client_raises self)
              then (i + length (List.filter
                                  (fun o => match o with Buy _ _ => true | Sell _ _ => false end)
                                  orders)) mod 8
              else i) |}.
Proof.
  induction orders as [|o orders IH]; intros i Hi.
  - cbn [place_all snd List.filter length].
    rewrite Nat.add_0_r, Nat.mod_small by exact Hi.
    destruct (_ && _); reflexivity.
  - cbn [place_all].
    pose proof (place_index i o Hi) as Hp.
    destruct (place self now {| jito_tip_account_index := Z.of_nat i |} o) as [r st].
    cbn [snd] in Hp. subst st.
    remember (use_jito self && solana_libs self
              && bool_decide (is_Some (solana_keypair self))
              && negb (rpc_client_raises self)) as tips eqn:Etips in *.
    clear Etips.
    assert (Hnext : ((if tips && match o with Buy _ _ => true | Sell _ _ => false end
                      then S i mod 8 else i) < 8)%nat).
    { destruct tips, o; cbn [andb]; try exact Hi. apply Nat.mod_upper_bound. lia. }
    specialize (IH _ Hnext).
    destruct (place_all self now orders _) as [rs st]. cbn [snd] in *. subst st.
    destruct tips; cbn [andb]; [|reflexivity].
    destruct o; cbn [List.filter length].
    + rewrite Nat.Div0.add_mod_idemp_l. do 2 f_equal. f_equal. lia.
    + reflexivity.
Qed.

(** X10: Over any sequence of purchases and sales placed on a new engine, the
    tip index ends at the number of purchases modulo 8 when the engine
    tips (Jito in use on Solana, libraries and keypair present, client
    constructed), whether or not closing the client then fails; it stays
    0 otherwise.  Sales never move it. *)
Theorem tip_index_counts_purchases (orders : list Order) :
  jito_tip_account_index (snd (place_all self now orders init))
  = if use_jito self && solana_libs self
       && bool_decide (is_Some (solana_keypair self))
       && negb (rpc_client_raises self)
    then Z.of_nat (length (List.filter
                             (fun o => match o with Buy _ _ => true | Sell _ _ => false end)
                             orders) mod 8)
    else 0%Z.
Proof.
  change init with {| jito_tip_account_index := Z.of_nat 0 |}.
  rewrite place_all_index by lia. cbn [jito_tip_account_index].
  destruct (_ && _); reflexivity.
Qed.

(** X11: Selling what a purchase returned gives back what was spent, at the
    price of the purchase: on either network, in any state of the
    engine, the simulated trades carry no fee and no slippage. *)
Theorem sale_returns_purchase (st st' : State) (token_data token_data' : TokenData)
    (amount : Q) (bought : TradeResult) :
  fst (buy_token self now st token_data amount) = Some bought ->
  exists sold,
    fst (sell_token self now st' token_data' (amount_out bought)) = Some sold /\
    amount_out sold == amount /\
    price sold = price bought.
Proof.
  unfold buy_token, sell_token. case_bool_decide as Hsol.
  - unfold _buy_solana.
    destruct (solana_libs self); [|discriminate].
    destruct (solana_keypair self); [|discriminate].
    destruct (rpc_client_raises self); [discriminate|].
    destruct (if use_jito self then _ else _); [|discriminate].
    destruct (rpc_close_raises self); [discriminate|].
    intros [= <-]. eexists. split; [reflexivity|]. cbn. split; [field|reflexivity].
  - case_bool_decide as Hbsc; [|discriminate].
    unfold _buy_bsc.
    destruct (web3_libs self); [|discriminate].
    destruct (bsc_account self); [|discriminate].
    intros [= <-]. eexists. split; [reflexivity|]. cbn. split; [field|reflexivity].
Qed.

End EngineOrders.

(** X11, witness: on Solana, selling the tokens bought for 0.05 returns
    0.05. *)
Lemma sale_returns_purchase_witness :
  exists sold,
    fst (ExecutionEngine.sell_token Sample.solana_setup 0 ExecutionEngine.init
           Sample.empty_token (0.05 / 0.00000123)) = Some sold /\
    ExecutionEngine.amount_out sold == 0.05.
Proof.
  destruct (sale_returns_purchase Sample.solana_setup 0 ExecutionEngine.init
              ExecutionEngine.init Sample.empty_token Sample.empty_token 0.05
              {| ExecutionEngine.success := true;
                 ExecutionEngine.tx_hash := "DemoTxHash123...";
                 ExecutionEngine.amount_in := 0.05;
                 ExecutionEngine.amount_out := 0.05 / 0.00000123;
                 ExecutionEngine.price := 0.00000123;
                 ExecutionEngine.tr_timestamp := 0 |} eq_refl)
    as (sold & Hsold & Hout & _).
  exists sold. split; assumption.
Defined.

(** ** The trainer over a sequence of recorded trades *)

Section TrainerFiles.
Import ModelTrainer.

Lemma filter_split_length {A : Type} (p : A -> bool) (l : list A) :
  (length (List.filter p l) + length (List.filter (fun x => negb (p x)) l) = length l)%nat.
Proof.
  induction l as [|x l IH]; [reflexivity|].
  cbn [List.filter]. destruct (p x); cbn [negb length]; lia.
Qed.

Lemma len_pos {A : Type} (l : list A) : l <> [] -> 0 < Py.len l.
Proof.
  intros Hl. unfold Py.len. change 0 with (inject_Z 0). rewrite <- Zlt_Qlt.
  destruct l; [congruence | cbn [length]; lia].
Qed.

Lemma sum_from (l : list Q) : forall a : Q, fold_left Qplus l a == a + Py.sum l.
Proof.
  unfold Py.sum. induction l as [|x l IH]; intros a; cbn [fold_left]; [lra|].
  rewrite (IH (a + x)), (IH (0 + x)). lra.
Qed.

Lemma sum_positive (l : list Q) :
  l <> [] -> Forall (fun x => 0 < x) l -> 0 < Py.sum l.
Proof.
  intros Hne Hall. induction Hall as [|x l Hx Hall IH]; [congruence|].
  unfold Py.sum. cbn [fold_left]. rewrite sum_from.
  destruct l as [|y l]; [unfold Py.sum; cbn; lra|].
  assert (0 < Py.sum (y :: l)) by (apply IH; discriminate). lra.
Qed.

Lemma sum_not_positive (l : list Q) :
  Forall (fun x => x <= 0) l -> Py.sum l <= 0.
Proof.
  intros Hall. induction Hall as [|x l Hx Hall IH]; [unfold Py.sum; cbn; lra|].
  unfold Py.sum. cbn [fold_left]. rewrite sum_from. lra.
Qed.

Lemma np_mean_positive (l : list Q) :
  l <> [] -> Forall (fun x => 0 < x) l -> 0 < np_mean l.
Proof.
  intros Hne Hall. unfold np_mean. apply Qlt_shift_div_l; [apply len_pos, Hne|].
  pose proof (sum_positive l Hne Hall). lra.
Qed.

Lemma np_mean_not_positive (l : list Q) :
  l <> [] -> Forall (fun x => x <= 0) l -> np_mean l <= 0.
Proof.
  intros Hne Hall. unfold np_mean. apply Qle_shift_div_r; [apply len_pos, Hne|].
  pose proof (sum_not_positive l Hall). lra.
Qed.

(** What [_analyze_patterns] writes, when it writes. *)
Lemma analyze_patterns_written (now : string) (history : list Trade)
    (file : option Patterns) :
  _analyze_patterns now history file = file \/
  exists p,
    _analyze_patterns now history file = Some p /\
    total_trades p = length history /\
    wins p = length (List.filter (fun t => is_win t) history) /\
    (10 <= total_trades p)%nat /\ (1 <= wins p)%nat /\
    (wins p + losses p = total_trades p)%nat /\
    0 < win_rate p /\ win_rate p <= 1 /\
    avg_win p = np_mean (map (fun t => number t "pnl_percent")
                             (List.filter (fun t => is_win t) history)) /\
    avg_loss p = match List.filter (fun t => negb (is_win t)) history with
                 | [] => 0
                 | losses => np_mean (map (fun t => number t "pnl_percent") losses)
                 end.
Proof.
  unfold _analyze_patterns.
  destruct (length history <? 10)%nat eqn:Hlen; [left; reflexivity|].
  apply Nat.ltb_ge in Hlen.
  destruct (length (List.filter (fun t => is_win t) history) =? 0)%nat eqn:Hwins;
    [left; reflexivity|].
  apply Nat.eqb_neq in Hwins.
  right. eexists. split; [reflexivity|].
  cbn [total_trades wins losses win_rate avg_win avg_loss].
  pose proof (filter_split_length (fun t => is_win t) history) as Hsplit.
  repeat split; try lia.
  - destruct history as [|t history]; [cbn in Hlen; lia|].
    apply Qlt_shift_div_l; [apply len_pos; discriminate|].
    rewrite Qmult_0_l. apply len_pos. intros E. rewrite E in Hwins. cbn in Hwins. lia.
  - destruct history as [|t history]; [cbn in Hlen; lia|].
    apply Qle_shift_div_r; [apply len_pos; discriminate|].
    rewrite Qmult_1_l. unfold Py.len. rewrite <- Zle_Qle. lia.
  - destruct (List.filter (fun t => negb (is_win t)) history); reflexivity.
Qed.

Lemma recorded_number (trade_data : gmap string Q) (now : string)
    (token_address : option string) (files : Files) :
  exists t,
    performance_history (record_trade now token_address trade_data files)
    = (if (1000 <? length (performance_history files ++ [t]))%nat
       then last_1000 (performance_history files ++ [t])
       else performance_history files ++ [t]) /\
    winning_patterns (record_trade now token_address trade_data files)
    = _analyze_patterns now (performance_history files ++ [t]) (winning_patterns files) /\
    is_win t = Py.gt (number t "pnl_percent") 0 /\
    is_win t = Py.gt (default 0 (trade_data !! "pnl_percent"%string)) 0.
Proof.
  eexists. split; [reflexivity|]. split; [reflexivity|].
  unfold is_win, number. cbn [win numbers default]. split; reflexivity.
Qed.

Lemma record_trades_snoc (trades : list (string * option string * gmap string Q))
    (now : string) (token_address : option string) (trade_data : gmap string Q)
    (files : Files) :
  record_trades (trades ++ [(now, token_address, trade_data)]) files
  = record_trade now token_address trade_data (record_trades trades files).
Proof. unfold record_trades. rewrite fold_left_app. reflexivity. Qed.

Lemma record_trade_length (now : string) (token_address : option string)
    (trade_data : gmap string Q) (files : Files) :
  length (performance_history (record_trade now token_address trade_data files))
  = Nat.min 1000 (S (length (performance_history files))).
Proof.
  destruct (recorded_number trade_data now token_address files) as (t & -> & _).
  rewrite length_app, Nat.add_1_r.
  destruct (1000 <? S (length (performance_history files)))%nat eqn:E.
  - apply Nat.ltb_lt in E. unfold last_1000.
    rewrite length_skipn, length_app, Nat.add_1_r. lia.
  - apply Nat.ltb_ge in E. rewrite length_app, Nat.add_1_r. lia.
Qed.

(** X12: Once a trade has been recorded the saved history holds the trades
    recorded and those that were there, up to 1000 of them. *)
Theorem history_capped_at_1000 (trades : list (string * option string * gmap string Q))
    (files : Files) :
  trades <> [] ->
  length (performance_history (record_trades trades files))
  = Nat.min 1000 (length (performance_history files) + length trades).
Proof.
  induction trades as [|[[now token_address] trade_data] trades IH] using rev_ind;
    [congruence|].
  intros _. rewrite record_trades_snoc, record_trade_length, length_app. cbn [length].
  destruct trades as [|trade trades].
  - change (record_trades [] files) with files. cbn [length]. lia.
  - rewrite IH by discriminate. lia.
Qed.

Lemma Exists_skipn {A : Type} (P : A -> Prop) (n : nat) (l : list A) :
  Exists P (skipn n l) -> Exists P l.
Proof.
  revert l. induction n as [|n IH]; intros [|x l] Hex; try exact Hex.
  apply Exists_cons_tl, IH, Hex.
Qed.

Lemma filter_none {A : Type} (p : A -> bool) (l : list A) :
  length (List.filter p l) = 0%nat <-> ~ Exists (fun x => p x = true) l.
Proof.
  induction l as [|x l IH]; cbn [List.filter].
  - split; [intros _ Hex; inversion Hex | reflexivity].
  - destruct (p x) eqn:E; cbn [length].
    + split; [lia | intros Hno; exfalso; apply Hno; left; exact E].
    + rewrite IH. split; intros Hno Hex.
      * inversion Hex; subst; [congruence | auto].
      * apply Hno. right. exact Hex.
Qed.

Lemma analyze_patterns_some (now : string) (history : list Trade)
    (file : option Patterns) :
  _analyze_patterns now history file <> None <->
  file <> None \/ ((10 <= length history)%nat /\ Exists (fun t => is_win t = true) history).
Proof.
  unfold _analyze_patterns.
  destruct (length history <? 10)%nat eqn:Hlen.
  - apply Nat.ltb_lt in Hlen. split; [auto | intros [Hf | [Hl _]]; [exact Hf | lia]].
  - apply Nat.ltb_ge in Hlen.
    destruct (length (List.filter (fun t => is_win t) history) =? 0)%nat eqn:Hwins.
    + apply Nat.eqb_eq, filter_none in Hwins.
      split; [auto | intros [Hf | [_ Hex]]; [exact Hf | contradiction]].
    + apply Nat.eqb_neq in Hwins.
      split; [|discriminate]. intros _. right. split; [exact Hlen|].
      destruct (decide (Exists (fun t => is_win t = true) history)) as [Hex | Hno];
        [exact Hex|].
      apply filter_none in Hno. contradiction.
Qed.

Lemma winners_positive (history : list Trade) :
  Forall (fun t => is_win t = Py.gt (number t "pnl_percent") 0) history ->
  Forall (fun x => 0 < x)
         (map (fun t => number t "pnl_percent") (List.filter (fun t => is_win t) history)) /\
  Forall (fun x => x <= 0)
         (map (fun t => number t "pnl_percent")
              (List.filter (fun t => negb (is_win t)) history)).
Proof.
  intros Hall. induction Hall as [|t history Ht Hall [IHw IHl]]; [split; constructor|].
  cbn [List.filter]. destruct (is_win t); cbn [negb map]; symmetry in Ht.
  - apply gt_true in Ht. split; [constructor|]; assumption.
  - apply gt_false in Ht. split; [|constructor]; assumption.
Qed.

(** What holds of the files after the trades [trades] have been recorded
    on a trainer that started without files. *)
Lemma record_trades_state (trades : list (string * option string * gmap string Q)) :
  let files := record_trades trades no_files in
  let profitable := fun trade : string * option string * gmap string Q =>
                      0 < default 0 (snd trade !! "pnl_percent"%string) in
  length (performance_history files) = Nat.min 1000 (length trades) /\
  ((length trades <= 1000)%nat -> Exists profitable trades ->
   Exists (fun t => is_win t = true) (performance_history files)) /\
  (Exists (fun t => is_win t = true) (performance_history files) ->
   Exists profitable trades) /\
  Forall (fun t => is_win t = Py.gt (number t "pnl_percent") 0)
         (performance_history files) /\
  (winning_patterns files <> None <->
   (10 <= length trades)%nat /\ Exists profitable trades) /\
  (forall p, winning_patterns files = Some p ->
     (10 <= total_trades p <= 1001)%nat /\ (1 <= wins p)%nat /\
     (wins p + losses p = total_trades p)%nat /\
     0 < win_rate p /\ win_rate p <= 1 /\ 0 < avg_win p /\ avg_loss p <= 0).
Proof.
  cbv zeta.
  induction trades as [|[[now token_address] trade_data] trades IH] using rev_ind.
  - change (record_trades [] no_files) with no_files.
    cbn [performance_history winning_patterns no_files length].
    split; [reflexivity|].
    split; [intros _ Hex; inversion Hex|].
    split; [intros Hex; inversion Hex|].
    split; [constructor|].
    split; [|discriminate].
    split; [congruence | intros [Hlen _]; lia].
  - destruct IH as (Hlen & Hfwd & Hbwd & Hflag & Hsome & Hpat).
    rewrite record_trades_snoc.
    set (files := record_trades trades no_files) in *.
    pose proof (record_trade_length now token_address trade_data files) as Hlen'.
    destruct (recorded_number trade_data now token_address files)
      as (t & Hhist & Hpatterns & Hwin & Hwin').
    rewrite Hpatterns. clear Hpatterns.
    assert (Hnew : is_win t = true <-> 0 < default 0 (trade_data !! "pnl_percent"%string))
      by (rewrite Hwin'; apply gt_true).
    assert (Hflag' : Forall (fun t => is_win t = Py.gt (number t "pnl_percent") 0)
                            (performance_history files ++ [t])).
    { apply Forall_app. split; [exact Hflag | repeat constructor; exact Hwin]. }
    assert (Hsub : Exists (fun t => is_win t = true)
                          (performance_history
                             (record_trade now token_address trade_data files)) ->
                   Exists (fun t => is_win t = true) (performance_history files ++ [t])).
    { rewrite Hhist. destruct (_ <? _)%nat; [apply Exists_skipn | auto]. }
    rewrite length_app. cbn [length].
    split; [rewrite Hlen', Hlen; lia|].
    split; [|split; [|split; [|split]]].
    + intros Hk Hex. rewrite Hhist, length_app. cbn [length].
      replace (1000 <? length (performance_history files) + 1)%nat with false
        by (symmetry; apply Nat.ltb_ge; lia).
      apply Exists_app in Hex. apply Exists_app.
      destruct Hex as [Hex | Hex]; [left; apply Hfwd; [lia | exact Hex]|].
      right. inversion Hex as [? ? Hp | ? ? Hp]; subst; [|inversion Hp].
      left. apply Hnew. exact Hp.
    + intros Hex. apply Hsub, Exists_app in Hex. apply Exists_app.
      destruct Hex as [Hex | Hex]; [left; apply Hbwd, Hex|].
      right. inversion Hex as [? ? Hp | ? ? Hp]; subst; [|inversion Hp].
      left. apply Hnew. exact Hp.
    + rewrite Hhist. destruct (_ <? _)%nat; [apply Forall_drop|]; exact Hflag'.
    + rewrite analyze_patterns_some, Hsome, length_app. cbn [length].
      rewrite !Exists_app. split.
      * intros [[Hten Hex] | [Hten Hex]]; [split; [lia | left; exact Hex]|].
        split; [lia|].
        destruct Hex as [Hex | Hex]; [left; apply Hbwd, Hex|].
        right. inversion Hex as [? ? Hp | ? ? Hp]; subst; [|inversion Hp].
        left. apply Hnew. exact Hp.
      * intros [Hten [Hex | Hex]].
        -- destruct (Nat.le_gt_cases 10 (length trades)) as [Hk | Hk]; [left; auto|].
           right. split; [lia|]. left. apply Hfwd; [lia | exact Hex].
        -- right. split; [lia|]. right.
           inversion Hex as [? ? Hp | ? ? Hp]; subst; [|inversion Hp].
           left. apply Hnew. exact Hp.
    + intros p Hp.
      destruct (analyze_patterns_written now (performance_history files ++ [t])
                  (winning_patterns files))
        as [Hsame | (q & Hq & Htotal & Hwins & Hten & Hone & Hsum & Hrate0 & Hrate1
                       & Havg & Hloss)].
      * rewrite Hsame in Hp. apply Hpat, Hp.
      * rewrite Hq in Hp. injection Hp as <-.
        rewrite length_app in Htotal. cbn [length] in Htotal.
        destruct (winners_positive _ Hflag') as [Hpos Hneg].
        repeat split; try assumption; try lia.
        -- rewrite Havg. apply np_mean_positive; [|exact Hpos].
           intros E. apply (f_equal (@length Q)) in E. rewrite length_map in E.
           cbn [length] in E. lia.
        -- rewrite Hloss.
           destruct (List.filter (fun t => negb (is_win t))
                       (performance_history files ++ [t])) as [|l ls] eqn:El;
             [apply Qle_refl|].
           apply np_mean_not_positive; [discriminate | exact Hneg].
Qed.

End TrainerFiles.

Section TrainerLearning.
Import ModelTrainer.

(** The median of a non-empty list lies between two of its elements. *)
Lemma np_median_between (values : list Q) :
  values <> [] ->
  exists lo hi, In lo values /\ In hi values /\ lo <= np_median values <= hi.
Proof.
  intros Hne. unfold np_median.
  pose proof (sorted_Sorted values) as Hs.
  pose proof (sorted_perm values) as Hperm.
  pose proof (sorted_length values) as Hlen.
  assert (Hpos : (0 < length (sorted values))%nat).
  { rewrite Hlen. destruct values; [congruence | cbn; lia]. }
  assert (Hhalf : (length (sorted values) / 2 < length (sorted values))%nat)
    by (apply Nat.div_lt; lia).
  assert (Hin : forall k, (k < length (sorted values))%nat ->
                          In (nth k (sorted values) 0) values).
  { intros k Hk. apply (Permutation_in _ Hperm), nth_In, Hk. }
  destruct (Nat.even (length (sorted values))) eqn:Heven.
  - exists (nth (length (sorted values) / 2 - 1) (sorted values) 0),
           (nth (length (sorted values) / 2) (sorted values) 0).
    split; [apply Hin; lia|]. split; [apply Hin; exact Hhalf|].
    assert (Hle : nth (length (sorted values) / 2 - 1) (sorted values) 0
                  <= nth (length (sorted values) / 2) (sorted values) 0)
      by (apply StronglySorted_nth_le; [exact Hs | lia | exact Hhalf]).
    revert Hle.
    generalize (nth (length (sorted values) / 2 - 1) (sorted values) 0),
               (nth (length (sorted values) / 2) (sorted values) 0).
    intros a b Hle. unfold Qdiv. change (/ 2) with (1 # 2). split; lra.
  - exists (nth (length (sorted values) / 2) (sorted values) 0),
           (nth (length (sorted values) / 2) (sorted values) 0).
    split; [apply Hin; exact Hhalf|]. split; [apply Hin; exact Hhalf|].
    split; apply Qle_refl.
Qed.

(** X13: The threshold learned for a field is 0 exactly when no winning trade
    carries a positive value for it.  Otherwise it is positive and lies
    between the values two of the winning trades carry: a learned
    threshold is never above every winning trade. *)
Theorem learned_threshold_range (winning_trades : list Trade) (field : string) :
  (_find_optimal_threshold winning_trades field == 0 <->
   Forall (fun t => number t field <= 0) winning_trades) /\
  (Exists (fun t => 0 < number t field) winning_trades ->
   exists lo hi,
     In lo winning_trades /\ In hi winning_trades /\
     0 < number lo field /\
     number lo field <= _find_optimal_threshold winning_trades field <= number hi field).
Proof.
  assert (Hfilter : forall t,
            In t (List.filter (fun t => Py.gt (number t field) 0) winning_trades) <->
            In t winning_trades /\ 0 < number t field).
  { intros t. rewrite filter_In, gt_true. reflexivity. }
  assert (Hrange : Exists (fun t => 0 < number t field) winning_trades ->
            exists lo hi,
              In lo winning_trades /\ In hi winning_trades /\
              0 < number lo field /\
              number lo field <= _find_optimal_threshold winning_trades field
                              <= number hi field).
  { intros Hex. apply Exists_exists in Hex. destruct Hex as (t & Ht & Hpos).
    apply list_elem_of_In in Ht.
    unfold _find_optimal_threshold.
    destruct (map (fun t => number t field)
                  (List.filter (fun t => Py.gt (number t field) 0) winning_trades))
      as [|v values] eqn:E.
    - exfalso. assert (Hin : In t (List.filter (fun t => Py.gt (number t field) 0)
                                     winning_trades)) by (apply Hfilter; auto).
      apply (in_map (fun t => number t field)) in Hin. rewrite E in Hin. exact Hin.
    - destruct (np_median_between (v :: values)) as (lo & hi & Hlo & Hhi & Hbetween);
        [discriminate|].
      rewrite <- E in Hlo, Hhi.
      apply in_map_iff in Hlo. destruct Hlo as (tlo & <- & Hlo).
      apply in_map_iff in Hhi. destruct Hhi as (thi & <- & Hhi).
      apply Hfilter in Hlo, Hhi.
      exists tlo, thi. tauto. }
  split; [|exact Hrange]. split.
  - intros Hzero. apply Forall_forall. intros t Ht. apply list_elem_of_In in Ht.
    destruct (Qlt_le_dec 0 (number t field)) as [Hpos | Hle]; [|exact Hle].
    exfalso. destruct Hrange as (lo & hi & _ & _ & Hlo & Hbetween & _).
    + apply Exists_exists. exists t. split; [apply list_elem_of_In; exact Ht | exact Hpos].
    + rewrite Hzero in Hbetween. lra.
  - intros Hall. unfold _find_optimal_threshold.
    destruct (List.filter (fun t => Py.gt (number t field) 0) winning_trades)
      as [|t ts] eqn:E; [reflexivity|].
    exfalso. destruct (proj1 (Hfilter t) (or_introl eq_refl)) as [Hin Hpos].
    rewrite Forall_forall in Hall. apply list_elem_of_In, Hall in Hin. lra.
Qed.

(** X14: A patterns file written by a trainer that started without files is
    consistent: it counts between 10 and 1001 trades (the history on
    disk never holds more than 1000), at least one of them won, wins and
    losses add up to the total, the win rate lies in (0, 1], the average
    win is positive and the average loss is not. *)
Theorem written_patterns_consistent
    (trades : list (string * option string * gmap string Q)) (p : Patterns) :
  winning_patterns (record_trades trades no_files) = Some p ->
  (10 <= total_trades p <= 1001)%nat /\ (1 <= wins p)%nat /\
  (wins p + losses p = total_trades p)%nat /\
  0 < win_rate p /\ win_rate p <= 1 /\ 0 < avg_win p /\ avg_loss p <= 0.
Proof.
  intros Hp.
  destruct (record_trades_state trades) as (_ & _ & _ & _ & _ & Hpat).
  apply Hpat, Hp.
Qed.

(** X15: The recommended thresholds of a trainer that started without files
    are learned exactly when ten trades or more have been recorded and
    one of them closed above zero; they are then the values of the
    patterns file as they stand, a learned 0 included.  In every other
    case they are the configured ones. *)
Theorem thresholds_learned_after_ten_with_a_win (config : Config)
    (trades : list (string * option string * gmap string Q)) :
  let files := record_trades trades no_files in
  let thresholds := get_recommended_thresholds config (winning_patterns files) in
  let enough :=
    (10 <= length trades)%nat /\
    Exists (fun trade => 0 < default 0 (snd trade !! "pnl_percent"%string)) trades in
  (enough ->
   exists p, winning_patterns files = Some p /\
     source thresholds = "ai_learned"%string /\
     safety_score thresholds = optimal_safety_score p /\
     lep_confidence thresholds = optimal_lep_confidence p /\
     virality_score thresholds = optimal_virality_score p /\
     based_on_trades thresholds = Some (total_trades p)) /\
  (~ enough ->
   winning_patterns files = None /\
   source thresholds = "config_defaults"%string /\
   safety_score thresholds = safety_threshold config /\
   lep_confidence thresholds = lep_min_confidence config /\
   virality_score thresholds = cascade_min_virality config).
Proof.
  cbv zeta.
  destruct (record_trades_state trades) as (_ & _ & _ & _ & Hsome & Hpat).
  split.
  - intros Henough. apply Hsome in Henough.
    destruct (winning_patterns (record_trades trades no_files)) as [p|] eqn:E;
      [|congruence].
    exists p. split; [reflexivity|].
    destruct (Hpat p eq_refl) as ([Hten _] & _).
    unfold get_recommended_thresholds.
    replace (total_trades p <? 10)%nat with false by (symmetry; apply Nat.ltb_ge; lia).
    repeat split.
  - intros Hnot.
    destruct (winning_patterns (record_trades trades no_files)) as [p|] eqn:E.
    + exfalso. apply Hnot, Hsome. discriminate.
    + repeat split.
Qed.

End TrainerLearning.

(** X12, witness: one trade recorded on a history of ten leaves eleven. *)
Lemma history_capped_at_1000_witness :
  length (ModelTrainer.performance_history
            (ModelTrainer.record_trades
               [("2024-01-01T00:00:00"%string, Some "TestToken123..."%string,
                 {[ "pnl_percent"%string := 250 ]})]
               {| ModelTrainer.performance_history := Sample.ten_wins;
                  ModelTrainer.winning_patterns := None |}))
  = 11%nat.
Proof.
  etransitivity; [apply history_capped_at_1000; discriminate | reflexivity].
Defined.

(** X13, witness: on the ten winning trades of the sample the learned
    safety threshold lies between the scores of two of them. *)
Lemma learned_threshold_range_witness :
  exists lo hi,
    In lo Sample.ten_wins /\ In hi Sample.ten_wins /\
    0 < ModelTrainer.number lo "safety_score" /\
    ModelTrainer.number lo "safety_score"
    <= ModelTrainer._find_optimal_threshold Sample.ten_wins "safety_score"
    <= ModelTrainer.number hi "safety_score".
Proof.
  apply (proj2 (learned_threshold_range Sample.ten_wins "safety_score")).
  apply Exists_exists. exists (Sample.winning_trade 80).
  split; [apply list_elem_of_In; vm_compute; tauto | vm_compute; reflexivity].
Defined.

(** X14, witness: after ten winning trades the patterns file exists and
    its average win is positive. *)
Lemma written_patterns_consistent_witness :
  exists p,
    ModelTrainer.winning_patterns
      (ModelTrainer.record_trades
         (repeat ("2024-01-01T00:00:00"%string, Some "TestToken123..."%string,
                  ({[ "pnl_percent"%string := 250 ]} : gmap string Q)) 10)
         ModelTrainer.no_files) = Some p /\
    0 < ModelTrainer.avg_win p.
Proof.
  eexists. split; [vm_compute; reflexivity|].
  refine (proj1 (proj2 (proj2 (proj2 (proj2 (proj2
            (written_patterns_consistent
               (repeat ("2024-01-01T00:00:00"%string, Some "TestToken123..."%string,
                        ({[ "pnl_percent"%string := 250 ]} : gmap string Q)) 10)
               _ _))))))).
  vm_compute. reflexivity.
Defined.

(** ** What an enabled predictor can return *)

Section LEPRanges.
Import LEPPredictor.
Context `{PyFormat}.
Variable self : Config.
Variable clock_gap : Q.

Lemma clamp_idle (c : Q) : 0 <= c -> c <= 1 -> Py.min (Py.max c 0) 1 = c.
Proof.
  intros H0 H1. unfold Py.min, Py.max.
  cmp_cases (Py.gt 0 c); [lra|]. cmp_cases (Py.lt 1 c); [lra|]. reflexivity.
Qed.

Lemma liquidity_velocity_score (token_data : TokenData)
    (historical_data : option (list (option Q))) :
  let s := get_score (Some (_analyze_liquidity_velocity token_data historical_data)) in
  0 <= s /\ s <= 1 /\
  ((forall l, historical_data = Some l -> (length l < 2)%nat) ->
   s <= 0.5 /\
   get_velocity (Some (_analyze_liquidity_velocity token_data historical_data)) = 0).
Proof.
  cbv zeta. unfold _analyze_liquidity_velocity. cbn [get_score get_velocity].
  split; [|split].
  - destruct (_ && _), (Py.gt _ 1000); lra.
  - destruct (_ && _), (Py.gt _ 1000); lra.
  - intros Hshort.
    assert (Hv : match historical_data with
                 | Some (old :: _ :: _) =>
                     if Py.gt 1 0
                     then (get (liquidity_usd token_data) 0 - get old 0) / 1 else 0
                 | _ => 0
                 end = 0).
    { destruct historical_data as [[|old [|second rest]]|]; try reflexivity.
      specialize (Hshort _ eq_refl). cbn in Hshort. lia. }
    rewrite Hv. split; [|reflexivity].
    change (Py.gt 0 1000) with false. destruct (_ && _); lra.
Qed.

Lemma holder_patterns_score (token_data : TokenData) :
  0 <= get_score (Some (_analyze_holder_patterns token_data)) <= 1.
Proof.
  unfold _analyze_holder_patterns. cbn [get_score].
  destruct (Py.le 50 _ && _), (Py.le 30 _ && _); lra.
Qed.

Lemma age_timing_score (token_data : TokenData) :
  0.3 <= get_score (Some (_analyze_age_timing clock_gap token_data)) <= 1.
Proof.
  unfold _analyze_age_timing.
  destruct (timestamp token_data) as [[[a|]|[a|]|]|]; cbn [get_score];
    try destruct (_ && _); lra.
Qed.

Lemma volume_score (token_data : TokenData) :
  0.4 <= get_score (Some (_analyze_volume token_data)) <= 0.8.
Proof.
  unfold _analyze_volume. cbn [get_score]. destruct (Py.gt _ 10000); lra.
Qed.

(** The confidence of an enabled predictor, before any bound is used. *)
Lemma predict_confidence_sum (token_data : TokenData)
    (historical_data : option (list (option Q))) :
  enabled self = true ->
  confidence (predict_pump_timing self clock_gap token_data historical_data)
  = Py.min (Py.max
      (0 + get_score (Some (_analyze_liquidity_velocity token_data historical_data)) * 0.25
       + get_score (Some (_analyze_holder_patterns token_data)) * 0.25
       + get_score (Some (_analyze_age_timing clock_gap token_data)) * 0.20
       + get_score (Some (_analyze_volume token_data)) * 0.15
       + get_score (Some (_analyze_dev_activity token_data)) * 0.15) 0) 1.
Proof.
  intros Hon. unfold predict_pump_timing. rewrite Hon. cbn [negb confidence].
  apply calculate_confidence_collected.
Qed.

(** X16: The confidence of an enabled predictor lies between 0.195 and 0.895:
    the clamp to [0, 1] never acts, and a confidence of 0 is only
    returned by a disabled predictor. *)
Theorem enabled_confidence_range (token_data : TokenData)
    (historical_data : option (list (option Q))) :
  enabled self = true ->
  0.195 <= confidence (predict_pump_timing self clock_gap token_data historical_data)
  /\ confidence (predict_pump_timing self clock_gap token_data historical_data) <= 0.895.
Proof.
  intros Hon. rewrite (predict_confidence_sum _ _ Hon).
  destruct (liquidity_velocity_score token_data historical_data) as (Hl0 & Hl1 & _).
  pose proof (holder_patterns_score token_data) as Hh.
  pose proof (age_timing_score token_data) as Ha.
  pose proof (volume_score token_data) as Hv.
  change (get_score (Some (_analyze_dev_activity token_data))) with 0.5.
  rewrite clamp_idle by lra. lra.
Qed.

(** X17: Without two samples of history the velocity is 0, the confidence is
    at most 0.77 and the recommendation is never the strong buy of
    confidences from 0.8 up; nor is the prediction ever 8 hours. *)
Theorem no_history_no_strong_buy (token_data : TokenData)
    (historical_data : option (list (option Q))) :
  enabled self = true ->
  (forall l, historical_data = Some l -> (length l < 2)%nat) ->
  let r := predict_pump_timing self clock_gap token_data historical_data in
  confidence r <= 0.77 /\
  (recommendation r
   = ("BUY - Moderate confidence pump in " ++ fmt_1f (predicted_hours r) ++ "h")%string \/
   recommendation r
   = ("CONSIDER - Low confidence pump in " ++ fmt_1f (predicted_hours r) ++ "h")%string \/
   recommendation r = "SKIP - Insufficient confidence"%string) /\
  (predicted_hours r = 6 \/ predicted_hours r = 12 \/ predicted_hours r = 24).
Proof.
  intros Hon Hshort. cbv zeta.
  assert (Hc : confidence (predict_pump_timing self clock_gap token_data historical_data)
               <= 0.77).
  { rewrite (predict_confidence_sum _ _ Hon).
    destruct (liquidity_velocity_score token_data historical_data) as (Hl0 & _ & Hl).
    destruct (Hl Hshort) as [Hl1 _].
    pose proof (holder_patterns_score token_data) as Hh.
    pose proof (age_timing_score token_data) as Ha.
    pose proof (volume_score token_data) as Hv.
    change (get_score (Some (_analyze_dev_activity token_data))) with 0.5.
    rewrite clamp_idle by lra. lra. }
  split; [exact Hc|].
  destruct (liquidity_velocity_score token_data historical_data) as (_ & _ & Hl).
  destruct (Hl Hshort) as [_ Hvel].
  revert Hc. unfold predict_pump_timing. rewrite Hon.
  cbn [negb confidence recommendation predicted_hours].
  generalize (_calculate_confidence
                (<["dev_activity"%string := _analyze_dev_activity token_data]>
                   (<["volume_momentum"%string := _analyze_volume token_data]>
                      (<["age_timing"%string := _analyze_age_timing clock_gap token_data]>
                         (<["holder_accumulation"%string :=
                              _analyze_holder_patterns token_data]>
                            (<["liquidity_velocity"%string :=
                                 _analyze_liquidity_velocity token_data historical_data]>
                               ∅)))))).
  intros c Hc. split.
  - unfold _generate_recommendation.
    cmp_cases (Py.ge c 0.8); [lra|].
    destruct (Py.ge c 0.6); [left; reflexivity|].
    destruct (Py.ge c 0.4); [right; left; reflexivity | right; right; reflexivity].
  - unfold _predict_hours.
    repeat (rewrite lookup_insert_eq || rewrite lookup_insert_ne by discriminate).
    rewrite Hvel. change (Py.gt 0 2000) with false. cbv iota.
    destruct (Py.lt c 0.5); [auto|].
    destruct (get_in_sweet_spot _); auto.
Qed.

(** X18: The prediction of an enabled predictor is 6, 8, 12 or 24 hours, and
    it is 24 exactly when the confidence is below 0.5; in the sweet spot
    of the token's age a confident prediction is 6 hours whatever the
    velocity. *)
Theorem predicted_hours_values (token_data : TokenData)
    (historical_data : option (list (option Q))) :
  enabled self = true ->
  let r := predict_pump_timing self clock_gap token_data historical_data in
  (predicted_hours r = 6 \/ predicted_hours r = 8 \/
   predicted_hours r = 12 \/ predicted_hours r = 24) /\
  (predicted_hours r = 24 <-> confidence r < 0.5) /\
  (0.5 <= confidence r ->
   get_in_sweet_spot (signals r !! "age_timing"%string) = true ->
   predicted_hours r = 6).
Proof.
  intros Hon. cbv zeta. unfold predict_pump_timing. rewrite Hon.
  cbn [negb confidence signals predicted_hours].
  generalize (_calculate_confidence
                (<["dev_activity"%string := _analyze_dev_activity token_data]>
                   (<["volume_momentum"%string := _analyze_volume token_data]>
                      (<["age_timing"%string := _analyze_age_timing clock_gap token_data]>
                         (<["holder_accumulation"%string :=
                              _analyze_holder_patterns token_data]>
                            (<["liquidity_velocity"%string :=
                                 _analyze_liquidity_velocity token_data historical_data]>
                               ∅)))))).
  intros c. unfold _predict_hours.
  repeat (rewrite lookup_insert_eq || rewrite lookup_insert_ne by discriminate).
  cmp_cases (Py.lt c 0.5).
  - split; [auto|]. split; [tauto|]. intros Hc. lra.
  - destruct (get_in_sweet_spot _), (Py.gt (get_velocity _) 2000);
      (split; [auto|]); (split; [|auto; discriminate]);
      (split; [vm_compute; discriminate | lra]).
Qed.

End LEPRanges.

(** X16, witness: the empty snapshot still has a confidence of 0.195 or
    more. *)
Lemma enabled_confidence_range_witness :
  0.195 <= LEPPredictor.confidence
             (LEPPredictor.predict_pump_timing Sample.lep_config 0 Sample.empty_token None).
Proof.
  exact (proj1 (enabled_confidence_range Sample.lep_config 0 Sample.empty_token None
                  eq_refl)).
Defined.

(** X17, witness: with one sample of history the scenario snapshot stays
    at a confidence of at most 0.77. *)
Lemma no_history_no_strong_buy_witness :
  LEPPredictor.confidence
    (LEPPredictor.predict_pump_timing Sample.lep_config 0 Sample.lep_token (Some [Some 0]))
  <= 0.77.
Proof.
  refine (proj1 (no_history_no_strong_buy Sample.lep_config 0 Sample.lep_token
                   (Some [Some 0]) eq_refl _)).
  intros l [= <-]. cbn. lia.
Defined.

(** X18, witness: the scenario snapshot, in the sweet spot and with a
    confidence above 0.5, is predicted at 6 hours. *)
Lemma predicted_hours_values_witness :
  LEPPredictor.predicted_hours
    (LEPPredictor.predict_pump_timing Sample.lep_config 0 Sample.lep_token
       (Some [Some 0; Some 0])) = 6.
Proof.
  refine (proj2 (proj2 (predicted_hours_values Sample.lep_config 0 Sample.lep_token
                          (Some [Some 0; Some 0]) eq_refl)) _ _).
  - vm_compute. discriminate.
  - vm_compute. reflexivity.
Defined.

(** ** What an enabled sentinel can return *)

Section CascadeTiers.
Import CascadeSentinel.
Variable self : Config.
Variable clock_gap : Q.

(** A rate per minute of age is above [k] exactly when the age is
    positive and the quantity exceeds [k] times the age. *)
Lemma rate_above (x age k : Q) :
  Py.gt (if Py.gt age 0 then x / age else 0) k = true <->
  (0 < age /\ k * age < x) \/ (age <= 0 /\ k < 0).
Proof.
  cmp_cases (Py.gt age 0); rewrite gt_true.
  - split.
    + intros Hk. left. split; [exact E|].
      apply (Qmult_lt_r _ _ age E) in Hk.
      assert (Heq : x / age * age == x) by (field; lra).
      rewrite Heq in Hk. exact Hk.
    + intros [[_ Hk] | [Hage _]]; [|lra].
      apply Qlt_shift_div_l; assumption.
  - split; [intros Hk; right; auto | intros [[Hage _] | [_ Hk]]; [lra | exact Hk]].
Qed.

(** The score of an enabled sentinel as a function of the five tests
    the analysers make. *)
Lemma predict_virality_tests (token_data : TokenData)
    (social_data : option (gmap string string)) :
  enabled self = true ->
  let holders := get (holders token_data) 0 in
  let age_minutes := _get_age_minutes clock_gap token_data in
  virality_score (predict_virality self clock_gap token_data social_data)
  = Py.int
      ((0
        + (if Py.gt (if Py.gt age_minutes 0 then holders / age_minutes else 0) 10
           then 0.8 else 0.4) * 0.25
        + (let score := 0 in
           let score := if Py.ge holders 100 then score + 0.5 else score in
           if Py.lt (get (top_holder_percent token_data) 0) 50
           then score + 0.5 else score) * 0.20
        + (if Py.le 50 holders && Py.le holders 150 then 0.7 else 0.4) * 0.20
        + (if Py.gt (if Py.gt age_minutes 0
                     then get (liquidity_usd token_data) 0 / age_minutes else 0) 1000
           then 0.8 else 0.4) * 0.25
        + 0.5 * 0.10) * 100).
Proof.
  intros Hon. cbv zeta. unfold predict_virality. rewrite Hon. cbn [negb virality_score].
  rewrite calculate_virality_score_sum.
  repeat (rewrite lookup_insert_eq || rewrite lookup_insert_ne by discriminate).
  rewrite (social_momentum_score social_data). reflexivity.
Qed.

(** X19: The score of an enabled sentinel is at least 33, so that a score of
    0 only comes from a disabled sentinel, and the social data never
    changes it. *)
Theorem enabled_virality_floor (token_data : TokenData)
    (social_data : option (gmap string string)) :
  enabled self = true ->
  (33 <= virality_score (predict_virality self clock_gap token_data social_data))%Z /\
  virality_score (predict_virality self clock_gap token_data social_data)
  = virality_score (predict_virality self clock_gap token_data None).
Proof.
  intros Hon. split.
  - rewrite (predict_virality_tests _ _ Hon). cbv zeta.
    destruct (Py.gt (if Py.gt _ 0 then get (holders token_data) 0 / _ else 0) 10),
      (Py.ge _ 100), (Py.lt _ 50), (Py.le 50 _ && Py.le _ 150),
      (Py.gt (if Py.gt _ 0 then get (liquidity_usd token_data) 0 / _ else 0) 1000);
      vm_compute; discriminate.
  - rewrite !(predict_virality_tests _ _ Hon). reflexivity.
Qed.

Lemma tier_of_tests (b1 b2 b3 b4 b5 : bool) :
  let score :=
    Py.int
      ((0
        + (if b1 then 0.8 else 0.4) * 0.25
        + (let score := 0 in
           let score := if b2 then score + 0.5 else score in
           if b3 then score + 0.5 else score) * 0.20
        + (if b4 then 0.7 else 0.4) * 0.20
        + (if b5 then 0.8 else 0.4) * 0.25
        + 0.5 * 0.10) * 100) in
  ((75 <= score)%Z <-> score = 79%Z) /\
  (score = 79%Z <-> b1 && b2 && b3 && b4 && b5 = true) /\
  (_generate_recommendation score = "STRONG VIRAL - High viral potential"%string <->
   score = 79%Z).
Proof.
  destruct b1, b2, b3, b4, b5; vm_compute;
    (split; [split; intros Hx; first [reflexivity | discriminate Hx | congruence
                                      | exfalso; apply Hx; reflexivity]|]);
    (split; split; intros Hx; first [reflexivity | discriminate Hx | congruence]).
Qed.

(** X20: A score of 75 or more, the default alert level, is a score of 79,
    and is given exactly when all four tests on the snapshot succeed:
    between 100 and 150 holders, a top holder below 50 per cent, more
    than 10 holders and more than 1000 of liquidity per minute of age.
    Only then is the recommendation the strong one. *)
Theorem strong_viral_exactly_at_79 (token_data : TokenData)
    (social_data : option (gmap string string)) :
  enabled self = true ->
  let r := predict_virality self clock_gap token_data social_data in
  let holders := get (holders token_data) 0 in
  let age_minutes := _get_age_minutes clock_gap token_data in
  ((75 <= virality_score r)%Z <-> virality_score r = 79%Z) /\
  (virality_score r = 79%Z <->
   100 <= holders /\ holders <= 150 /\
   get (top_holder_percent token_data) 0 < 50 /\
   0 < age_minutes /\ 10 * age_minutes < holders /\
   1000 * age_minutes < get (liquidity_usd token_data) 0) /\
  (recommendation r = "STRONG VIRAL - High viral potential"%string <->
   virality_score r = 79%Z).
Proof.
  intros Hon. cbv zeta.
  assert (Hrec : recommendation (predict_virality self clock_gap token_data social_data)
                 = _generate_recommendation
                     (virality_score
                        (predict_virality self clock_gap token_data social_data))).
  { unfold predict_virality. rewrite Hon. reflexivity. }
  rewrite Hrec, (predict_virality_tests _ _ Hon). cbv zeta. clear Hrec.
  pose proof (rate_above (get (holders token_data) 0)
                (_get_age_minutes clock_gap token_data) 10) as Hgrowth.
  pose proof (rate_above (get (liquidity_usd token_data) 0)
                (_get_age_minutes clock_gap token_data) 1000) as Hcascade.
  pose proof (ge_true (get (holders token_data) 0) 100) as Hcount.
  pose proof (lt_true (get (top_holder_percent token_data) 0) 50) as Htop.
  pose proof (le_true 50 (get (holders token_data) 0)) as Hlow.
  pose proof (le_true (get (holders token_data) 0) 150) as Hhigh.
  revert Hgrowth Hcascade Hcount Htop Hlow Hhigh.
  generalize (Py.gt (if Py.gt (_get_age_minutes clock_gap token_data) 0
                     then get (holders token_data) 0
                          / _get_age_minutes clock_gap token_data else 0) 10),
             (Py.gt (if Py.gt (_get_age_minutes clock_gap token_data) 0
                     then get (liquidity_usd token_data) 0
                          / _get_age_minutes clock_gap token_data else 0) 1000),
             (Py.ge (get (holders token_data) 0) 100),
             (Py.lt (get (top_holder_percent token_data) 0) 50),
             (Py.le 50 (get (holders token_data) 0)),
             (Py.le (get (holders token_data) 0) 150).
  intros b1 b5 b2 b3 b4a b4b Hgrowth Hcascade Hcount Htop Hlow Hhigh.
  destruct (tier_of_tests b1 b2 b3 (b4a && b4b) b5) as (Hlevel & Htests & Hstrong).
  cbv zeta in Hlevel, Htests, Hstrong.
  split; [exact Hlevel|]. split; [|exact Hstrong].
  rewrite Htests, !andb_true_iff, Hgrowth, Hcascade, Hcount, Htop, Hlow, Hhigh.
  split.
  - intros ((((Hg & Hc) & Ht) & Hl & Hh) & Hk).
    destruct Hg as [[Hage Hg] | [_ Hneg]]; [|lra].
    destruct Hk as [[_ Hk] | [_ Hneg]]; [|lra].
    repeat split; assumption.
  - intros (Hc & Hh & Ht & Hage & Hg & Hk).
    repeat split; try assumption; try lra; left; split; assumption.
Qed.

End CascadeTiers.

(** X19, witness: the empty snapshot scores at least 33. *)
Lemma enabled_virality_floor_witness :
  (33 <= CascadeSentinel.virality_score
           (CascadeSentinel.predict_virality Sample.cascade_config 0 Sample.empty_token
              None))%Z.
Proof.
  exact (proj1 (enabled_virality_floor Sample.cascade_config 0 Sample.empty_token None
                  eq_refl)).
Defined.

(** X20, witness: the sample snapshot reaches the alert level, hence
    scores 79. *)
Lemma strong_viral_exactly_at_79_witness :
  CascadeSentinel.virality_score
    (CascadeSentinel.predict_virality Sample.cascade_config 0 Sample.viral_token None)
  = 79%Z.
Proof.
  apply (proj1 (strong_viral_exactly_at_79 Sample.cascade_config 0 Sample.viral_token None
                  eq_refl)).
  vm_compute. discriminate.
Defined.

(** ** The chain monitors *)

Section SolanaMonitorFacts.
Import SolanaMonitor.
Variable has_callback : bool.

(** One scan hands over new signatures only: none that was seen before
    it, none twice, and each is seen after it. *)
Lemma scan_new (transaction : string -> Fetch) (sigs : list string) :
  forall (seen_tokens : gset string) (detected : list string),
  exists new,
    snd (scan has_callback transaction sigs seen_tokens detected) = detected ++ new /\
    NoDup new /\
    seen_tokens ⊆ fst (scan has_callback transaction sigs seen_tokens detected) /\
    (forall s, s ∈ new ->
       (s ∉ seen_tokens) /\
       s ∈ fst (scan has_callback transaction sigs seen_tokens detected)).
Proof.
  induction sigs as [|signature sigs IH]; intros seen_tokens detected; cbn [scan].
  - exists []. rewrite app_nil_r. cbn. split; [reflexivity|]. split; [constructor|].
    split; [reflexivity|]. intros s Hs. inversion Hs.
  - case_bool_decide as Hseen; [apply IH|].
    assert (Hstop : forall detected',
              (exists new0, detected' = detected ++ new0 /\ NoDup new0 /\
                            forall s, s ∈ new0 -> s = signature) ->
              exists new,
                snd (({[signature]} ∪ seen_tokens), detected') = detected ++ new /\
                NoDup new /\
                seen_tokens ⊆ fst (({[signature]} ∪ seen_tokens), detected') /\
                (forall s, s ∈ new ->
                   (s ∉ seen_tokens) /\ s ∈ fst (({[signature]} ∪ seen_tokens), detected'))).
    { intros detected' (new0 & -> & Hnd & Hall). exists new0. cbn [fst snd].
      split; [reflexivity|]. split; [exact Hnd|]. split; [set_solver|].
      intros s Hs. rewrite (Hall s Hs). set_solver. }
    assert (Hgo : forall new0,
              NoDup new0 -> (forall s, s ∈ new0 -> s = signature) ->
              exists new,
                snd (scan has_callback transaction sigs ({[signature]} ∪ seen_tokens)
                       (detected ++ new0)) = detected ++ new /\
                NoDup new /\
                seen_tokens ⊆ fst (scan has_callback transaction sigs
                                     ({[signature]} ∪ seen_tokens) (detected ++ new0)) /\
                (forall s, s ∈ new ->
                   (s ∉ seen_tokens) /\
                   s ∈ fst (scan has_callback transaction sigs
                              ({[signature]} ∪ seen_tokens) (detected ++ new0)))).
    { intros new0 Hnd Hall.
      destruct (IH ({[signature]} ∪ seen_tokens) (detected ++ new0))
        as (new & Hdet & Hnew & Hsub & Hof).
      exists (new0 ++ new). rewrite Hdet, app_assoc.
      split; [reflexivity|]. split; [|split].
      - apply NoDup_app. split; [exact Hnd|]. split; [|exact Hnew].
        intros s Hs Hs'. rewrite (Hall s Hs) in Hs'.
        pose proof (Hof _ Hs') as [Hnot _].
        apply Hnot, elem_of_union. left. apply elem_of_singleton. reflexivity.
      - intros x Hx. apply Hsub, elem_of_union. right. exact Hx.
      - intros s Hs. apply elem_of_app in Hs. destruct Hs as [Hs | Hs].
        + rewrite (Hall s Hs). split; [exact Hseen|].
          apply Hsub, elem_of_union. left. apply elem_of_singleton. reflexivity.
        + pose proof (Hof s Hs) as [Hnot Hthere]. split; [|exact Hthere].
          intros Hx. apply Hnot, elem_of_union. right. exact Hx. }
    assert (Hnone : forall s : string, s ∈ @nil string -> s = signature)
      by (intros s Hs; inversion Hs).
    assert (Hone : forall s : string, s ∈ [signature] -> s = signature)
      by (intros s Hs; apply list_elem_of_singleton in Hs; exact Hs).
    destruct (transaction signature) as [| |callback_raises].
    + apply Hstop. exists []. rewrite app_nil_r. repeat split; [constructor | exact Hnone].
    + specialize (Hgo [] NoDup_nil_2 Hnone). rewrite app_nil_r in Hgo. exact Hgo.
    + destruct has_callback.
      * destruct callback_raises.
        -- apply Hstop. exists [signature].
           repeat split; [apply NoDup_singleton | exact Hone].
        -- apply (Hgo [signature]); [apply NoDup_singleton | exact Hone].
      * specialize (Hgo [] NoDup_nil_2 Hnone). rewrite app_nil_r in Hgo. exact Hgo.
Qed.

Lemma check_raydium_pools_new (poll : Poll) (seen_tokens : gset string)
    (detected : list string) :
  exists new,
    snd (_check_raydium_pools has_callback poll seen_tokens detected) = detected ++ new /\
    NoDup new /\
    seen_tokens ⊆ fst (_check_raydium_pools has_callback poll seen_tokens detected) /\
    (forall s, s ∈ new ->
       (s ∉ seen_tokens) /\
       s ∈ fst (_check_raydium_pools has_callback poll seen_tokens detected)).
Proof.
  unfold _check_raydium_pools. destruct (signatures poll) as [sigs|]; [apply scan_new|].
  exists []. rewrite app_nil_r. cbn. split; [reflexivity|]. split; [constructor|].
  split; [reflexivity|]. intros s Hs. inversion Hs.
Qed.

Lemma monitor_polling_snoc (polls : list Poll) (poll : Poll) :
  _monitor_polling has_callback (polls ++ [poll])
  = _check_raydium_pools has_callback poll
      (fst (_monitor_polling has_callback polls))
      (snd (_monitor_polling has_callback polls)).
Proof.
  unfold _monitor_polling. rewrite fold_left_app. cbn [fold_left].
  destruct (fold_left _ polls (∅, [])) as [seen_tokens detected]. reflexivity.
Qed.

(** X21: Over any sequence of polls no signature is handed to the callback
    twice, and every signature handed over is marked as seen. *)
Theorem detections_are_distinct (polls : list Poll) :
  NoDup (snd (_monitor_polling has_callback polls)) /\
  forall s, s ∈ snd (_monitor_polling has_callback polls) ->
            s ∈ fst (_monitor_polling has_callback polls).
Proof.
  induction polls as [|poll polls [IHnd IHin]] using rev_ind.
  - cbn. split; [constructor|]. intros s Hs. inversion Hs.
  - rewrite monitor_polling_snoc.
    destruct (check_raydium_pools_new poll (fst (_monitor_polling has_callback polls))
                (snd (_monitor_polling has_callback polls)))
      as (new & -> & Hnew & Hsub & Hin).
    split.
    + apply NoDup_app. split; [exact IHnd|]. split; [|exact Hnew].
      intros s Hs Hs'. destruct (Hin s Hs') as [Hnot _]. apply Hnot, IHin, Hs.
    + intros s Hs. apply elem_of_app in Hs. destruct Hs as [Hs | Hs].
      * apply Hsub, IHin, Hs.
      * apply (Hin s Hs).
Qed.

(** X22: A signature that is marked as seen without having been handed to
    the callback (its transaction could not be fetched, or was empty, or
    no callback was set) is never handed over by any later poll: it is
    not retried. *)
Theorem seen_signature_is_not_retried (polls later : list Poll) (s : string) :
  s ∈ fst (_monitor_polling has_callback polls) ->
  s ∉ snd (_monitor_polling has_callback polls) ->
  s ∈ fst (_monitor_polling has_callback (polls ++ later)) /\
  s ∉ snd (_monitor_polling has_callback (polls ++ later)).
Proof.
  intros Hseen Hnot.
  induction later as [|poll later [IHseen IHnot]] using rev_ind.
  - rewrite app_nil_r. split; assumption.
  - rewrite app_assoc, monitor_polling_snoc.
    destruct (check_raydium_pools_new poll
                (fst (_monitor_polling has_callback (polls ++ later)))
                (snd (_monitor_polling has_callback (polls ++ later))))
      as (new & -> & Hnew & Hsub & Hin).
    split; [apply Hsub, IHseen|].
    intros Hs. apply elem_of_app in Hs. destruct Hs as [Hs | Hs]; [exact (IHnot Hs)|].
    destruct (Hin s Hs) as [Hfresh _]. exact (Hfresh IHseen).
Qed.

End SolanaMonitorFacts.

Section BSCMonitorFacts.
Import BSCMonitor.
Variable has_callback : bool.

Lemma pass_ranges (start_block : Z) (st : State) (now : Py.call Z * Chain) :
  (start_block <= last_block st)%Z ->
  flat_map (fun r => seqZ (fst r) (snd r - fst r + 1)) (ranges st)
  = seqZ (start_block + 1) (last_block st - start_block) ->
  (last_block st <= last_block (pass has_callback st now))%Z /\
  flat_map (fun r => seqZ (fst r) (snd r - fst r + 1)) (ranges (pass has_callback st now))
  = seqZ (start_block + 1) (last_block (pass has_callback st now) - start_block).
Proof.
  intros Hstart Hranges. unfold pass.
  destruct now as [[current_block|] chain]; [|split; [lia | exact Hranges]].
  destruct (Z.ltb_spec (last_block st) current_block) as [Hlt | Hge];
    [|split; [lia | exact Hranges]].
  destruct (_check_new_pairs has_callback chain (last_block st + 1) current_block
              (seen_pairs st) (detected st)) as [seen found].
  cbn [last_block ranges]. split; [lia|].
  rewrite flat_map_app, Hranges. cbn [flat_map fst snd]. rewrite app_nil_r.
  replace (current_block - (last_block st + 1) + 1)%Z
    with (current_block - last_block st)%Z by lia.
  replace (current_block - start_block)%Z
    with ((last_block st - start_block) + (current_block - last_block st))%Z by lia.
  rewrite seqZ_app by lia. do 2 f_equal. lia.
Qed.

(** X23: Every block after the one the monitor started at, up to the last
    one it has read, is asked for exactly once and in order, whether or
    not the query for its range succeeded: a range whose query failed is
    not asked for again. *)
Theorem block_ranges_are_contiguous (start_block : Z)
    (readings : list (Py.call Z * Chain)) :
  (start_block <= last_block (_monitor_blocks has_callback start_block readings))%Z /\
  flat_map (fun r => seqZ (fst r) (snd r - fst r + 1))
           (ranges (_monitor_blocks has_callback start_block readings))
  = seqZ (start_block + 1)
         (last_block (_monitor_blocks has_callback start_block readings) - start_block).
Proof.
  unfold _monitor_blocks.
  induction readings as [|now readings [IHstart IHranges]] using rev_ind.
  - cbn [fold_left last_block ranges flat_map]. split; [lia|].
    rewrite Z.sub_diag. reflexivity.
  - rewrite fold_left_app. cbn [fold_left].
    destruct (pass_ranges start_block _ now IHstart IHranges) as [Hle Hranges].
    split; [lia | exact Hranges].
Qed.

End BSCMonitorFacts.

(** X22, witness: a signature whose transaction could not be fetched in
    one poll is not handed over when the next poll lists it again. *)
Lemma seen_signature_is_not_retried_witness :
  "5VERv8NMvzbJMEkV8xnrLkEaWRtSz9CosKDYjCJjBRnb"%string
  ∉ snd (SolanaMonitor._monitor_polling true ([Cases.failing_poll] ++ [Cases.serving_poll])).
Proof.
  refine (proj2 (seen_signature_is_not_retried true [Cases.failing_poll]
                   [Cases.serving_poll] _ _ _)).
  - apply (bool_decide_unpack _). vm_compute. reflexivity.
  - apply (bool_decide_unpack _). vm_compute. reflexivity.
Defined.

(** ** The tiers in binary64 *)

Section RoundedTiers.
Import Binary64.
#[local] Set Warnings "-inexact-float".
#[local] Open Scope float_scope.

(** On numeric data the weighted sum of the sentinel times 100 is at
    least 33, and it is below 74 unless all four tests succeed, in which
    case it is exactly 79. *)
Example cascade_tiers_rounded :
  forallb (fun scores =>
             let score := weighted_sum (combine scores cascade_weights) * 100 in
             PrimFloat.leb 33 score &&
             (PrimFloat.ltb score 74 ||
              (PrimFloat.eqb score 79 &&
               forallb (fun '(x, y) => PrimFloat.eqb x y)
                       (combine scores [0.8; 1.0; 0.7; 0.8; 0.5]))))
          (choices cascade_number_choices) = true.
Proof. vm_compute. reflexivity. Qed.

(** Whatever the analysers of the predictor return, the weighted sum
    lies between 0.195 and 0.895, and it is at most 0.77 when the
    velocity score is not the full one. *)
Example lep_confidence_rounded :
  forallb (fun scores =>
             let confidence := weighted_sum (combine scores lep_weights) in
             PrimFloat.leb 0.195 confidence && PrimFloat.leb confidence 0.895 &&
             (PrimFloat.eqb (hd 0 scores) 1 || PrimFloat.leb confidence 0.77))
          (choices lep_score_choices) = true.
Proof. vm_compute. reflexivity. Qed.

(** The balance identity of the paper session in binary64, for one
    trade of 0.05 from a balance of 10 at the demo price: on each of the
    draws the balance after the sale is within 2^-49, one unit in the
    last place, of the initial balance plus the booked result, and on
    some of them the two differ. *)
Example paper_balance_rounded :
  forallb (fun price_change =>
             let pnl := pnl_percent 0.00000123 price_change in
             PrimFloat.leb (abs (balance_after_trade 10 0.05 pnl - booked 10 0.05 pnl))
                           0x1p-49)
          paper_draws = true /\
  existsb (fun price_change =>
             let pnl := pnl_percent 0.00000123 price_change in
             negb (PrimFloat.eqb (balance_after_trade 10 0.05 pnl) (booked 10 0.05 pnl)))
          paper_draws = true.
Proof. split; vm_compute; reflexivity. Qed.

End RoundedTiers.
